(** * cpu_specs: a shallow embedding of the CPUID decode engine

    The development follows the layout of [cpu_specs.c]: fixed-width integer
    helpers, the data model of [cpu_specs.h], the machine the code runs on
    (flag register, CPUID query primitive, the two global singletons), then
    the AMD, Intel and vendor-independent decoders and the public entry
    points.  Theorems come after all definitions. *)

From Stdlib Require Import ZArith Lia List Bool String Ascii.
From Stdlib Require Import Strings.Byte.
Import ListNotations.
Local Open Scope Z_scope.

(* ===================================================================== *)
(** ** Fixed-width integers ([types.h]) *)

Module Int32.

Definition modulus : Z := 2 ^ 32.
Definition half_modulus : Z := 2 ^ 31.

(** [u32]: the value modulo 2^32. *)
Definition to_u32 (x : Z) : Z := x mod modulus.

(** [s32]: the two's complement reading of the low 32 bits. *)
Definition to_s32 (x : Z) : Z :=
  let u := x mod modulus in
  if u <? half_modulus then u else u - modulus.

Definition in_s32 (x : Z) : Prop := - half_modulus <= x < half_modulus.
Definition in_u32 (x : Z) : Prop := 0 <= x < modulus.

Definition add (x y : Z) : Z := to_s32 (x + y).
Definition mul (x y : Z) : Z := to_s32 (x * y).
Definition sub (x y : Z) : Z := to_s32 (x - y).
Definition neg (x : Z) : Z := to_s32 (- x).

(** [x >> n] on an [s32] is an arithmetic shift, [x & y], [x | y] and
    [x ^ y] act on the two's complement bits: these are [Z.shiftr],
    [Z.land], [Z.lor] and [Z.lxor], which keep a value in range. *)

End Int32.

(** [KiB(x)] *)
Definition KiB (x : Z) : Z := x * 1024.

(* ===================================================================== *)
(** ** Data model ([cpu_specs.h]) *)

Inductive cpuid_output_register : Type := EAX | EBX | ECX | EDX.

(** [s32 cpuid_out[4]], indexed by [cpuid_output_register]. *)
Definition cpuid_out_t : Type := cpuid_output_register -> Z.

Definition CPU_MANUFACTURER_AMD   : Z := 0x444D4163.
Definition CPU_MANUFACTURER_INTEL : Z := 0x6C65746E.

Inductive cache_level : Type := L1 | L2 | L3.

Definition cache_level_index (l : cache_level) : Z :=
  match l with L1 => 0 | L2 => 1 | L3 => 2 end.

Definition CACHE_LEVEL_COUNT : Z := 3.

Inductive cpu_instruction : Type :=
| SSE1 | SSE2 | SSE3 | SSSE3 | SSE4_1 | SSE4_2 | AVX1 | AVX2 | FMA3 | AVX512F
| POPCNT | LZCNT | TZCNT | BMI1 | BMI2 | TBM
| RDTSCP | F16C.

(** The position of the bit of an instruction flag: [F = 1 << flag_pos F]. *)
Definition flag_pos (f : cpu_instruction) : Z :=
  match f with
  | SSE1 => 0 | SSE2 => 1 | SSE3 => 2 | SSSE3 => 3 | SSE4_1 => 4
  | SSE4_2 => 5 | AVX1 => 6 | AVX2 => 7 | FMA3 => 8 | AVX512F => 9
  | POPCNT => 10 | LZCNT => 11 | TZCNT => 12 | BMI1 => 13 | BMI2 => 14
  | TBM => 15
  | RDTSCP => 16 | F16C => 17
  end.

Definition flag_mask (f : cpu_instruction) : Z := Z.shiftl 1 (flag_pos f).

Coercion flag_mask : cpu_instruction >-> Z.

Record cpuid_ctx : Type := mk_cpuid_ctx {
  max_standard_func : Z;   (* u32 *)
  max_extended_func : Z    (* u32 *)
}.

Record cpu_cache_level_specs : Type := mk_cache_level {
  data_cache_size     : Z;
  attached_core_count : Z
}.

(** [struct cpu_cache_level_specs cache_level_specs[CACHE_LEVEL_COUNT]] *)
Record cache_array : Type := mk_cache_array {
  at_L1 : cpu_cache_level_specs;
  at_L2 : cpu_cache_level_specs;
  at_L3 : cpu_cache_level_specs
}.

Definition cache_get (l : cache_level) (a : cache_array) : cpu_cache_level_specs :=
  match l with L1 => at_L1 a | L2 => at_L2 a | L3 => at_L3 a end.

Definition cache_set (l : cache_level) (e : cpu_cache_level_specs) (a : cache_array)
  : cache_array :=
  match l with
  | L1 => mk_cache_array e (at_L2 a) (at_L3 a)
  | L2 => mk_cache_array (at_L1 a) e (at_L3 a)
  | L3 => mk_cache_array (at_L1 a) (at_L2 a) e
  end.

(** An [s32] index designates an element of the array only when it is one
    of 0, 1, 2. *)
Definition cache_level_of_index (i : Z) : option cache_level :=
  if i =? 0 then Some L1
  else if i =? 1 then Some L2
  else if i =? 2 then Some L3
  else None.

Record struct_cpu_specs : Type := mk_cpu_specs {
  cache_level_specs : cache_array;
  cache_line_size   : Z;
  threads_per_core  : Z;
  core_count        : Z;
  instructions      : Z
}.

Record struct_cpu_identity : Type := mk_cpu_identity {
  family       : Z;
  model        : Z;
  stepping     : Z;
  manufacturer : list byte;   (* schar8 manufacturer[12] *)
  name         : list byte    (* schar8 name[48] *)
}.

(** Field updates of [struct cpu_specs]. *)
Definition set_cache_level_specs (v : cache_array) (s : struct_cpu_specs) :=
  mk_cpu_specs v (cache_line_size s) (threads_per_core s) (core_count s) (instructions s).
Definition set_cache_line_size (v : Z) (s : struct_cpu_specs) :=
  mk_cpu_specs (cache_level_specs s) v (threads_per_core s) (core_count s) (instructions s).
Definition set_threads_per_core (v : Z) (s : struct_cpu_specs) :=
  mk_cpu_specs (cache_level_specs s) (cache_line_size s) v (core_count s) (instructions s).
Definition set_core_count (v : Z) (s : struct_cpu_specs) :=
  mk_cpu_specs (cache_level_specs s) (cache_line_size s) (threads_per_core s) v (instructions s).
Definition set_instructions (v : Z) (s : struct_cpu_specs) :=
  mk_cpu_specs (cache_level_specs s) (cache_line_size s) (threads_per_core s) (core_count s) v.

Definition set_data_cache_size (l : cache_level) (v : Z) (s : struct_cpu_specs) :=
  let a := cache_level_specs s in
  set_cache_level_specs
    (cache_set l (mk_cache_level v (attached_core_count (cache_get l a))) a) s.
Definition set_attached_core_count (l : cache_level) (v : Z) (s : struct_cpu_specs) :=
  let a := cache_level_specs s in
  set_cache_level_specs
    (cache_set l (mk_cache_level (data_cache_size (cache_get l a)) v) a) s.

(** Field updates of [struct cpu_identity]. *)
Definition set_family (v : Z) (i : struct_cpu_identity) :=
  mk_cpu_identity v (model i) (stepping i) (manufacturer i) (name i).
Definition set_model (v : Z) (i : struct_cpu_identity) :=
  mk_cpu_identity (family i) v (stepping i) (manufacturer i) (name i).
Definition set_stepping (v : Z) (i : struct_cpu_identity) :=
  mk_cpu_identity (family i) (model i) v (manufacturer i) (name i).
Definition set_manufacturer (v : list byte) (i : struct_cpu_identity) :=
  mk_cpu_identity (family i) (model i) (stepping i) v (name i).
Definition set_name (v : list byte) (i : struct_cpu_identity) :=
  mk_cpu_identity (family i) (model i) (stepping i) (manufacturer i) v.

(* ===================================================================== *)
(** ** Byte buffers

    The manufacturer and name buffers are written and read through
    [u32*]/[s32*] casts; x86 is little-endian. *)

Module Bytes.

Definition byte_of_Z (x : Z) : byte :=
  match Byte.of_N (Z.to_N (x mod 256)) with
  | Some b => b
  | None => x00
  end.

Definition Z_of_byte (b : byte) : Z := Z.of_N (Byte.to_N b).

(** The four bytes of a 32-bit word, lowest address first. *)
Definition le_bytes (w : Z) : list byte :=
  [ byte_of_Z w; byte_of_Z (Z.shiftr w 8);
    byte_of_Z (Z.shiftr w 16); byte_of_Z (Z.shiftr w 24) ].

(** The unsigned 32-bit word spelled by (at most) four bytes. *)
Fixpoint le_word (bs : list byte) : Z :=
  match bs with
  | [] => 0
  | b :: bs' => Z_of_byte b + 256 * le_word bs'
  end.

(** [*(u32* )(buf + off) = w]: overwrite [length bs] bytes at [off]. *)
Definition store (off : nat) (bs : list byte) (buf : list byte) : list byte :=
  (firstn off buf ++ bs ++ skipn (off + List.length bs) buf)%list.

(** [*(s32* )(buf + off)] *)
Definition load_s32 (off : nat) (buf : list byte) : Z :=
  Int32.to_s32 (le_word (firstn 4 (skipn off buf))).

(** A C string literal initialising a [char[n]]: the characters, then
    zero bytes up to [n]. *)
Definition of_literal (n : nat) (s : string) : list byte :=
  let bs := list_byte_of_string s in
  (bs ++ repeat x00 (n - List.length bs))%list.

(** The 16 bytes of an [s32 cpuid_out[4]] in memory. *)
Definition of_cpuid_out (cpuid_out : cpuid_out_t) : list byte :=
  (le_bytes (cpuid_out EAX) ++ le_bytes (cpuid_out EBX) ++
   le_bytes (cpuid_out ECX) ++ le_bytes (cpuid_out EDX))%list.

End Bytes.

(* ===================================================================== *)
(** ** The machine

    The code talks to the processor through three intrinsics, declared
    [extern] in [cpu_specs.c]: [__readeflags], [__writeeflags] and
    [__cpuidex].  The processor is a parameter of the model. *)

(** The build configuration of [isa.h]. *)
Inductive ISA : Type := ISA_x64 | ISA_x86.

Record hardware : Type := mk_hardware {
  (** What the CPUID instruction answers for a (function, sub-function)
      pair, both read as unsigned 32-bit numbers: one value per output
      register. *)
  hw_cpuid : Z -> Z -> cpuid_output_register -> Z;
  (** Whether software can change bit 21 (ID) of the FLAGS register.  The
      comment in [cpuid_is_available]: "if bit 21 (ID) of the FLAGS register
      can be successfully changed, then CPUID is supported". *)
  hw_id_flag_changeable : bool
}.

Record machine : Type := mk_machine {
  eflags        : Z;
  (** History of the CPUID queries issued so far, oldest first. *)
  cpuid_queries : list (Z * Z);
  cpu_specs     : struct_cpu_specs;
  cpu_identity  : struct_cpu_identity
}.

Definition set_eflags (v : Z) (m : machine) :=
  mk_machine v (cpuid_queries m) (cpu_specs m) (cpu_identity m).
Definition log_query (q : Z * Z) (m : machine) :=
  mk_machine (eflags m) (cpuid_queries m ++ [q]) (cpu_specs m) (cpu_identity m).
Definition update_cpu_specs (f : struct_cpu_specs -> struct_cpu_specs) (m : machine) :=
  mk_machine (eflags m) (cpuid_queries m) (f (cpu_specs m)) (cpu_identity m).
Definition update_cpu_identity (f : struct_cpu_identity -> struct_cpu_identity)
  (m : machine) :=
  mk_machine (eflags m) (cpuid_queries m) (cpu_specs m) (f (cpu_identity m)).

(** What stops a run: an integer division by zero, a store through a
    pointer outside [cache_level_specs], or a loop that used up its fuel. *)
Inductive fault : Type := DivisionByZero | OutOfBounds | OutOfFuel.

Inductive result (A : Type) : Type :=
| Ok (a : A) (m : machine)
| Fault (f : fault).
Arguments Ok {A} a m.
Arguments Fault {A} f.

Definition M (A : Type) : Type := machine -> result A.

Definition ret {A} (a : A) : M A := fun m => Ok a m.

Definition bind {A B} (c : M A) (k : A -> M B) : M B :=
  fun m => match c m with
           | Ok a m' => k a m'
           | Fault f => Fault f
           end.

Definition raise {A} (f : fault) : M A := fun _ => Fault f.

Declare Scope cpu_scope.
Delimit Scope cpu_scope with cpu.
Notation "x <- c ;; k" := (bind c (fun x => k))
  (at level 61, c at next level, right associativity) : cpu_scope.
Notation "c ;; k" := (bind c (fun _ => k))
  (at level 61, right associativity) : cpu_scope.
Local Open Scope cpu_scope.

Definition read_specs {A} (f : struct_cpu_specs -> A) : M A :=
  fun m => Ok (f (cpu_specs m)) m.
Definition write_specs (f : struct_cpu_specs -> struct_cpu_specs) : M unit :=
  fun m => Ok tt (update_cpu_specs f m).
Definition read_identity {A} (f : struct_cpu_identity -> A) : M A :=
  fun m => Ok (f (cpu_identity m)) m.
Definition write_identity (f : struct_cpu_identity -> struct_cpu_identity) : M unit :=
  fun m => Ok tt (update_cpu_identity f m).

(** C truth value of an integer. *)
Definition truthy (x : Z) : bool := negb (x =? 0).

(** [a / b] on [s32]: truncating division, undefined for [b = 0]. *)
Definition sdiv (a b : Z) : M Z :=
  if b =? 0 then raise DivisionByZero else ret (Int32.to_s32 (Z.quot a b)).

(** [&cpu_specs.cache_level_specs[cache_idx]]: the pointer is usable only
    for an index inside the array. *)
Definition cache_level_spec_at (cache_idx : Z) : M cache_level :=
  match cache_level_of_index cache_idx with
  | Some l => ret l
  | None => raise OutOfBounds
  end.

Section Program.

Variable hw : hardware.

(* --------------------------------------------------------------------- *)
(** *** Intrinsics *)

Definition ID_FLAG : Z := Z.shiftl 1 21.

Definition __readeflags : M Z := fun m => Ok (eflags m) m.

(** On a processor without CPUID the ID bit keeps its value whatever is
    written to it. *)
Definition __writeeflags (new_eflags : Z) : M unit :=
  fun m =>
    let stored :=
      if hw_id_flag_changeable hw then new_eflags
      else Z.lor (Z.land new_eflags (Z.lnot ID_FLAG)) (Z.land (eflags m) ID_FLAG) in
    Ok tt (set_eflags stored m).

(** [__cpuidex(out, func, sub_func)]: the four registers come back as
    [s32]. *)
Definition cpuid_result (func sub_func : Z) : cpuid_out_t :=
  fun r => Int32.to_s32 (hw_cpuid hw (Int32.to_u32 func) (Int32.to_u32 sub_func) r).

Definition __cpuidex (func sub_func : Z) : M cpuid_out_t :=
  fun m =>
    Ok (cpuid_result func sub_func)
       (log_query (Int32.to_u32 func, Int32.to_u32 sub_func) m).

(* --------------------------------------------------------------------- *)
(** *** Helpers *)

Definition update_inst_availability (instructions flags flag_bit feature_mask : Z) : Z :=
  let isolated_bit := Z.land (Z.shiftr flags flag_bit) 1 in
  let xor_mask := Z.land (Z.lxor (Int32.neg isolated_bit) instructions) feature_mask in
  Z.lxor instructions xor_mask.

(* --------------------------------------------------------------------- *)
(** *** Globals *)

Definition cpu_specs_initializer (isa : ISA) : struct_cpu_specs :=
  mk_cpu_specs
    (mk_cache_array (mk_cache_level (KiB 4) 1) (mk_cache_level 0 0) (mk_cache_level 0 0))
    64 1 1
    (match isa with
     | ISA_x64 => Z.lor SSE1 SSE2
     | ISA_x86 => 0
     end).

Definition cpu_identity_initializer : struct_cpu_identity :=
  mk_cpu_identity 0 0 0 (Bytes.of_literal 12 "Unknown") (Bytes.of_literal 48 "Unknown").

(** The machine when the program starts. *)
Definition boot (isa : ISA) (initial_eflags : Z) : machine :=
  mk_machine initial_eflags [] (cpu_specs_initializer isa) cpu_identity_initializer.

(* --------------------------------------------------------------------- *)
(** *** AMD functions *)

Definition cpu_specs_amd_get_cores_info (cpuid_ctx : cpuid_ctx) : M unit :=
  if max_standard_func cpuid_ctx >=? 0xB then
    cpuid_out <- __cpuidex 0xB 0x0 ;;
    write_specs (set_threads_per_core (Z.land (cpuid_out EBX) 0xFFFF)) ;;
    cpuid_out <- __cpuidex 0xB 0x1 ;;
    let total_thread_count := Z.land (cpuid_out EBX) 0xFFFF in
    tpc <- read_specs threads_per_core ;;
    q <- sdiv total_thread_count tpc ;;
    write_specs (set_core_count q)
  else
    cpuid_out <- __cpuidex 0x1 0x0 ;;
    let hyperthreaded := Z.land (Z.shiftr (cpuid_out EDX) 28) 1 in
    write_specs (set_threads_per_core (Int32.add hyperthreaded 1)) ;;
    if max_extended_func cpuid_ctx >=? 0x80000008 then
      cpuid_out <- __cpuidex 0x80000008 0 ;;
      let total_thread_count := Int32.add (Z.land (cpuid_out ECX) 0xFF) 1 in
      write_specs (set_core_count (Z.shiftr total_thread_count hyperthreaded))
    else if truthy hyperthreaded then
      let total_thread_count := Z.land (Z.shiftr (cpuid_out EBX) 16) 0xFF in
      let core_count := Z.shiftr total_thread_count 1 in
      if max_extended_func cpuid_ctx >=? 0x80000001 then
        cpuid_out <- __cpuidex 0x80000001 0x0 ;;
        if truthy (Z.land (cpuid_out ECX) (Z.shiftl 1 1)) then
          write_specs (set_core_count core_count)
        else ret tt
      else
        write_specs (set_core_count core_count)
    else ret tt.

(** The body run for one data or unified cache descriptor of function
    0x8000001D (the block under [if (cpuid_out[EAX] & 0x1)]). *)
Definition amd_cache_descriptor (cpuid_out : cpuid_out_t) : M unit :=
  let cache_level      := Z.land (Z.shiftr (cpuid_out EAX) 5) 3 in
  let cache_set_ways   := Int32.add (Z.shiftr (cpuid_out EBX) 22) 1 in
  let cache_partitions := Int32.add (Z.land (Z.shiftr (cpuid_out EBX) 12) 0x3FF) 1 in
  let cache_set_count  := Int32.add (cpuid_out ECX) 1 in
  let cache_line_count :=
    Int32.mul (Int32.mul cache_partitions cache_set_ways) cache_set_count in
  let cache_idx := Int32.sub cache_level 1 in
  cache_level_spec <- cache_level_spec_at cache_idx ;;
  line_size <- read_specs cache_line_size ;;
  write_specs (set_data_cache_size cache_level_spec (Int32.mul cache_line_count line_size)) ;;
  let attached_thread_count := Int32.add (Z.land (Z.shiftr (cpuid_out EAX) 14) 0xFFF) 1 in
  tpc <- read_specs threads_per_core ;;
  q <- sdiv attached_thread_count tpc ;;
  write_specs (set_attached_core_count cache_level_spec q).

(** The [do ... while] loop over the sub-functions of 0x8000001D; [fuel]
    bounds the number of iterations. *)
Fixpoint amd_caches_loop (fuel : nat) (subfunc : Z) (cpuid_out : cpuid_out_t) : M unit :=
  match fuel with
  | O => raise OutOfFuel
  | S fuel' =>
      (if truthy (Z.land (cpuid_out EAX) 0x1) then amd_cache_descriptor cpuid_out
       else ret tt) ;;
      let subfunc := Int32.add subfunc 1 in
      cpuid_out <- __cpuidex 0x8000001D subfunc ;;
      if negb (Z.land (cpuid_out EAX) 0xF =? 0) then amd_caches_loop fuel' subfunc cpuid_out
      else ret tt
  end.

Definition cpu_specs_amd_get_caches_info (fuel : nat) (cpuid_ctx : cpuid_ctx) : M unit :=
  if max_extended_func cpuid_ctx >=? 0x8000001D then
    cpuid_out <- __cpuidex 0x80000001 0x0 ;;
    let topology_extensions_supported := Z.land (cpuid_out ECX) (Z.shiftl 1 22) in
    if truthy topology_extensions_supported then
      let subfunc := 0x0 in
      cpuid_out <- __cpuidex 0x8000001D subfunc ;;
      write_specs (set_cache_line_size (Int32.add (Z.land (cpuid_out EBX) 0x7F) 1)) ;;
      amd_caches_loop fuel subfunc cpuid_out
    else ret tt
  else if max_extended_func cpuid_ctx >=? 0x80000005 then
    cpuid_out <- __cpuidex 0x80000005 0x0 ;;
    write_specs (set_cache_line_size (Z.land (cpuid_out ECX) 0xFF)) ;;
    write_specs (set_data_cache_size L1
                   (Int32.mul (Z.land (Z.shiftr (cpuid_out ECX) 24) 0xFF) (KiB 1))) ;;
    write_specs (set_attached_core_count L1 1) ;;
    if max_extended_func cpuid_ctx >=? 0x80000006 then
      cpuid_out <- __cpuidex 0x80000006 0x0 ;;
      write_specs (set_data_cache_size L2
                     (Int32.mul (Z.land (Z.shiftr (cpuid_out ECX) 16) 0xFFFF) (KiB 1))) ;;
      write_specs (set_attached_core_count L2 1) ;;
      write_specs (set_data_cache_size L3
                     (Int32.mul (Z.land (Z.shiftr (cpuid_out EDX) 18) 0x3FFFF) (KiB 512))) ;;
      cores <- read_specs core_count ;;
      write_specs (set_attached_core_count L3 cores)
    else ret tt
  else ret tt.

Definition cpu_specs_amd_get_instructions (cpuid_ctx : cpuid_ctx) : M unit :=
  (if max_standard_func cpuid_ctx >=? 0xB then
     cpuid_out <- __cpuidex 0xD 0x5 ;;
     let avx512_available :=
       Z.b2z ((cpuid_out EAX =? 0x40) && (cpuid_out EBX =? 0x340)) in
     insts <- read_specs instructions ;;
     write_specs (set_instructions
       (Z.lxor insts (Z.land (Z.lxor (Int32.neg avx512_available) insts) AVX512F)))
   else ret tt) ;;
  if max_extended_func cpuid_ctx >=? 0xB then
    cpuid_out <- __cpuidex 0x80000001 0x0 ;;
    insts <- read_specs instructions ;;
    write_specs (set_instructions (update_inst_availability insts (cpuid_out ECX) 21 TBM))
  else ret tt.

(* --------------------------------------------------------------------- *)
(** *** Intel functions *)

Definition cpu_specs_intel_get_cores_info (cpuid_ctx : cpuid_ctx) : M unit :=
  if max_standard_func cpuid_ctx >=? 0xB then
    let higher_func := if max_standard_func cpuid_ctx >=? 0x1F then 0x1F else 0xB in
    cpuid_out <- __cpuidex higher_func 0x0 ;;
    write_specs (set_threads_per_core (Z.land (cpuid_out EBX) 0xFFFF)) ;;
    cpuid_out <- __cpuidex higher_func 0x1 ;;
    let total_thread_count := Z.land (cpuid_out EBX) 0xFFFF in
    tpc <- read_specs threads_per_core ;;
    q <- sdiv total_thread_count tpc ;;
    write_specs (set_core_count q)
  else
    cpuid_out <- __cpuidex 0x1 0x0 ;;
    let hyperthreaded := Z.land (Z.shiftr (cpuid_out EDX) 28) 1 in
    write_specs (set_threads_per_core (Int32.add hyperthreaded 1)) ;;
    if truthy hyperthreaded then
      let total_thread_count := Z.land (Z.shiftr (cpuid_out EBX) 16) 0xFF in
      tpc <- read_specs threads_per_core ;;
      q <- sdiv total_thread_count tpc ;;
      write_specs (set_core_count q)
    else ret tt.

(** The body run for one data or unified cache descriptor of function 0x4
    (the block under [if (cpuid_out[EAX] & 0b1)]). *)
Definition intel_cache_descriptor (cpuid_out : cpuid_out_t) : M unit :=
  let cache_level      := Z.land (Z.shiftr (cpuid_out EAX) 5) 3 in
  let cache_set_ways   := Int32.add (Z.shiftr (cpuid_out EBX) 22) 1 in
  let cache_partitions := Int32.add (Z.land (Z.shiftr (cpuid_out EBX) 12) 0x3FF) 1 in
  let cache_set_count  := Int32.add (cpuid_out ECX) 1 in
  let cache_line_count :=
    Int32.mul (Int32.mul cache_partitions cache_set_ways) cache_set_count in
  let cache_idx := Int32.sub cache_level 1 in
  cache_level_spec <- cache_level_spec_at cache_idx ;;
  line_size <- read_specs cache_line_size ;;
  write_specs (set_data_cache_size cache_level_spec (Int32.mul cache_line_count line_size)) ;;
  let max_attached_thread_count :=
    Int32.add (Z.land (Z.shiftr (cpuid_out EAX) 14) 0xFFF) 1 in
  tpc <- read_specs threads_per_core ;;
  max_attached_core_count <- sdiv max_attached_thread_count tpc ;;
  cores <- read_specs core_count ;;
  if max_attached_core_count <=? cores then
    write_specs (set_attached_core_count cache_level_spec max_attached_core_count)
  else
    write_specs (set_attached_core_count cache_level_spec cores).

(** The [while] loop over the sub-functions of 0x4; [fuel] bounds the
    number of iterations. *)
Fixpoint intel_caches_loop (fuel : nat) (subfunc : Z) (cpuid_out : cpuid_out_t) : M unit :=
  if negb (Z.land (cpuid_out EAX) 0xF =? 0) then
    match fuel with
    | O => raise OutOfFuel
    | S fuel' =>
        (if truthy (Z.land (cpuid_out EAX) 1) then intel_cache_descriptor cpuid_out
         else ret tt) ;;
        let subfunc := Int32.add subfunc 1 in
        cpuid_out <- __cpuidex 0x4 subfunc ;;
        intel_caches_loop fuel' subfunc cpuid_out
    end
  else ret tt.

Definition cpu_specs_intel_get_caches_info (fuel : nat) (cpuid_ctx : cpuid_ctx) : M unit :=
  if max_standard_func cpuid_ctx >=? 0x4 then
    let subfunc := 0x0 in
    cpuid_out <- __cpuidex 0x4 subfunc ;;
    write_specs (set_cache_line_size (Int32.add (Z.land (cpuid_out EBX) 0x7F) 1)) ;;
    intel_caches_loop fuel subfunc cpuid_out
  else ret tt.

Definition cpu_specs_intel_get_instructions (cpuid_ctx : cpuid_ctx) : M unit :=
  if max_standard_func cpuid_ctx >=? 0x7 then
    cpuid_out <- __cpuidex 0x7 0x0 ;;
    insts <- read_specs instructions ;;
    write_specs (set_instructions (update_inst_availability insts (cpuid_out EBX) 16 AVX512F))
  else ret tt.

(* --------------------------------------------------------------------- *)
(** *** CPU-independent functions *)

(** Returns [modified_eflags == updated_eflags], a C truth value. *)
Definition cpuid_is_available : M bool :=
  let flags_cpuid_mask := ID_FLAG in
  orig_eflags <- __readeflags ;;
  let modified_eflags := Z.lxor orig_eflags flags_cpuid_mask in
  __writeeflags modified_eflags ;;
  updated_eflags <- __readeflags ;;
  ret (modified_eflags =? updated_eflags).

Definition cpu_specs_get_common_instructions (cpuid_ctx : cpuid_ctx) : M unit :=
  cpuid_out <- __cpuidex 0x1 0x0 ;;
  instructions <- read_specs instructions ;;
  let instructions := update_inst_availability instructions (cpuid_out EDX)  4 RDTSCP in
  let instructions := update_inst_availability instructions (cpuid_out EDX) 25 SSE1 in
  let instructions := update_inst_availability instructions (cpuid_out EDX) 26 SSE2 in
  let instructions := update_inst_availability instructions (cpuid_out ECX)  0 SSE3 in
  let instructions := update_inst_availability instructions (cpuid_out ECX)  9 SSSE3 in
  let instructions := update_inst_availability instructions (cpuid_out ECX) 12 FMA3 in
  let instructions := update_inst_availability instructions (cpuid_out ECX) 19 SSE4_1 in
  let instructions := update_inst_availability instructions (cpuid_out ECX) 20 SSE4_2 in
  let instructions := update_inst_availability instructions (cpuid_out ECX) 23 POPCNT in
  let instructions := update_inst_availability instructions (cpuid_out ECX) 28 AVX1 in
  let instructions := update_inst_availability instructions (cpuid_out ECX) 29 F16C in
  instructions <-
    (if max_standard_func cpuid_ctx >=? 0x7 then
       cpuid_out <- __cpuidex 0x7 0x0 ;;
       let instructions := update_inst_availability instructions (cpuid_out EBX) 3 BMI1 in
       let instructions := update_inst_availability instructions (cpuid_out EBX) 3 TZCNT in
       let instructions := update_inst_availability instructions (cpuid_out EBX) 5 AVX2 in
       let instructions := update_inst_availability instructions (cpuid_out EBX) 8 BMI2 in
       if max_extended_func cpuid_ctx >=? 0x80000001 then
         cpuid_out <- __cpuidex 0x80000001 0x0 ;;
         ret (update_inst_availability instructions (cpuid_out ECX) 5 LZCNT)
       else ret instructions
     else ret instructions) ;;
  write_specs (set_instructions instructions).

(* --------------------------------------------------------------------- *)
(** *** CPUID context *)

Definition cpuid_ctx_get : M cpuid_ctx :=
  let cpuid_ctx := mk_cpuid_ctx 0 0 in
  available <- cpuid_is_available ;;
  if available then
    cpuid_out <- __cpuidex 0x0 0x0 ;;
    let cpuid_ctx := mk_cpuid_ctx (Int32.to_u32 (cpuid_out EAX)) (max_extended_func cpuid_ctx) in
    cpuid_out <- __cpuidex 0x80000000 0x0 ;;
    let cpuid_ctx := mk_cpuid_ctx (max_standard_func cpuid_ctx) (Int32.to_u32 (cpuid_out EAX)) in
    ret cpuid_ctx
  else ret cpuid_ctx.

(* --------------------------------------------------------------------- *)
(** *** CPU specs *)

Definition cpu_specs_init (fuel : nat) : M unit :=
  available <- cpuid_is_available ;;
  if available then
    cpuid_out <- __cpuidex 0x0 0x0 ;;
    let max_standard := Int32.to_u32 (cpuid_out EAX) in
    cpuid_out <- __cpuidex 0x80000000 0x0 ;;
    let cpuid_ctx := mk_cpuid_ctx max_standard (Int32.to_u32 (cpuid_out EAX)) in
    cpu_specs_get_common_instructions cpuid_ctx ;;
    cpuid_out <- __cpuidex 0x0 0x0 ;;
    let cpu_manufacturer_ecx := cpuid_out ECX in
    if cpu_manufacturer_ecx =? CPU_MANUFACTURER_AMD then
      cpu_specs_amd_get_cores_info cpuid_ctx ;;
      cpu_specs_amd_get_caches_info fuel cpuid_ctx ;;
      cpu_specs_amd_get_instructions cpuid_ctx
    else if cpu_manufacturer_ecx =? CPU_MANUFACTURER_INTEL then
      cpu_specs_intel_get_cores_info cpuid_ctx ;;
      cpu_specs_intel_get_caches_info fuel cpuid_ctx ;;
      cpu_specs_intel_get_instructions cpuid_ctx
    else ret tt
  else ret tt.

(* --------------------------------------------------------------------- *)
(** *** CPU identity *)

(** [*manufacturer_4bytes = value] with [manufacturer_4bytes] pointing
    [off] bytes into [cpu_identity.manufacturer]. *)
Definition store_manufacturer (off : nat) (value : Z) : M unit :=
  write_identity (fun i => set_manufacturer (Bytes.store off (Bytes.le_bytes value) (manufacturer i)) i).

(** [__cpuidex((s32* )(cpu_identity.name + off), func, sub_func)]: the four
    registers land in the name buffer, EAX first. *)
Definition cpuidex_into_name (off : nat) (func sub_func : Z) : M unit :=
  cpuid_out <- __cpuidex func sub_func ;;
  write_identity (fun i =>
    set_name (Bytes.store off (Bytes.of_cpuid_out cpuid_out) (name i)) i).

Definition cpu_identity_init : M unit :=
  available <- cpuid_is_available ;;
  if available then
    cpuid_out <- __cpuidex 0x0 0x0 ;;
    store_manufacturer 0 (cpuid_out EBX) ;;
    store_manufacturer 4 (cpuid_out EDX) ;;
    store_manufacturer 8 (cpuid_out ECX) ;;
    cpuid_out <- __cpuidex 0x1 0x0 ;;
    let family_model_stepping := cpuid_out EAX in
    write_identity (set_family (Z.land (Z.shiftr family_model_stepping 8) 0xF)) ;;
    write_identity (set_model (Z.land (Z.shiftr family_model_stepping 4) 0xF)) ;;
    write_identity (set_stepping (Z.land family_model_stepping 0xF)) ;;
    fam <- read_identity family ;;
    (if fam =? 0xF then
       let extended_family := Z.land (Z.shiftr family_model_stepping 20) 0xFF in
       write_identity (fun i => set_family (Int32.add (family i) extended_family) i) ;;
       let extended_model := Z.land (Z.shiftr family_model_stepping 12) 0xF0 in
       write_identity (fun i => set_model (Z.lor (model i) extended_model) i)
     else ret tt) ;;
    manufacturer_ecx <- read_identity (fun i => Bytes.load_s32 8 (manufacturer i)) ;;
    fam <- read_identity family ;;
    (if (manufacturer_ecx =? CPU_MANUFACTURER_INTEL) && (fam =? 0x6) then
       let extended_model := Z.land (Z.shiftr family_model_stepping 12) 0xF0 in
       write_identity (fun i => set_model (Z.lor (model i) extended_model) i)
     else ret tt) ;;
    cpuid_out <- __cpuidex 0x80000000 0x0 ;;
    let cpuid_max_extended_func := Int32.to_u32 (cpuid_out EAX) in
    if cpuid_max_extended_func >=? 0x80000004 then
      cpuidex_into_name 0 0x80000002 0x0 ;;
      cpuidex_into_name 16 0x80000003 0x0 ;;
      cpuidex_into_name 32 0x80000004 0x0
    else ret tt
  else ret tt.

End Program.

(* ===================================================================== *)
(** ** The earlier revision ([src/cpu_specs.c])

    The revision without the availability probe: the entry point resets
    [cpu_specs] through [cpu_specs_set_defaults] and the instruction
    decoders only ever set flags ([|=]).  Its topology and cache decoders
    ([cpu_specs_amd_get_thread_specs], [cpu_specs_amd_get_cache_specs] and
    the Intel ones) have the bodies of the [_cores_info] and [_caches_info]
    functions above, which stand for them here. *)

Module Legacy.
Section LegacyProgram.

Variable hw : hardware.

(** [cpu_specs.instructions |= bit * FEATURE] *)
Definition or_flag (bit : Z) (feature : cpu_instruction) : M unit :=
  write_specs (fun s => set_instructions (Z.lor (instructions s) (Int32.mul bit feature)) s).

Definition cpu_specs_amd_get_instructions (cpuid_ctx : cpuid_ctx) : M unit :=
  (if max_standard_func cpuid_ctx >=? 0xB then
     cpuid_out <- __cpuidex hw 0xD 0x5 ;;
     let avx512_available :=
       Z.b2z ((cpuid_out EAX =? 0x40) && (cpuid_out EBX =? 0x340)) in
     or_flag avx512_available AVX512F
   else ret tt) ;;
  if max_extended_func cpuid_ctx >=? 0xB then
    cpuid_out <- __cpuidex hw 0x80000001 0x0 ;;
    or_flag (Z.land (Z.shiftr (cpuid_out ECX) 21) 1) TBM
  else ret tt.

Definition cpu_specs_intel_get_instructions (cpuid_ctx : cpuid_ctx) : M unit :=
  if max_standard_func cpuid_ctx >=? 0x7 then
    cpuid_out <- __cpuidex hw 0x7 0x0 ;;
    or_flag (Z.shiftr (Z.land (cpuid_out EBX) (Z.shiftl 1 16)) 16) AVX512F
  else ret tt.

Definition cpu_specs_get_common_instructions (cpuid_ctx : cpuid_ctx) : M unit :=
  cpuid_out <- __cpuidex hw 0x1 0x0 ;;
  or_flag (Z.land (Z.shiftr (cpuid_out EDX)  4) 1) RDTSCP ;;
  or_flag (Z.land (Z.shiftr (cpuid_out EDX) 25) 1) SSE1 ;;
  or_flag (Z.land (Z.shiftr (cpuid_out EDX) 26) 1) SSE2 ;;
  or_flag (Z.land (Z.shiftr (cpuid_out ECX)  0) 1) SSE3 ;;
  or_flag (Z.land (Z.shiftr (cpuid_out ECX)  9) 1) SSSE3 ;;
  or_flag (Z.land (Z.shiftr (cpuid_out ECX) 12) 1) FMA3 ;;
  or_flag (Z.land (Z.shiftr (cpuid_out ECX) 19) 1) SSE4_1 ;;
  or_flag (Z.land (Z.shiftr (cpuid_out ECX) 20) 1) SSE4_2 ;;
  or_flag (Z.land (Z.shiftr (cpuid_out ECX) 23) 1) POPCNT ;;
  or_flag (Z.land (Z.shiftr (cpuid_out ECX) 28) 1) AVX1 ;;
  or_flag (Z.land (Z.shiftr (cpuid_out ECX) 29) 1) F16C ;;
  if max_standard_func cpuid_ctx >=? 0x7 then
    cpuid_out <- __cpuidex hw 0x7 0x0 ;;
    let bmi1_available := Z.land (Z.shiftr (cpuid_out EBX) 3) 1 in
    or_flag bmi1_available BMI1 ;;
    or_flag bmi1_available TZCNT ;;
    or_flag (Z.land (Z.shiftr (cpuid_out EBX) 5) 1) AVX2 ;;
    or_flag (Z.land (Z.shiftr (cpuid_out EBX) 8) 1) BMI2 ;;
    if max_extended_func cpuid_ctx >=? 0x80000001 then
      cpuid_out <- __cpuidex hw 0x80000001 0x0 ;;
      or_flag (Z.land (Z.shiftr (cpuid_out ECX) 5) 1) LZCNT
    else ret tt
  else ret tt.

Definition cpu_specs_set_defaults : M unit :=
  write_specs (set_data_cache_size L1 (KiB 4)) ;;
  write_specs (set_attached_core_count L1 1) ;;
  write_specs (set_data_cache_size L2 0) ;;
  write_specs (set_attached_core_count L2 0) ;;
  write_specs (set_data_cache_size L3 0) ;;
  write_specs (set_attached_core_count L3 0) ;;
  write_specs (set_cache_line_size 64) ;;
  write_specs (set_threads_per_core 1) ;;
  write_specs (set_core_count 1) ;;
  write_specs (set_instructions 0).

Definition cpuid_ctx_get : M cpuid_ctx :=
  cpuid_out <- __cpuidex hw 0x0 0x0 ;;
  let max_standard := Int32.to_u32 (cpuid_out EAX) in
  cpuid_out <- __cpuidex hw 0x80000000 0x0 ;;
  ret (mk_cpuid_ctx max_standard (Int32.to_u32 (cpuid_out EAX))).

Definition cpu_specs_init (fuel : nat) : M unit :=
  cpuid_ctx <- cpuid_ctx_get ;;
  cpu_specs_set_defaults ;;
  cpu_specs_get_common_instructions cpuid_ctx ;;
  cpuid_out <- __cpuidex hw 0x0 0x0 ;;
  let cpu_manufacturer_ecx := cpuid_out ECX in
  if cpu_manufacturer_ecx =? CPU_MANUFACTURER_AMD then
    cpu_specs_amd_get_cores_info hw cpuid_ctx ;;
    cpu_specs_amd_get_caches_info hw fuel cpuid_ctx ;;
    cpu_specs_amd_get_instructions cpuid_ctx
  else if cpu_manufacturer_ecx =? CPU_MANUFACTURER_INTEL then
    cpu_specs_intel_get_cores_info hw cpuid_ctx ;;
    cpu_specs_intel_get_caches_info hw fuel cpuid_ctx ;;
    cpu_specs_intel_get_instructions cpuid_ctx
  else ret tt.

Definition cpu_identity_set_defaults : M unit :=
  write_identity (set_family 0) ;;
  write_identity (set_model 0) ;;
  write_identity (set_stepping 0) ;;
  write_identity (fun i => set_manufacturer (Bytes.store 0 [x00] (manufacturer i)) i) ;;
  write_identity (fun i => set_name (Bytes.store 11 [x00] (name i)) i).

Definition cpu_identity_init : M unit :=
  cpu_identity_set_defaults ;;
  cpuid_out <- __cpuidex hw 0x0 0x0 ;;
  store_manufacturer 0 (cpuid_out EBX) ;;
  store_manufacturer 4 (cpuid_out EDX) ;;
  store_manufacturer 8 (cpuid_out ECX) ;;
  cpuid_out <- __cpuidex hw 0x1 0x0 ;;
  let family_model_stepping := cpuid_out EAX in
  write_identity (set_family (Z.land (Z.shiftr family_model_stepping 8) 0xF)) ;;
  write_identity (set_model (Z.land (Z.shiftr family_model_stepping 4) 0xF)) ;;
  write_identity (set_stepping (Z.land family_model_stepping 0xF)) ;;
  fam <- read_identity family ;;
  (if fam =? 0xF then
     let extended_family := Z.land (Z.shiftr family_model_stepping 20) 0xFF in
     write_identity (fun i => set_family (Int32.add (family i) extended_family) i) ;;
     let extended_model := Z.land (Z.shiftr family_model_stepping 12) 0xF0 in
     write_identity (fun i => set_model (Z.lor (model i) extended_model) i)
   else ret tt) ;;
  manufacturer_ecx <- read_identity (fun i => Bytes.load_s32 8 (manufacturer i)) ;;
  fam <- read_identity family ;;
  (if (manufacturer_ecx =? CPU_MANUFACTURER_INTEL) && (fam =? 0x6) then
     let extended_model := Z.land (Z.shiftr family_model_stepping 12) 0xF0 in
     write_identity (fun i => set_model (Z.lor (model i) extended_model) i)
   else ret tt) ;;
  cpuid_out <- __cpuidex hw 0x80000000 0x0 ;;
  let cpuid_max_extended_func := Int32.to_u32 (cpuid_out EAX) in
  if cpuid_max_extended_func >=? 0x80000004 then
    cpuidex_into_name hw 0 0x80000002 0x0 ;;
    cpuidex_into_name hw 16 0x80000003 0x0 ;;
    cpuidex_into_name hw 32 0x80000004 0x0
  else ret tt.

End LegacyProgram.
End Legacy.

(* ===================================================================== *)
(** ** Auxiliary definitions used in the statements *)

(** The FLAGS register after [cpuid_is_available] ran on a register
    holding [e]: [__writeeflags] applied to [e ^ flags_cpuid_mask]. *)
Definition eflags_after_probe (hw : hardware) (e : Z) : Z :=
  if hw_id_flag_changeable hw then Z.lxor e ID_FLAG
  else Z.lor (Z.land (Z.lxor e ID_FLAG) (Z.lnot ID_FLAG)) (Z.land e ID_FLAG).

(** Bits [lo .. lo + len - 1] of a register value. *)
Definition bit_field (lo len x : Z) : Z := Z.land (Z.shiftr x lo) (Z.ones len).

(** *** The fields of a cache descriptor

    Both cache decoders read the same fields out of the registers returned
    for one sub-function; these are the local variables of the loop
    body. *)

Definition descriptor_level (cpuid_out : cpuid_out_t) : Z :=
  Z.land (Z.shiftr (cpuid_out EAX) 5) 3.

Definition descriptor_index (cpuid_out : cpuid_out_t) : Z :=
  Int32.sub (descriptor_level cpuid_out) 1.

Definition descriptor_line_count (cpuid_out : cpuid_out_t) : Z :=
  Int32.mul
    (Int32.mul (Int32.add (Z.land (Z.shiftr (cpuid_out EBX) 12) 0x3FF) 1)
               (Int32.add (Z.shiftr (cpuid_out EBX) 22) 1))
    (Int32.add (cpuid_out ECX) 1).

Definition descriptor_thread_count (cpuid_out : cpuid_out_t) : Z :=
  Int32.add (Z.land (Z.shiftr (cpuid_out EAX) 14) 0xFFF) 1.

(** The descriptor is for a data or unified cache: [cpuid_out[EAX] & 0x1]. *)
Definition descriptor_qualifies (cpuid_out : cpuid_out_t) : bool :=
  truthy (Z.land (cpuid_out EAX) 0x1).

(** The context the entry points compute from functions 0x0 and
    0x80000000. *)
Definition detected_ctx (hw : hardware) : cpuid_ctx :=
  mk_cpuid_ctx (Int32.to_u32 (cpuid_result hw 0x0 0x0 EAX))
               (Int32.to_u32 (cpuid_result hw 0x80000000 0x0 EAX)).

(** *** Decode rules as a table

    A decode rule probes one bit of one register word and forces one
    instruction flag to it.  The rules of a decoder, in program order. *)

Definition decode_rule : Type := (Z * Z * cpu_instruction)%type.

Definition apply_rule (instructions : Z) (rule : decode_rule) : Z :=
  let '(flags, flag_bit, feature) := rule in
  update_inst_availability instructions flags flag_bit feature.

Definition apply_rules (rules : list decode_rule) (instructions : Z) : Z :=
  fold_left apply_rule rules instructions.

Definition leaf1_rules (cpuid_out : cpuid_out_t) : list decode_rule :=
  [ (cpuid_out EDX,  4, RDTSCP); (cpuid_out EDX, 25, SSE1); (cpuid_out EDX, 26, SSE2);
    (cpuid_out ECX,  0, SSE3);   (cpuid_out ECX,  9, SSSE3); (cpuid_out ECX, 12, FMA3);
    (cpuid_out ECX, 19, SSE4_1); (cpuid_out ECX, 20, SSE4_2); (cpuid_out ECX, 23, POPCNT);
    (cpuid_out ECX, 28, AVX1);   (cpuid_out ECX, 29, F16C) ].

Definition leaf7_rules (cpuid_out : cpuid_out_t) : list decode_rule :=
  [ (cpuid_out EBX, 3, BMI1); (cpuid_out EBX, 3, TZCNT);
    (cpuid_out EBX, 5, AVX2); (cpuid_out EBX, 8, BMI2) ].

Definition common_rules (hw : hardware) (ctx : cpuid_ctx) : list decode_rule :=
  (leaf1_rules (cpuid_result hw 0x1 0x0)
   ++ if max_standard_func ctx >=? 0x7 then
        leaf7_rules (cpuid_result hw 0x7 0x0)
        ++ (if max_extended_func ctx >=? 0x80000001
            then [ (cpuid_result hw 0x80000001 0x0 ECX, 5, LZCNT) ] else [])
      else [])%list.

Definition amd_rules (hw : hardware) (ctx : cpuid_ctx) : list decode_rule :=
  ((if max_standard_func ctx >=? 0xB
    then [ (Z.b2z ((cpuid_result hw 0xD 0x5 EAX =? 0x40)
                   && (cpuid_result hw 0xD 0x5 EBX =? 0x340)), 0, AVX512F) ]
    else [])
   ++ if max_extended_func ctx >=? 0xB
      then [ (cpuid_result hw 0x80000001 0x0 ECX, 21, TBM) ] else [])%list.

Definition intel_rules (hw : hardware) (ctx : cpuid_ctx) : list decode_rule :=
  if max_standard_func ctx >=? 0x7
  then [ (cpuid_result hw 0x7 0x0 EBX, 16, AVX512F) ] else [].

(** The rule probes a bit position that exists. *)
Definition rule_bit_ok (rule : decode_rule) : Prop := 0 <= snd (fst rule).

(** Where function 1 reports a flag: register and bit position. *)
Definition leaf1_probe (f : cpu_instruction) : option (cpuid_output_register * Z) :=
  match f with
  | RDTSCP => Some (EDX, 4)  | SSE1 => Some (EDX, 25)   | SSE2 => Some (EDX, 26)
  | SSE3 => Some (ECX, 0)    | SSSE3 => Some (ECX, 9)   | FMA3 => Some (ECX, 12)
  | SSE4_1 => Some (ECX, 19) | SSE4_2 => Some (ECX, 20) | POPCNT => Some (ECX, 23)
  | AVX1 => Some (ECX, 28)   | F16C => Some (ECX, 29)
  | _ => None
  end.

(** A map on bitsets that forces the bits of a mask to fixed values and
    keeps the others. *)
Definition set_or_clear_map (f : Z -> Z) : Prop :=
  exists mask values, forall x, f x = Z.lor (Z.land x (Z.lnot mask)) (Z.land values mask).

(** *** Comparing runs *)

(** The fields of [cpu_specs] the cache decoders' loops leave alone. *)
Definition same_topology (s s' : struct_cpu_specs) : Prop :=
  cache_line_size s' = cache_line_size s
  /\ threads_per_core s' = threads_per_core s
  /\ core_count s' = core_count s
  /\ instructions s' = instructions s.

(** Two runs of the same code, one taking [a] to [a'] and one taking [b]
    to [b'], agree on a location: both stored the same value there, or
    neither touched it. *)
Definition same_or_untouched {A : Type} (a a' b b' : A) : Prop :=
  a' = b' \/ (a' = a /\ b' = b).

(** Two machines agree on what a cache descriptor body reads. *)
Definition same_inputs (a b : machine) : Prop :=
  cache_line_size (cpu_specs a) = cache_line_size (cpu_specs b)
  /\ threads_per_core (cpu_specs a) = threads_per_core (cpu_specs b)
  /\ core_count (cpu_specs a) = core_count (cpu_specs b).

(** What a step of a cache loop guarantees for a second run of it. *)
Definition cache_step_sim (step : M unit) : Prop :=
  forall a a' b,
    step a = Ok tt a' ->
    same_inputs a b ->
    same_topology (cpu_specs a) (cpu_specs a')
    /\ exists b',
        step b = Ok tt b'
        /\ same_topology (cpu_specs b) (cpu_specs b')
        /\ forall l,
            same_or_untouched
              (cache_get l (cache_level_specs (cpu_specs a)))
              (cache_get l (cache_level_specs (cpu_specs a')))
              (cache_get l (cache_level_specs (cpu_specs b)))
              (cache_get l (cache_level_specs (cpu_specs b'))).

(** What the topology decoders leave alone. *)
Definition keeps_caches_and_flags (s s' : struct_cpu_specs) : Prop :=
  cache_level_specs s' = cache_level_specs s
  /\ cache_line_size s' = cache_line_size s
  /\ instructions s' = instructions s.

(** What the cache decoders leave alone. *)
Definition keeps_cores_and_flags (s s' : struct_cpu_specs) : Prop :=
  threads_per_core s' = threads_per_core s
  /\ core_count s' = core_count s
  /\ instructions s' = instructions s.

(** A topology decoder, run from two machines: if the first run returns,
    so does the second, and they agree on [threads_per_core] and
    [core_count]. *)
Definition cores_stage (c : M unit) : Prop :=
  forall a a' b,
    c a = Ok tt a' ->
    keeps_caches_and_flags (cpu_specs a) (cpu_specs a')
    /\ exists b',
        c b = Ok tt b'
        /\ keeps_caches_and_flags (cpu_specs b) (cpu_specs b')
        /\ same_or_untouched (threads_per_core (cpu_specs a)) (threads_per_core (cpu_specs a'))
             (threads_per_core (cpu_specs b)) (threads_per_core (cpu_specs b'))
        /\ same_or_untouched (core_count (cpu_specs a)) (core_count (cpu_specs a'))
             (core_count (cpu_specs b)) (core_count (cpu_specs b')).

(** A cache decoder, run from two machines with the same topology. *)
Definition caches_stage (c : M unit) : Prop :=
  forall a a' b,
    c a = Ok tt a' ->
    threads_per_core (cpu_specs a) = threads_per_core (cpu_specs b) ->
    core_count (cpu_specs a) = core_count (cpu_specs b) ->
    keeps_cores_and_flags (cpu_specs a) (cpu_specs a')
    /\ exists b',
        c b = Ok tt b'
        /\ keeps_cores_and_flags (cpu_specs b) (cpu_specs b')
        /\ same_or_untouched (cache_line_size (cpu_specs a)) (cache_line_size (cpu_specs a'))
             (cache_line_size (cpu_specs b)) (cache_line_size (cpu_specs b'))
        /\ forall l,
            same_or_untouched
              (cache_get l (cache_level_specs (cpu_specs a)))
              (cache_get l (cache_level_specs (cpu_specs a')))
              (cache_get l (cache_level_specs (cpu_specs b)))
              (cache_get l (cache_level_specs (cpu_specs b'))).

(** An instruction decoder: it always returns, and applies a table of
    rules to the flag word. *)
Definition flags_stage (c : M unit) : Prop :=
  exists rules,
    Forall rule_bit_ok rules
    /\ forall m, exists m',
        c m = Ok tt m'
        /\ cpu_specs m'
           = set_instructions (apply_rules rules (instructions (cpu_specs m))) (cpu_specs m).

(** *** Sample processors

    Scripted answers of the query primitive, used to run the decoders on
    concrete register values. *)

Definition regs (a b c d : Z) : cpuid_output_register -> Z :=
  fun r => match r with EAX => a | EBX => b | ECX => c | EDX => d end.

(** A processor without the CPUID instruction. *)
Definition no_cpuid_hw : hardware :=
  mk_hardware (fun _ _ => regs 0 0 0 0) false.

(** "GenuineIntel", family 6, 4 cores with 2 threads each, topology through
    function 0xB, three data caches through function 0x4. *)
Definition sample_intel_hw : hardware :=
  mk_hardware
    (fun func sub_func =>
       if func =? 0x0 then regs 0xB 0x756E6547 0x6C65746E 0x49656E69
       else if func =? 0x1 then regs 0x000906EA 0x00100800 0x7FFAFBFF 0xBFEBFBFF
       else if func =? 0x4 then
         if sub_func =? 0 then regs 0x4021 0x01C0003F 63 0
         else if sub_func =? 1 then regs 0x4022 0x01C0003F 63 0
         else if sub_func =? 2 then regs 0x4043 0x00C0003F 1023 0
         else if sub_func =? 3 then regs 0x3C063 0x03C0003F 8191 0
         else regs 0 0 0 0
       else if func =? 0x7 then regs 0 0x128 0 0
       else if func =? 0xB then
         if sub_func =? 0 then regs 1 2 0x100 0
         else if sub_func =? 1 then regs 4 8 0x201 0
         else regs 0 0 0 0
       else if func =? 0x80000000 then regs 0x80000004 0 0 0
       else if func =? 0x80000001 then regs 0 0 0x121 0
       else if func =? 0x80000002 then regs 0x65746E49 0x2952286C 0x726F4320 0x4D542865
       else if func =? 0x80000003 then regs 0x37692029 0x3037372D 0x43204B30 0x40205550
       else if func =? 0x80000004 then regs 0x372E3320 0x7A484730 0 0
       else regs 0 0 0 0)
    true.

(** "AuthenticAMD", family 0x19, 2 cores with 2 threads each, topology
    through function 0xB, caches through function 0x8000001D; the L3
    descriptor reports 16 logical processors sharing the cache. *)
Definition sample_amd_hw : hardware :=
  mk_hardware
    (fun func sub_func =>
       if func =? 0x0 then regs 0x10 0x68747541 0x444D4163 0x69746E65
       else if func =? 0x1 then regs 0x00A20F10 0x00040800 0x7ED8320B 0x178BFBFF
       else if func =? 0x7 then regs 0 0x128 0 0
       else if func =? 0xB then
         if sub_func =? 0 then regs 1 2 0x100 0
         else if sub_func =? 1 then regs 2 4 0x201 0
         else regs 0 0 0 0
       else if func =? 0x80000000 then regs 0x8000001E 0 0 0
       else if func =? 0x80000001 then regs 0 0 0x400020 0
       else if func =? 0x8000001D then
         if sub_func =? 0 then regs 0x4121 0x01C0003F 63 0
         else if sub_func =? 1 then regs 0x4122 0x01C0003F 63 0
         else if sub_func =? 2 then regs 0x4143 0x01C0003F 1023 0
         else if sub_func =? 3 then regs 0x3C163 0x03C0003F 0x7FFF 0
         else regs 0 0 0 0
       else regs 0 0 0 0)
    true.

(** "CentaurHauls": neither of the two handled manufacturers; functions
    0x0 and 0x1 only, no extended function. *)
Definition sample_unknown_hw : hardware :=
  mk_hardware
    (fun func sub_func =>
       if func =? 0x0 then regs 0x1 0x746E6543 0x736C7561 0x48727561
       else if func =? 0x1 then regs 0x000006F2 0 0x00000201 0x06000010
       else regs 0 0 0 0)
    true.

(** *** What a run depends on, and what it leaves alone *)

(** Two outcomes are the same as far as [cpu_specs] goes: the same fault,
    or the same value and the same [cpu_specs]. *)
Definition results_agree {A : Type} (r1 r2 : result A) : Prop :=
  match r1, r2 with
  | Ok x a, Ok y b => x = y /\ cpu_specs a = cpu_specs b
  | Fault f, Fault g => f = g
  | _, _ => False
  end.

(** The outcome of [c] is settled by the processor and by [cpu_specs]: the
    FLAGS register, the query history and [cpu_identity] play no part. *)
Definition specs_determined {A : Type} (c : M A) : Prop :=
  forall a b, cpu_specs a = cpu_specs b -> results_agree (c a) (c b).

(** [c] never writes to [cpu_identity]. *)
Definition keeps_identity {A : Type} (c : M A) : Prop :=
  forall m x m', c m = Ok x m' -> cpu_identity m' = cpu_identity m.

(** The value of a register name in [enum cpuid_output_register]: the
    position of the register in an [s32 cpuid_out[4]]. *)
Definition register_index (r : cpuid_output_register) : nat :=
  match r with EAX => 0 | EBX => 1 | ECX => 2 | EDX => 3 end.

(** *** The flag word after a detection pass *)

(** The rules a detection pass applies to the flag word, in program order:
    those of the common decoder, then those of the decoder the signature
    word selects. *)
Definition pass_rules (hw : hardware) : list decode_rule :=
  let cpuid_ctx := detected_ctx hw in
  let cpu_manufacturer_ecx := cpuid_result hw 0x0 0x0 ECX in
  (common_rules hw cpuid_ctx
   ++ if cpu_manufacturer_ecx =? CPU_MANUFACTURER_AMD then amd_rules hw cpuid_ctx
      else if cpu_manufacturer_ecx =? CPU_MANUFACTURER_INTEL then intel_rules hw cpuid_ctx
      else [])%list.

(** What a table of rules decides for bit [j] of the flag word: the probed
    bit of the last rule whose flag sits at [j], if there is one. *)
Fixpoint decided_by (rules : list decode_rule) (j : Z) : option bool :=
  match rules with
  | [] => None
  | (flags, flag_bit, feature) :: rules' =>
      match decided_by rules' j with
      | Some b => Some b
      | None => if j =? flag_pos feature then Some (Z.testbit flags flag_bit) else None
      end
  end.

(** The value a detection pass gives to a flag, read off the decoders flag
    by flag; [None] where the guards of the code keep it from deciding the
    flag on this processor. *)
Definition detected_flag (hw : hardware) (f : cpu_instruction) : option bool :=
  let max_standard := max_standard_func (detected_ctx hw) in
  let max_extended := max_extended_func (detected_ctx hw) in
  let cpu_manufacturer_ecx := cpuid_result hw 0x0 0x0 ECX in
  let func_1 := cpuid_result hw 0x1 0x0 in
  let func_7 := cpuid_result hw 0x7 0x0 in
  let func_80000001 := cpuid_result hw 0x80000001 0x0 in
  let func_D_5 := cpuid_result hw 0xD 0x5 in
  match f with
  | RDTSCP => Some (Z.testbit (func_1 EDX) 4)
  | SSE1   => Some (Z.testbit (func_1 EDX) 25)
  | SSE2   => Some (Z.testbit (func_1 EDX) 26)
  | SSE3   => Some (Z.testbit (func_1 ECX) 0)
  | SSSE3  => Some (Z.testbit (func_1 ECX) 9)
  | FMA3   => Some (Z.testbit (func_1 ECX) 12)
  | SSE4_1 => Some (Z.testbit (func_1 ECX) 19)
  | SSE4_2 => Some (Z.testbit (func_1 ECX) 20)
  | POPCNT => Some (Z.testbit (func_1 ECX) 23)
  | AVX1   => Some (Z.testbit (func_1 ECX) 28)
  | F16C   => Some (Z.testbit (func_1 ECX) 29)
  | BMI1 | TZCNT =>
      if max_standard >=? 0x7 then Some (Z.testbit (func_7 EBX) 3) else None
  | AVX2 =>
      if max_standard >=? 0x7 then Some (Z.testbit (func_7 EBX) 5) else None
  | BMI2 =>
      if max_standard >=? 0x7 then Some (Z.testbit (func_7 EBX) 8) else None
  | LZCNT =>
      if (max_standard >=? 0x7) && (max_extended >=? 0x80000001)
      then Some (Z.testbit (func_80000001 ECX) 5) else None
  | AVX512F =>
      if cpu_manufacturer_ecx =? CPU_MANUFACTURER_AMD then
        if max_standard >=? 0xB
        then Some ((func_D_5 EAX =? 0x40) && (func_D_5 EBX =? 0x340)) else None
      else if cpu_manufacturer_ecx =? CPU_MANUFACTURER_INTEL then
        if max_standard >=? 0x7 then Some (Z.testbit (func_7 EBX) 16) else None
      else None
  | TBM =>
      if (cpu_manufacturer_ecx =? CPU_MANUFACTURER_AMD) && (max_extended >=? 0xB)
      then Some (Z.testbit (func_80000001 ECX) 21) else None
  end.

(** *** The decode rules in the earlier revision

    The earlier revision applies a rule with
    [cpu_specs.instructions |= bit * FEATURE]: it can set a flag, never
    clear one. *)

Definition or_rule (instructions : Z) (rule : decode_rule) : Z :=
  let '(flags, flag_bit, feature) := rule in
  Z.lor instructions (Int32.mul (Z.land (Z.shiftr flags flag_bit) 1) feature).

Definition or_rules (rules : list decode_rule) (instructions : Z) : Z :=
  fold_left or_rule rules instructions.

(** The bit positions of the flags a table of rules writes. *)
Definition rule_targets (rules : list decode_rule) : list Z :=
  map (fun rule : decode_rule => flag_pos (snd rule)) rules.

(** Some rule of the table has its flag at [j] and probes a set bit. *)
Definition raised_by (rules : list decode_rule) (j : Z) : bool :=
  existsb (fun rule : decode_rule =>
             let '(flags, flag_bit, feature) := rule in
             Z.testbit flags flag_bit && (j =? flag_pos feature)) rules.

(** *** Enumerating cache descriptors *)

(** The loop condition of both cache decoders: the type field of the
    descriptor is not 0, [(cpuid_out[EAX] & 0xF) != 0]. *)
Definition descriptor_valid (cpuid_out : cpuid_out_t) : bool :=
  negb (Z.land (cpuid_out EAX) 0xF =? 0).

(** The descriptor makes the loop body write element [l] of
    [cache_level_specs]: it is for a data or unified cache and its level
    field is the index of [l] plus one. *)
Definition descriptor_describes (l : cache_level) (cpuid_out : cpuid_out_t) : bool :=
  descriptor_qualifies cpuid_out
  && (descriptor_level cpuid_out =? cache_level_index l + 1).

(** The last descriptor of a list that describes level [l]. *)
Fixpoint last_descriptor (l : cache_level) (descriptors : list cpuid_out_t)
  : option cpuid_out_t :=
  match descriptors with
  | [] => None
  | cpuid_out :: rest =>
      match last_descriptor l rest with
      | Some later => Some later
      | None => if descriptor_describes l cpuid_out then Some cpuid_out else None
      end
  end.

(** The answers of function [func] to sub-functions [first], ...,
    [first + count - 1]. *)
Definition descriptors (hw : hardware) (func : Z) (first count : nat)
  : list cpuid_out_t :=
  map (fun i => cpuid_result hw func (Z.of_nat i)) (seq first count).

(** What the body of the AMD loop stores in the element of a descriptor,
    given the [cache_line_size] and [threads_per_core] of [s]. *)
Definition amd_descriptor_entry (s : struct_cpu_specs) (cpuid_out : cpuid_out_t)
  : cpu_cache_level_specs :=
  mk_cache_level
    (Int32.mul (descriptor_line_count cpuid_out) (cache_line_size s))
    (Int32.to_s32 (Z.quot (descriptor_thread_count cpuid_out) (threads_per_core s))).

(** What the body of the Intel loop stores: the same size, and the
    attached core count capped by [core_count]. *)
Definition intel_descriptor_entry (s : struct_cpu_specs) (cpuid_out : cpuid_out_t)
  : cpu_cache_level_specs :=
  let max_attached_core_count :=
    Int32.to_s32 (Z.quot (descriptor_thread_count cpuid_out) (threads_per_core s)) in
  mk_cache_level
    (Int32.mul (descriptor_line_count cpuid_out) (cache_line_size s))
    (if max_attached_core_count <=? core_count s
     then max_attached_core_count else core_count s).

(** *** The queries of a run *)

(** Every query [c] adds to the history satisfies [P]. *)
Definition queries_only (P : Z * Z -> Prop) {A : Type} (c : M A) : Prop :=
  forall m x m',
    c m = Ok x m' ->
    exists new, cpuid_queries m' = (cpuid_queries m ++ new)%list /\ Forall P new.

(** The function of a query is 0x0, 0x1 or 0x80000000, or it is at most
    the highest function the processor reports for its range. *)
Definition query_in_range (ctx : cpuid_ctx) (q : Z * Z) : Prop :=
  let func := fst q in
  func = 0x0 \/ func = 0x1 \/ func = 0x80000000
  \/ (func < 0x80000000 /\ func <= max_standard_func ctx)
  \/ (0x80000000 <= func <= max_extended_func ctx).

(** The two queries of the AMD instruction decoder, which it guards with
    [max_standard_func >= 0xB] and [max_extended_func >= 0xB]. *)
Definition amd_instruction_query (q : Z * Z) : Prop :=
  q = (0xD, 0x5) \/ q = (0x80000001, 0x0).

(** A query a detection pass may issue on a processor with context [ctx];
    [amd] says that the signature word is [CPU_MANUFACTURER_AMD]. *)
Definition permitted_query (ctx : cpuid_ctx) (amd : Prop) (q : Z * Z) : Prop :=
  query_in_range ctx q \/ amd /\ amd_instruction_query q.

(** *** Logical processors and cores *)

(** The number of logical processors the AMD topology decoder reads, on
    the path the context selects. *)
Definition amd_total_thread_count (hw : hardware) (ctx : cpuid_ctx) : Z :=
  if max_standard_func ctx >=? 0xB then Z.land (cpuid_result hw 0xB 0x1 EBX) 0xFFFF
  else if max_extended_func ctx >=? 0x80000008
       then Z.land (cpuid_result hw 0x80000008 0x0 ECX) 0xFF + 1
       else Z.land (Z.shiftr (cpuid_result hw 0x1 0x0 EBX) 16) 0xFF.

(** The paths of the AMD topology decoder that end without an assignment
    to [core_count]. *)
Definition amd_keeps_core_count (hw : hardware) (ctx : cpuid_ctx) : bool :=
  negb (max_standard_func ctx >=? 0xB)
  && negb (max_extended_func ctx >=? 0x80000008)
  && (negb (Z.testbit (cpuid_result hw 0x1 0x0 EDX) 28)
      || (max_extended_func ctx >=? 0x80000001)
         && negb (Z.testbit (cpuid_result hw 0x80000001 0x0 ECX) 1)).

(** The same for the Intel topology decoder. *)
Definition intel_total_thread_count (hw : hardware) (ctx : cpuid_ctx) : Z :=
  if max_standard_func ctx >=? 0xB then
    let higher_func := if max_standard_func ctx >=? 0x1F then 0x1F else 0xB in
    Z.land (cpuid_result hw higher_func 0x1 EBX) 0xFFFF
  else Z.land (Z.shiftr (cpuid_result hw 0x1 0x0 EBX) 16) 0xFF.

Definition intel_keeps_core_count (hw : hardware) (ctx : cpuid_ctx) : bool :=
  negb (max_standard_func ctx >=? 0xB)
  && negb (Z.testbit (cpuid_result hw 0x1 0x0 EDX) 28).

(** Function [func] describes [count] caches to a loop that tests the type
    field of every sub-function but the first [untested] ones: the tested
    sub-functions below [count] have a nonzero type field, sub-function
    [count] has type 0, and no data or unified descriptor below [count]
    has a level field of 0.  The [while] loop of the Intel decoder has
    [untested = 0]; the [do ... while] loop of the AMD decoder runs its
    body on sub-function 0 before any test and has [untested = 1]. *)
Definition descriptors_end_at (hw : hardware) (func : Z) (untested count : nat) : Prop :=
  (untested <= count)%nat
  /\ Z.of_nat count < 2 ^ 31
  /\ (forall i, (untested <= i < count)%nat ->
                descriptor_valid (cpuid_result hw func (Z.of_nat i)) = true)
  /\ descriptor_valid (cpuid_result hw func (Z.of_nat count)) = false
  /\ (forall i, (i < count)%nat ->
                descriptor_qualifies (cpuid_result hw func (Z.of_nat i)) = true ->
                descriptor_level (cpuid_result hw func (Z.of_nat i)) <> 0).


(* ===================================================================== *)
(** * Properties *)

(** ** Fixed-width arithmetic *)

Lemma to_s32_range (x : Z) : Int32.in_s32 (Int32.to_s32 x).
Proof.
  unfold Int32.in_s32, Int32.to_s32, Int32.modulus, Int32.half_modulus.
  pose proof (Z.mod_pos_bound x (2 ^ 32) ltac:(lia)) as Hb.
  destruct (Z.ltb_spec (x mod 2 ^ 32) (2 ^ 31)); lia.
Qed.

Lemma to_s32_id (x : Z) : Int32.in_s32 x -> Int32.to_s32 x = x.
Proof.
  unfold Int32.in_s32, Int32.to_s32, Int32.modulus, Int32.half_modulus.
  intros Hx.
  destruct (Z_lt_le_dec x 0) as [Hneg | Hpos].
  - assert (Hm : x mod 2 ^ 32 = x + 2 ^ 32).
    { symmetry. apply Z.mod_unique with (q := -1); lia. }
    rewrite Hm. destruct (Z.ltb_spec (x + 2 ^ 32) (2 ^ 31)); lia.
  - rewrite Z.mod_small by lia.
    destruct (Z.ltb_spec x (2 ^ 31)); lia.
Qed.

Lemma to_u32_range (x : Z) : Int32.in_u32 (Int32.to_u32 x).
Proof.
  unfold Int32.in_u32, Int32.to_u32, Int32.modulus.
  apply Z.mod_pos_bound. lia.
Qed.

Lemma to_u32_to_s32 (x : Z) : Int32.to_u32 (Int32.to_s32 x) = Int32.to_u32 x.
Proof.
  unfold Int32.to_u32, Int32.to_s32, Int32.modulus, Int32.half_modulus.
  destruct (Z.ltb_spec (x mod 2 ^ 32) (2 ^ 31)).
  - apply Z.mod_mod. lia.
  - replace (x mod 2 ^ 32 - 2 ^ 32) with (x mod 2 ^ 32 + (-1) * 2 ^ 32) by lia.
    rewrite Z.mod_add by lia. apply Z.mod_mod. lia.
Qed.

Lemma to_s32_to_u32 (x : Z) : Int32.to_s32 (Int32.to_u32 x) = Int32.to_s32 x.
Proof.
  unfold Int32.to_u32, Int32.to_s32, Int32.modulus.
  rewrite Z.mod_mod by lia. reflexivity.
Qed.

(** ** Bits *)

Lemma land_1_testbit (x : Z) : Z.land x 1 = Z.b2z (Z.testbit x 0).
Proof.
  change 1 with (Z.ones 1). rewrite Z.land_ones by lia.
  rewrite Z.bit0_mod. reflexivity.
Qed.

Lemma isolated_bit_testbit (flags flag_bit : Z) :
  0 <= flag_bit ->
  Z.land (Z.shiftr flags flag_bit) 1 = Z.b2z (Z.testbit flags flag_bit).
Proof.
  intros H. rewrite land_1_testbit, Z.shiftr_spec by lia.
  rewrite Z.add_0_l. reflexivity.
Qed.

Lemma testbit_single (k j : Z) :
  0 <= k -> Z.testbit (Z.shiftl 1 k) j = (j =? k).
Proof.
  intros Hk. rewrite Z.shiftl_1_l.
  destruct (Z.eqb_spec j k) as [-> | Hne].
  - apply Z.pow2_bits_true. lia.
  - apply Z.pow2_bits_false. lia.
Qed.

(** The two closed forms of the flag update: the probed bit selects
    between clearing the masked bits and setting them. *)
Lemma update_inst_availability_clear (instructions flags flag_bit feature_mask : Z) :
  0 <= flag_bit ->
  Z.testbit flags flag_bit = false ->
  update_inst_availability instructions flags flag_bit feature_mask
  = Z.land instructions (Z.lnot feature_mask).
Proof.
  intros Hb Hbit. unfold update_inst_availability.
  rewrite isolated_bit_testbit, Hbit by assumption. cbn [Z.b2z].
  change (Int32.neg 0) with 0. rewrite Z.lxor_0_l.
  apply Z.bits_inj'. intros n Hn.
  rewrite Z.lxor_spec, !Z.land_spec, Z.lnot_spec by assumption.
  destruct (Z.testbit instructions n), (Z.testbit feature_mask n); reflexivity.
Qed.

Lemma update_inst_availability_set (instructions flags flag_bit feature_mask : Z) :
  0 <= flag_bit ->
  Z.testbit flags flag_bit = true ->
  update_inst_availability instructions flags flag_bit feature_mask
  = Z.lor instructions feature_mask.
Proof.
  intros Hb Hbit. unfold update_inst_availability.
  rewrite isolated_bit_testbit, Hbit by assumption. cbn [Z.b2z].
  change (Int32.neg 1) with (-1).
  apply Z.bits_inj'. intros n Hn.
  rewrite Z.lxor_spec, Z.land_spec, Z.lxor_spec, Z.lor_spec, Z.bits_m1 by assumption.
  destruct (Z.testbit instructions n), (Z.testbit feature_mask n); reflexivity.
Qed.

(** Bit by bit: inside the mask the result carries the probed bit, outside
    it carries the old value. *)
Lemma update_inst_availability_bits (instructions flags flag_bit feature_mask n : Z) :
  0 <= flag_bit ->
  Z.testbit (update_inst_availability instructions flags flag_bit feature_mask) n
  = if Z.testbit feature_mask n then Z.testbit flags flag_bit
    else Z.testbit instructions n.
Proof.
  intros Hb.
  destruct (Z_lt_le_dec n 0) as [Hneg | Hn].
  - rewrite !Z.testbit_neg_r by assumption. reflexivity.
  - destruct (Z.testbit flags flag_bit) eqn:Hbit.
    + rewrite update_inst_availability_set, Z.lor_spec by assumption.
      destruct (Z.testbit instructions n), (Z.testbit feature_mask n); reflexivity.
    + rewrite update_inst_availability_clear, Z.land_spec, Z.lnot_spec by assumption.
      destruct (Z.testbit instructions n), (Z.testbit feature_mask n); reflexivity.
Qed.

(** ** Running the monad *)

Lemma bind_ok {A B} (c : M A) (k : A -> M B) (m m' : machine) (a : A) :
  c m = Ok a m' -> bind c k m = k a m'.
Proof. intros H. unfold bind. rewrite H. reflexivity. Qed.

Lemma bind_fault {A B} (c : M A) (k : A -> M B) (m : machine) (f : fault) :
  c m = Fault f -> bind c k m = Fault f.
Proof. intros H. unfold bind. rewrite H. reflexivity. Qed.

Lemma bind_inv {A B} (c : M A) (k : A -> M B) (m m'' : machine) (b : B) :
  bind c k m = Ok b m'' ->
  exists a m', c m = Ok a m' /\ k a m' = Ok b m''.
Proof.
  unfold bind. destruct (c m) as [a m' | f]; intros H.
  - exists a, m'. split; [reflexivity | exact H].
  - discriminate H.
Qed.

(** Two returning runs that are equal end in the same machine. *)
Lemma Ok_inj {A : Type} (x y : A) (m m' : machine) :
  Ok x m = Ok y m' -> m = m'.
Proof. intros H. injection H. auto. Qed.

Lemma Ok_inj_value {A : Type} (x y : A) (m m' : machine) :
  Ok x m = Ok y m' -> x = y.
Proof. intros H. injection H. auto. Qed.

(** Unfolds the always-succeeding primitives in a run. *)
Ltac run_prims :=
  cbv beta iota zeta delta
    [bind ret __cpuidex __readeflags __writeeflags
     read_specs write_specs read_identity write_identity
     store_manufacturer cpuidex_into_name].

(** ** The availability probe *)

Lemma cpuid_is_available_run (hw : hardware) (m : machine) :
  cpuid_is_available hw m
  = Ok (hw_id_flag_changeable hw) (set_eflags (eflags_after_probe hw (eflags m)) m).
Proof.
  unfold cpuid_is_available, eflags_after_probe. run_prims.
  cbn [eflags set_eflags].
  destruct (hw_id_flag_changeable hw).
  - rewrite Z.eqb_refl. reflexivity.
  - match goal with |- Ok ?b _ = _ => assert (Hb : b = false) end.
    { apply Z.eqb_neq. intros Heq.
      apply (f_equal (fun x => Z.testbit x 21)) in Heq.
      rewrite Z.lor_spec, !Z.land_spec, Z.lxor_spec, Z.lnot_spec in Heq by lia.
      unfold ID_FLAG in Heq. rewrite testbit_single in Heq by lia.
      rewrite Z.eqb_refl in Heq.
      destruct (Z.testbit (eflags m) 21); discriminate Heq. }
    rewrite Hb. reflexivity.
Qed.

Lemma cpuid_is_available_inv (hw : hardware) (m m0 : machine) (available : bool) :
  cpuid_is_available hw m = Ok available m0 ->
  available = hw_id_flag_changeable hw.
Proof.
  rewrite cpuid_is_available_run. intros H.
  apply Ok_inj_value in H. symmetry. exact H.
Qed.

(** ** Entry points without CPUID *)

Lemma cpu_specs_init_unavailable (hw : hardware) (fuel : nat) (m : machine) :
  hw_id_flag_changeable hw = false ->
  cpu_specs_init hw fuel m = Ok tt (set_eflags (eflags_after_probe hw (eflags m)) m).
Proof.
  intros Hhw. unfold cpu_specs_init.
  rewrite (bind_ok _ _ _ _ _ (cpuid_is_available_run hw m)), Hhw. reflexivity.
Qed.

Lemma cpu_identity_init_unavailable (hw : hardware) (m : machine) :
  hw_id_flag_changeable hw = false ->
  cpu_identity_init hw m = Ok tt (set_eflags (eflags_after_probe hw (eflags m)) m).
Proof.
  intros Hhw. unfold cpu_identity_init.
  rewrite (bind_ok _ _ _ _ _ (cpuid_is_available_run hw m)), Hhw. reflexivity.
Qed.

Lemma cpuid_ctx_get_run (hw : hardware) (m : machine) :
  cpuid_ctx_get hw m
  = let m0 := set_eflags (eflags_after_probe hw (eflags m)) m in
    if hw_id_flag_changeable hw then
      Ok (mk_cpuid_ctx (Int32.to_u32 (cpuid_result hw 0x0 0x0 EAX))
                       (Int32.to_u32 (cpuid_result hw 0x80000000 0x0 EAX)))
         (log_query (0x80000000, 0) (log_query (0, 0) m0))
    else Ok (mk_cpuid_ctx 0 0) m0.
Proof.
  unfold cpuid_ctx_get.
  rewrite (bind_ok _ _ _ _ _ (cpuid_is_available_run hw m)).
  destruct (hw_id_flag_changeable hw); reflexivity.
Qed.

(* ===================================================================== *)
(** ** The context resolver *)

(** C8.  [cpuid_ctx_get] returns [{0, 0}] and issues no query when
    [cpuid_is_available] returns false; otherwise it returns the EAX values
    of function 0x0 and of function 0x80000000 (as [u32]) after exactly
    those two queries.  In both cases [cpu_specs] and [cpu_identity] are
    left as they were. *)
Theorem cpuid_ctx_get_spec
  (hw : hardware) (m m0 : machine) (available : bool) :
  cpuid_is_available hw m = Ok available m0 ->
  exists m',
    cpuid_ctx_get hw m
    = Ok (if available
          then mk_cpuid_ctx (Int32.to_u32 (hw_cpuid hw 0x0 0x0 EAX))
                            (Int32.to_u32 (hw_cpuid hw 0x80000000 0x0 EAX))
          else mk_cpuid_ctx 0 0) m'
    /\ cpuid_queries m'
       = (cpuid_queries m ++ if available then [(0x0, 0x0); (0x80000000, 0x0)] else [])%list
    /\ cpu_specs m' = cpu_specs m
    /\ cpu_identity m' = cpu_identity m.
Proof.
  intros Hprobe. apply cpuid_is_available_inv in Hprobe. subst available.
  rewrite cpuid_ctx_get_run. cbv zeta.
  unfold cpuid_result. rewrite !to_u32_to_s32.
  change (Int32.to_u32 0x0) with 0. change (Int32.to_u32 0x80000000) with 0x80000000.
  destruct (hw_id_flag_changeable hw); eexists; (split; [reflexivity |]).
  - cbn [log_query set_eflags cpuid_queries cpu_specs cpu_identity].
    rewrite <- app_assoc. repeat split.
  - cbn [set_eflags cpuid_queries cpu_specs cpu_identity].
    rewrite app_nil_r. repeat split.
Qed.

Lemma cpuid_ctx_get_spec_witness :
  exists m',
    cpuid_ctx_get no_cpuid_hw (boot ISA_x86 0)
    = Ok (if false
          then mk_cpuid_ctx (Int32.to_u32 (hw_cpuid no_cpuid_hw 0x0 0x0 EAX))
                            (Int32.to_u32 (hw_cpuid no_cpuid_hw 0x80000000 0x0 EAX))
          else mk_cpuid_ctx 0 0) m'
    /\ cpuid_queries m'
       = (cpuid_queries (boot ISA_x86 0)
            ++ if false then [(0x0, 0x0); (0x80000000, 0x0)] else [])%list
    /\ cpu_specs m' = cpu_specs (boot ISA_x86 0)
    /\ cpu_identity m' = cpu_identity (boot ISA_x86 0).
Proof.
  apply (cpuid_ctx_get_spec no_cpuid_hw (boot ISA_x86 0)
           (set_eflags 0 (boot ISA_x86 0)) false).
  reflexivity.
Defined.

(* ===================================================================== *)
(** ** Detection without CPUID *)

(** Without CPUID both entry points only run the probe: the singletons and
    the query history are untouched, whatever they held. *)
Lemma init_unavailable_frame (hw : hardware) (fuel : nat) (m : machine) :
  hw_id_flag_changeable hw = false ->
  exists m',
    (cpu_specs_init hw fuel ;; cpu_identity_init hw) m = Ok tt m'
    /\ cpu_specs m' = cpu_specs m
    /\ cpu_identity m' = cpu_identity m
    /\ cpuid_queries m' = cpuid_queries m.
Proof.
  intros Hhw. eexists. split.
  - rewrite (bind_ok _ _ _ _ _ (cpu_specs_init_unavailable hw fuel m Hhw)).
    apply cpu_identity_init_unavailable. exact Hhw.
  - repeat split.
Qed.

(** C1, as amended.  When [cpuid_is_available] returns false, a call to
    [cpu_specs_init] followed by a call to [cpu_identity_init] issues no
    query and leaves both singletons at their static initializers: L1 =
    4 KiB with 1 attached core, L2 and L3 at 0 size with 0 attached cores,
    cache line 64 bytes, 1 thread per core, 1 core, family, model and
    stepping 0, manufacturer and name "Unknown"; the instruction flags are
    0 in an ISA_x86 build and SSE1 | SSE2 in an ISA_x64 build. *)
Theorem unavailable_keeps_static_initializers
  (hw : hardware) (isa : ISA) (initial_eflags : Z) (fuel : nat) (m0 : machine) :
  cpuid_is_available hw (boot isa initial_eflags) = Ok false m0 ->
  exists m',
    (cpu_specs_init hw fuel ;; cpu_identity_init hw) (boot isa initial_eflags) = Ok tt m'
    /\ cpu_specs m'
       = mk_cpu_specs
           (mk_cache_array (mk_cache_level (4 * 1024) 1) (mk_cache_level 0 0)
              (mk_cache_level 0 0))
           64 1 1
           (match isa with ISA_x64 => Z.lor SSE1 SSE2 | ISA_x86 => 0 end)
    /\ cpu_identity m'
       = mk_cpu_identity 0 0 0 (Bytes.of_literal 12 "Unknown") (Bytes.of_literal 48 "Unknown")
    /\ cpuid_queries m' = [].
Proof.
  intros Hprobe. apply cpuid_is_available_inv in Hprobe. symmetry in Hprobe.
  destruct (init_unavailable_frame hw fuel (boot isa initial_eflags) Hprobe)
    as (m' & Hrun & Hspecs & Hid & Hq).
  exists m'. split; [exact Hrun |].
  rewrite Hspecs, Hid, Hq. repeat split.
Qed.

Lemma unavailable_keeps_static_initializers_witness :
  exists m',
    (cpu_specs_init no_cpuid_hw 8 ;; cpu_identity_init no_cpuid_hw) (boot ISA_x64 0) = Ok tt m'
    /\ cpu_specs m'
       = mk_cpu_specs
           (mk_cache_array (mk_cache_level (4 * 1024) 1) (mk_cache_level 0 0)
              (mk_cache_level 0 0))
           64 1 1
           (Z.lor SSE1 SSE2)
    /\ cpu_identity m'
       = mk_cpu_identity 0 0 0 (Bytes.of_literal 12 "Unknown") (Bytes.of_literal 48 "Unknown")
    /\ cpuid_queries m' = [].
Proof.
  apply (unavailable_keeps_static_initializers no_cpuid_hw ISA_x64 0 8 (boot ISA_x64 0)).
  reflexivity.
Defined.

(** C1, as stated, fails in an ISA_x64 build: the probe returns false, both
    entry points return, and the instruction flags are SSE1 | SSE2 = 3, not
    zero. *)
Lemma unavailable_x64_flags_not_zero :
  cpuid_is_available no_cpuid_hw (boot ISA_x64 0) = Ok false (boot ISA_x64 0)
  /\ exists m',
       (cpu_specs_init no_cpuid_hw 8 ;; cpu_identity_init no_cpuid_hw) (boot ISA_x64 0)
       = Ok tt m'
       /\ instructions (cpu_specs m') = 3
       /\ instructions (cpu_specs m') <> 0.
Proof.
  split; [reflexivity |].
  eexists. split; [reflexivity |].
  split; [reflexivity | discriminate].
Qed.

(* ===================================================================== *)
(** ** Byte buffers *)

Lemma Z_of_byte_range (b : byte) : 0 <= Bytes.Z_of_byte b < 256.
Proof.
  unfold Bytes.Z_of_byte. pose proof (Byte.to_N_bounded b) as Hb. lia.
Qed.

Lemma Z_of_byte_of_Z (x : Z) : Bytes.Z_of_byte (Bytes.byte_of_Z x) = x mod 256.
Proof.
  unfold Bytes.Z_of_byte, Bytes.byte_of_Z.
  pose proof (Z.mod_pos_bound x 256 ltac:(lia)) as Hb.
  destruct (Byte.of_N (Z.to_N (x mod 256))) as [b |] eqn:Hof.
  - apply Byte.to_of_N in Hof. rewrite Hof. lia.
  - apply Byte.of_N_None_iff in Hof. lia.
Qed.

Lemma byte_of_Z_of_byte (b : byte) (r : Z) :
  Bytes.byte_of_Z (Bytes.Z_of_byte b + 256 * r) = b.
Proof.
  unfold Bytes.byte_of_Z.
  pose proof (Z_of_byte_range b) as Hb.
  replace ((Bytes.Z_of_byte b + 256 * r) mod 256) with (Bytes.Z_of_byte b).
  - unfold Bytes.Z_of_byte. rewrite N2Z.id, Byte.of_to_N. reflexivity.
  - apply Z.mod_unique with (q := r); lia.
Qed.

Lemma byte_of_Z_mod (x y : Z) :
  x mod 256 = y mod 256 -> Bytes.byte_of_Z x = Bytes.byte_of_Z y.
Proof. unfold Bytes.byte_of_Z. intros ->. reflexivity. Qed.

(** Reading back the word that was stored. *)
Lemma le_word_le_bytes (w : Z) : Bytes.le_word (Bytes.le_bytes w) = Int32.to_u32 w.
Proof.
  unfold Bytes.le_bytes, Bytes.le_word, Int32.to_u32, Int32.modulus.
  rewrite !Z_of_byte_of_Z, !Z.shiftr_div_pow2 by lia.
  change (2 ^ 8) with 256. change (2 ^ 16) with 65536.
  change (2 ^ 24) with 16777216. change (2 ^ 32) with 4294967296.
  Z.to_euclidean_division_equations. lia.
Qed.

(** The bytes of a word only depend on its low 32 bits. *)
Lemma le_bytes_to_s32 (w : Z) : Bytes.le_bytes (Int32.to_s32 w) = Bytes.le_bytes w.
Proof.
  unfold Bytes.le_bytes.
  assert (H : forall k, 0 <= k <= 24 ->
            Z.shiftr (Int32.to_s32 w) k mod 256 = Z.shiftr w k mod 256).
  { intros k Hk.
    change 256 with (2 ^ 8).
    rewrite <- !Z.land_ones by lia.
    apply Z.bits_inj'. intros n Hn.
    rewrite !Z.land_spec, !Z.shiftr_spec by lia.
    destruct (Z_lt_le_dec n 8) as [Hlt | Hge].
    - f_equal.
      unfold Int32.to_s32, Int32.modulus, Int32.half_modulus.
      destruct (Z.ltb_spec (w mod 2 ^ 32) (2 ^ 31)).
      + apply Z.mod_pow2_bits_low. lia.
      + replace (w mod 2 ^ 32 - 2 ^ 32) with (w mod 2 ^ 32 + (-1) * 2 ^ 32) by lia.
        rewrite <- (Z.mod_pow2_bits_low (w mod 2 ^ 32 + -1 * 2 ^ 32) 32) by lia.
        rewrite Z.mod_add by lia. rewrite Z.mod_mod by lia.
        apply Z.mod_pow2_bits_low. lia.
    - rewrite Z.ones_spec_high by lia. rewrite !andb_false_r. reflexivity. }
  rewrite (byte_of_Z_mod (Int32.to_s32 w) w) by exact (H 0 ltac:(lia)).
  rewrite (byte_of_Z_mod _ _ (H 8 ltac:(lia))), (byte_of_Z_mod _ _ (H 16 ltac:(lia))),
    (byte_of_Z_mod _ _ (H 24 ltac:(lia))).
  reflexivity.
Qed.

(** Spelling four bytes as a word and storing it gives the bytes back. *)
Lemma le_bytes_le_word (a b c d : byte) :
  Bytes.le_bytes (Bytes.le_word [a; b; c; d]) = [a; b; c; d].
Proof.
  unfold Bytes.le_bytes, Bytes.le_word.
  pose proof (Z_of_byte_range a) as Ha. pose proof (Z_of_byte_range b) as Hb.
  pose proof (Z_of_byte_range c) as Hc. pose proof (Z_of_byte_range d) as Hd.
  set (rd := Bytes.Z_of_byte d + 256 * 0) in *.
  set (rc := Bytes.Z_of_byte c + 256 * rd) in *.
  set (rb := Bytes.Z_of_byte b + 256 * rc) in *.
  rewrite !Z.shiftr_div_pow2 by lia.
  change (2 ^ 8) with 256. change (2 ^ 16) with 65536. change (2 ^ 24) with 16777216.
  assert (E1 : (Bytes.Z_of_byte a + 256 * rb) / 256 = rb)
    by (Z.to_euclidean_division_equations; lia).
  assert (E2 : (Bytes.Z_of_byte a + 256 * rb) / 65536 = rc)
    by (subst rb; Z.to_euclidean_division_equations; lia).
  assert (E3 : (Bytes.Z_of_byte a + 256 * rb) / 16777216 = rd)
    by (subst rb rc; Z.to_euclidean_division_equations; lia).
  rewrite E1, E2, E3. subst rb rc rd.
  rewrite !byte_of_Z_of_byte. reflexivity.
Qed.

Lemma store_after (p bs t : list byte) :
  Bytes.store (List.length p) bs (p ++ t) = (p ++ bs ++ skipn (List.length bs) t)%list.
Proof.
  unfold Bytes.store.
  rewrite firstn_app, Nat.sub_diag, firstn_all, firstn_O, app_nil_r.
  rewrite skipn_app, skipn_all2 by lia.
  replace (List.length p + List.length bs - List.length p)%nat with (List.length bs) by lia.
  reflexivity.
Qed.

(** Three consecutive stores of [n]-byte blocks from offset 0 replace the
    first [3 n] bytes of the buffer. *)
Lemma store_three (n : nat) (a b c buf : list byte) :
  List.length a = n -> List.length b = n -> List.length c = n ->
  Bytes.store (n + n) c (Bytes.store n b (Bytes.store 0 a buf))
  = (a ++ b ++ c ++ skipn (n + n + n) buf)%list.
Proof.
  intros Ha Hb Hc. subst n.
  change (Bytes.store 0 a buf) with (Bytes.store (List.length (@nil byte)) a ([] ++ buf)).
  rewrite store_after. cbn [app].
  rewrite store_after.
  replace (List.length a + List.length a)%nat with (List.length (a ++ b))
    by (rewrite length_app; lia).
  rewrite app_assoc, store_after, <- app_assoc.
  rewrite !skipn_skipn. do 4 f_equal.
  rewrite length_app. lia.
Qed.

(* ===================================================================== *)
(** ** The identity decoder *)

Ltac proj_simpl :=
  cbn [cpu_identity cpu_specs eflags cpuid_queries
       update_cpu_identity update_cpu_specs log_query set_eflags
       family model stepping manufacturer name
       set_family set_model set_stepping set_manufacturer set_name].

Lemma land_mask_range (x : Z) (n : Z) :
  0 <= n -> 0 <= Z.land x (Z.ones n) < 2 ^ n.
Proof.
  intros Hn. rewrite Z.land_ones by assumption.
  apply Z.mod_pos_bound. apply Z.pow_pos_nonneg; lia.
Qed.

Lemma to_s32_cpuid_result (hw : hardware) (func sub_func : Z) (r : cpuid_output_register) :
  Int32.to_s32 (cpuid_result hw func sub_func r) = cpuid_result hw func sub_func r.
Proof. apply to_s32_id. apply to_s32_range. Qed.

Lemma cpuid_result_range (hw : hardware) (func sub_func : Z) (r : cpuid_output_register) :
  Int32.in_s32 (cpuid_result hw func sub_func r).
Proof. apply to_s32_range. Qed.

(** [*(s32* )(cpu_identity.manufacturer + 8)] after the three stores. *)
Lemma load_s32_stored (a b c : Z) (buf : list byte) :
  Bytes.load_s32 8
    (Bytes.store 8 (Bytes.le_bytes c)
       (Bytes.store 4 (Bytes.le_bytes b) (Bytes.store 0 (Bytes.le_bytes a) buf)))
  = Int32.to_s32 c.
Proof.
  rewrite (store_three 4 _ _ _ buf) by reflexivity.
  unfold Bytes.load_s32.
  change (firstn 4 (skipn 8 (Bytes.le_bytes a ++ Bytes.le_bytes b ++ Bytes.le_bytes c
                               ++ skipn (4 + 4 + 4) buf)))
    with (Bytes.le_bytes c).
  rewrite le_word_le_bytes. apply to_s32_to_u32.
Qed.

Lemma of_cpuid_out_length (o : cpuid_out_t) : List.length (Bytes.of_cpuid_out o) = 16%nat.
Proof. reflexivity. Qed.

(** What one call of [cpu_identity_init] leaves in [cpu_identity] on a
    processor with CPUID. *)
Lemma cpu_identity_init_available (hw : hardware) (m : machine) :
  hw_id_flag_changeable hw = true ->
  let fms := cpuid_result hw 0x1 0x0 EAX in
  let base_family := Z.land (Z.shiftr fms 8) 0xF in
  let base_model := Z.land (Z.shiftr fms 4) 0xF in
  let extended_model := Z.land (Z.shiftr fms 12) 0xF0 in
  exists m',
    cpu_identity_init hw m = Ok tt m'
    /\ cpu_specs m' = cpu_specs m
    /\ family (cpu_identity m')
       = (if base_family =? 0xF then 0xF + Z.land (Z.shiftr fms 20) 0xFF else base_family)
    /\ model (cpu_identity m')
       = (if (base_family =? 0xF)
             || ((cpuid_result hw 0x0 0x0 ECX =? CPU_MANUFACTURER_INTEL)
                 && (base_family =? 0x6))
          then Z.lor base_model extended_model else base_model)
    /\ stepping (cpu_identity m') = Z.land fms 0xF
    /\ manufacturer (cpu_identity m')
       = (Bytes.le_bytes (cpuid_result hw 0x0 0x0 EBX)
          ++ Bytes.le_bytes (cpuid_result hw 0x0 0x0 EDX)
          ++ Bytes.le_bytes (cpuid_result hw 0x0 0x0 ECX)
          ++ skipn 12 (manufacturer (cpu_identity m)))%list
    /\ name (cpu_identity m')
       = (if Int32.to_u32 (cpuid_result hw 0x80000000 0x0 EAX) >=? 0x80000004
          then (Bytes.of_cpuid_out (cpuid_result hw 0x80000002 0x0)
                ++ Bytes.of_cpuid_out (cpuid_result hw 0x80000003 0x0)
                ++ Bytes.of_cpuid_out (cpuid_result hw 0x80000004 0x0)
                ++ skipn 48 (name (cpu_identity m)))%list
          else name (cpu_identity m)).
Proof.
  intros H fms bf bm em. unfold cpu_identity_init.
  rewrite (bind_ok _ _ _ _ _ (cpuid_is_available_run hw m)), H.
  run_prims. fold fms. fold bf. fold bm. fold em. proj_simpl.
  pose proof (land_mask_range (Z.shiftr fms 20) 8 ltac:(lia)) as Hext.
  change (Z.ones 8) with 255 in Hext. change (2 ^ 8) with 256 in Hext.
  destruct (bf =? 15) eqn:E15; cbv beta iota; proj_simpl;
    rewrite load_s32_stored, to_s32_cpuid_result.
  - apply Z.eqb_eq in E15. rewrite E15.
    assert (Hadd : Int32.add 15 (Z.land (Z.shiftr fms 20) 255)
                   = 15 + Z.land (Z.shiftr fms 20) 255).
    { apply to_s32_id. unfold Int32.in_s32, Int32.half_modulus. lia. }
    rewrite Hadd.
    replace (15 + Z.land (Z.shiftr fms 20) 255 =? 6) with false
      by (symmetry; apply Z.eqb_neq; lia).
    rewrite andb_false_r. cbv beta iota.
    destruct (Int32.to_u32 (cpuid_result hw 2147483648 0 EAX) >=? 2147483652);
      eexists; (split; [reflexivity |]); proj_simpl;
      rewrite (store_three 4 _ _ _ (manufacturer (cpu_identity m))) by reflexivity;
      rewrite ?(store_three 16 _ _ _ (name (cpu_identity m))) by reflexivity;
      repeat split; exact Hadd.
  - cbn [orb].
    destruct ((cpuid_result hw 0 0 ECX =? CPU_MANUFACTURER_INTEL) && (bf =? 6));
      cbv beta iota;
      destruct (Int32.to_u32 (cpuid_result hw 2147483648 0 EAX) >=? 2147483652);
      eexists; (split; [reflexivity |]); proj_simpl;
      rewrite (store_three 4 _ _ _ (manufacturer (cpu_identity m))) by reflexivity;
      rewrite ?(store_three 16 _ _ _ (name (cpu_identity m))) by reflexivity;
      repeat split.
Qed.

Lemma extended_model_nibble (x : Z) :
  Z.land (Z.shiftr x 12) 0xF0 = Z.shiftl (bit_field 16 4 x) 4.
Proof.
  unfold bit_field. apply Z.bits_inj'. intros n Hn.
  rewrite Z.land_spec, Z.shiftr_spec by assumption.
  destruct (Z_lt_le_dec n 4) as [Hlow | Hhigh].
  - rewrite Z.shiftl_spec_low by assumption.
    replace (Z.testbit 240 n) with false; [apply andb_false_r |].
    assert (Hcases : n = 0 \/ n = 1 \/ n = 2 \/ n = 3) by lia.
    destruct Hcases as [-> | [-> | [-> | ->]]]; reflexivity.
  - rewrite Z.shiftl_spec, Z.land_spec, Z.shiftr_spec by lia.
    replace (n - 4 + 16) with (n + 12) by lia. f_equal.
    change 240 with (Z.shiftl (Z.ones 4) 4).
    rewrite Z.shiftl_spec by lia. reflexivity.
Qed.

(** C6.  Family, model and stepping out of function 1's EAX: a raw family
    field (bits 8-11) equal to 0xF adds the extended-family field (bits
    20-27) to [family] -- an extended family of 2 gives 17 -- and ORs the
    extended-model field (bits 16-19) into the upper nibble of [model]; a
    raw family of 6 on a processor whose signature word is
    [CPU_MANUFACTURER_INTEL] also gets the extended-model bits; in every
    other case [family] and [model] are the raw fields. *)
Theorem identity_extended_family_model
  (hw : hardware) (m m0 : machine) (available : bool) :
  cpuid_is_available hw m = Ok available m0 ->
  available = true ->
  let eax := cpuid_result hw 0x1 0x0 EAX in
  let raw_family := bit_field 8 4 eax in
  let raw_model := bit_field 4 4 eax in
  let extended_family := bit_field 20 8 eax in
  let extended_model := bit_field 16 4 eax in
  let signature := cpuid_result hw 0x0 0x0 ECX in
  exists m',
    cpu_identity_init hw m = Ok tt m'
    /\ stepping (cpu_identity m') = bit_field 0 4 eax
    /\ (raw_family = 0xF ->
        family (cpu_identity m') = 0xF + extended_family
        /\ model (cpu_identity m') = Z.lor raw_model (Z.shiftl extended_model 4))
    /\ (raw_family = 0xF -> extended_family = 2 -> family (cpu_identity m') = 17)
    /\ (raw_family = 0x6 -> signature = CPU_MANUFACTURER_INTEL ->
        family (cpu_identity m') = 0x6
        /\ model (cpu_identity m') = Z.lor raw_model (Z.shiftl extended_model 4))
    /\ (raw_family <> 0xF ->
        ~ (raw_family = 0x6 /\ signature = CPU_MANUFACTURER_INTEL) ->
        family (cpu_identity m') = raw_family
        /\ model (cpu_identity m') = raw_model).
Proof.
  intros Hprobe -> eax raw_family raw_model extended_family extended_model signature.
  apply cpuid_is_available_inv in Hprobe. symmetry in Hprobe.
  destruct (cpu_identity_init_available hw m Hprobe)
    as (m' & Hrun & _ & Hfam & Hmod & Hstep & _ & _).
  exists m'. split; [exact Hrun |].
  rewrite extended_model_nibble in Hmod.
  change (Z.land (cpuid_result hw 1 0 EAX) 15) with (bit_field 0 4 eax) in Hstep.
  change (Z.land (Z.shiftr (cpuid_result hw 1 0 EAX) 8) 15) with raw_family in Hfam, Hmod.
  change (Z.land (Z.shiftr (cpuid_result hw 1 0 EAX) 4) 15) with raw_model in Hmod.
  change (Z.land (Z.shiftr (cpuid_result hw 1 0 EAX) 20) 255) with extended_family in Hfam.
  change (bit_field 16 4 (cpuid_result hw 1 0 EAX)) with extended_model in Hmod.
  change (cpuid_result hw 0 0 ECX) with signature in Hmod.
  split; [exact Hstep |].
  split; [| split; [| split]].
  - intros H15. rewrite H15 in Hfam, Hmod. cbn in Hfam, Hmod. split; assumption.
  - intros H15 H2. rewrite H15, H2 in Hfam. exact Hfam.
  - intros H6 Hintel. rewrite H6 in Hfam, Hmod. rewrite Hintel in Hmod.
    cbn in Hfam, Hmod. split; assumption.
  - intros Hn15 Hn6.
    apply Z.eqb_neq in Hn15. rewrite Hn15 in Hfam, Hmod. cbn [orb] in Hmod.
    split; [exact Hfam |].
    destruct (Z.eqb_spec signature CPU_MANUFACTURER_INTEL) as [Hs | Hs];
      destruct (Z.eqb_spec raw_family 6) as [Hf | Hf]; cbn in Hmod;
      try exact Hmod.
    exfalso. apply Hn6. split; assumption.
Qed.

Lemma identity_extended_family_model_witness :
  let eax := cpuid_result sample_amd_hw 0x1 0x0 EAX in
  let raw_family := bit_field 8 4 eax in
  let raw_model := bit_field 4 4 eax in
  let extended_family := bit_field 20 8 eax in
  let extended_model := bit_field 16 4 eax in
  let signature := cpuid_result sample_amd_hw 0x0 0x0 ECX in
  exists m',
    cpu_identity_init sample_amd_hw (boot ISA_x64 0) = Ok tt m'
    /\ stepping (cpu_identity m') = bit_field 0 4 eax
    /\ (raw_family = 0xF ->
        family (cpu_identity m') = 0xF + extended_family
        /\ model (cpu_identity m') = Z.lor raw_model (Z.shiftl extended_model 4))
    /\ (raw_family = 0xF -> extended_family = 2 -> family (cpu_identity m') = 17)
    /\ (raw_family = 0x6 -> signature = CPU_MANUFACTURER_INTEL ->
        family (cpu_identity m') = 0x6
        /\ model (cpu_identity m') = Z.lor raw_model (Z.shiftl extended_model 4))
    /\ (raw_family <> 0xF ->
        ~ (raw_family = 0x6 /\ signature = CPU_MANUFACTURER_INTEL) ->
        family (cpu_identity m') = raw_family
        /\ model (cpu_identity m') = raw_model).
Proof.
  apply (identity_extended_family_model sample_amd_hw (boot ISA_x64 0)
           (set_eflags ID_FLAG (boot ISA_x64 0)) true); reflexivity.
Defined.

(** Two runs of the decoder on the sample processors: family 0xF + 0xA with
    model 0x21, and Intel family 6 with model 0x9E. *)
Example identity_of_sample_amd :
  exists m', cpu_identity_init sample_amd_hw (boot ISA_x64 0) = Ok tt m'
             /\ family (cpu_identity m') = 25 /\ model (cpu_identity m') = 0x21.
Proof. eexists. split; [vm_compute; reflexivity | split; reflexivity]. Qed.

Example identity_of_sample_intel :
  exists m', cpu_identity_init sample_intel_hw (boot ISA_x64 0) = Ok tt m'
             /\ family (cpu_identity m') = 6 /\ model (cpu_identity m') = 0x9E.
Proof. eexists. split; [vm_compute; reflexivity | split; reflexivity]. Qed.

Lemma le_bytes_to_u32 (w : Z) : Bytes.le_bytes (Int32.to_u32 w) = Bytes.le_bytes w.
Proof.
  rewrite <- (le_bytes_to_s32 (Int32.to_u32 w)), to_s32_to_u32.
  apply le_bytes_to_s32.
Qed.

(** The bytes [__cpuidex] delivers for a register are those of the hardware
    value. *)
Lemma le_bytes_cpuid_result (hw : hardware) (r : cpuid_output_register) (word : list byte) :
  List.length word = 4%nat ->
  Int32.to_u32 (hw_cpuid hw 0x0 0x0 r) = Bytes.le_word word ->
  Bytes.le_bytes (cpuid_result hw 0x0 0x0 r) = word.
Proof.
  intros Hlen Hword. unfold cpuid_result.
  change (Int32.to_u32 0) with 0.
  rewrite le_bytes_to_s32, <- le_bytes_to_u32, Hword.
  destruct word as [| a [| b [| c [| d [| e word]]]]]; try discriminate Hlen.
  apply le_bytes_le_word.
Qed.

(** C7.  The manufacturer buffer after [cpu_identity_init] is the four
    bytes of EBX, then those of EDX, then those of ECX of function 0 --
    the first, third and second of the signature registers -- and nothing
    else: it is 12 bytes long, and when the three registers spell a
    12-byte vendor string in that order the buffer is that string, with no
    terminator inside the 12 bytes. *)
Theorem manufacturer_assembly
  (hw : hardware) (m m0 : machine) (available : bool) :
  cpuid_is_available hw m = Ok available m0 ->
  available = true ->
  List.length (manufacturer (cpu_identity m)) = 12%nat ->
  exists m',
    cpu_identity_init hw m = Ok tt m'
    /\ manufacturer (cpu_identity m')
       = (Bytes.le_bytes (cpuid_result hw 0x0 0x0 EBX)
          ++ Bytes.le_bytes (cpuid_result hw 0x0 0x0 EDX)
          ++ Bytes.le_bytes (cpuid_result hw 0x0 0x0 ECX))%list
    /\ List.length (manufacturer (cpu_identity m')) = 12%nat
    /\ (forall vendor : list byte,
          List.length vendor = 12%nat ->
          Int32.to_u32 (hw_cpuid hw 0x0 0x0 EBX) = Bytes.le_word (firstn 4 vendor) ->
          Int32.to_u32 (hw_cpuid hw 0x0 0x0 EDX) = Bytes.le_word (firstn 4 (skipn 4 vendor)) ->
          Int32.to_u32 (hw_cpuid hw 0x0 0x0 ECX) = Bytes.le_word (firstn 4 (skipn 8 vendor)) ->
          manufacturer (cpu_identity m') = vendor).
Proof.
  intros Hprobe -> Hlen.
  apply cpuid_is_available_inv in Hprobe. symmetry in Hprobe.
  destruct (cpu_identity_init_available hw m Hprobe)
    as (m' & Hrun & _ & _ & _ & _ & Hman & _).
  rewrite skipn_all2, !app_nil_r in Hman by lia.
  exists m'. split; [exact Hrun |]. split; [exact Hman |].
  split.
  - rewrite Hman. reflexivity.
  - intros vendor Hv Hb Hd Hc. rewrite Hman.
    rewrite (le_bytes_cpuid_result hw EBX (firstn 4 vendor)),
            (le_bytes_cpuid_result hw EDX (firstn 4 (skipn 4 vendor))),
            (le_bytes_cpuid_result hw ECX (firstn 4 (skipn 8 vendor)));
      try assumption;
      try (rewrite length_firstn, ?length_skipn; lia).
    do 12 (destruct vendor as [| ? vendor]; [discriminate Hv |]).
    destruct vendor; [reflexivity | discriminate Hv].
Qed.

Lemma manufacturer_assembly_witness :
  exists m',
    cpu_identity_init sample_intel_hw (boot ISA_x64 0) = Ok tt m'
    /\ manufacturer (cpu_identity m')
       = (Bytes.le_bytes (cpuid_result sample_intel_hw 0x0 0x0 EBX)
          ++ Bytes.le_bytes (cpuid_result sample_intel_hw 0x0 0x0 EDX)
          ++ Bytes.le_bytes (cpuid_result sample_intel_hw 0x0 0x0 ECX))%list
    /\ List.length (manufacturer (cpu_identity m')) = 12%nat
    /\ (forall vendor : list byte,
          List.length vendor = 12%nat ->
          Int32.to_u32 (hw_cpuid sample_intel_hw 0x0 0x0 EBX)
          = Bytes.le_word (firstn 4 vendor) ->
          Int32.to_u32 (hw_cpuid sample_intel_hw 0x0 0x0 EDX)
          = Bytes.le_word (firstn 4 (skipn 4 vendor)) ->
          Int32.to_u32 (hw_cpuid sample_intel_hw 0x0 0x0 ECX)
          = Bytes.le_word (firstn 4 (skipn 8 vendor)) ->
          manufacturer (cpu_identity m') = vendor).
Proof.
  apply (manufacturer_assembly sample_intel_hw (boot ISA_x64 0)
           (set_eflags ID_FLAG (boot ISA_x64 0)) true); reflexivity.
Defined.

(** The two handled vendor strings come out of their register values. *)
Example manufacturer_of_sample_intel :
  exists m', cpu_identity_init sample_intel_hw (boot ISA_x64 0) = Ok tt m'
             /\ manufacturer (cpu_identity m') = list_byte_of_string "GenuineIntel".
Proof. eexists. split; [vm_compute; reflexivity | reflexivity]. Qed.

Example manufacturer_of_sample_amd :
  exists m', cpu_identity_init sample_amd_hw (boot ISA_x64 0) = Ok tt m'
             /\ manufacturer (cpu_identity m') = list_byte_of_string "AuthenticAMD".
Proof. eexists. split; [vm_compute; reflexivity | reflexivity]. Qed.

(* ===================================================================== *)
(** ** One cache descriptor *)

Lemma descriptor_level_range (cpuid_out : cpuid_out_t) :
  0 <= descriptor_level cpuid_out <= 3.
Proof.
  unfold descriptor_level.
  pose proof (land_mask_range (Z.shiftr (cpuid_out EAX) 5) 2 ltac:(lia)) as H.
  change (Z.ones 2) with 3 in H. change (2 ^ 2) with 4 in H. lia.
Qed.

Lemma descriptor_index_eq (cpuid_out : cpuid_out_t) :
  descriptor_index cpuid_out = descriptor_level cpuid_out - 1.
Proof.
  unfold descriptor_index, Int32.sub.
  pose proof (descriptor_level_range cpuid_out) as H.
  apply to_s32_id. unfold Int32.in_s32, Int32.half_modulus. lia.
Qed.

Lemma cache_level_of_index_some (i : Z) (l : cache_level) :
  cache_level_of_index i = Some l <-> i = cache_level_index l.
Proof.
  unfold cache_level_of_index.
  destruct (Z.eqb_spec i 0); [| destruct (Z.eqb_spec i 1); [| destruct (Z.eqb_spec i 2)]];
    destruct l; cbn; split; intros H; try lia; try congruence.
Qed.

Lemma cache_level_of_index_none (i : Z) :
  cache_level_of_index i = None <-> ~ (0 <= i <= 2).
Proof.
  unfold cache_level_of_index.
  destruct (Z.eqb_spec i 0); [| destruct (Z.eqb_spec i 1); [| destruct (Z.eqb_spec i 2)]];
    split; intros H; try lia; try congruence.
Qed.

Lemma descriptor_index_none (cpuid_out : cpuid_out_t) :
  cache_level_of_index (descriptor_index cpuid_out) = None
  <-> descriptor_level cpuid_out = 0.
Proof.
  rewrite cache_level_of_index_none, descriptor_index_eq.
  pose proof (descriptor_level_range cpuid_out). lia.
Qed.

(** The AMD body: an index outside the array stops the run at the first
    store, a zero [threads_per_core] stops it at the division, otherwise
    one element of [cache_level_specs] is overwritten. *)
Lemma amd_cache_descriptor_run (cpuid_out : cpuid_out_t) (m : machine) :
  amd_cache_descriptor cpuid_out m
  = match cache_level_of_index (descriptor_index cpuid_out) with
    | None => Fault OutOfBounds
    | Some l =>
        if threads_per_core (cpu_specs m) =? 0 then Fault DivisionByZero
        else
          Ok tt (update_cpu_specs
                   (fun s =>
                      set_cache_level_specs
                        (cache_set l
                           (mk_cache_level
                              (Int32.mul (descriptor_line_count cpuid_out) (cache_line_size s))
                              (Int32.to_s32 (Z.quot (descriptor_thread_count cpuid_out)
                                                    (threads_per_core s))))
                           (cache_level_specs s)) s) m)
    end.
Proof.
  unfold amd_cache_descriptor, cache_level_spec_at.
  change (Int32.sub (Z.land (Z.shiftr (cpuid_out EAX) 5) 3) 1)
    with (descriptor_index cpuid_out).
  destruct (cache_level_of_index _) as [l |]; [| reflexivity].
  run_prims. unfold sdiv.
  cbn [cpu_specs update_cpu_specs threads_per_core set_data_cache_size set_cache_level_specs].
  destruct (threads_per_core (cpu_specs m) =? 0); [reflexivity |].
  destruct l; reflexivity.
Qed.

(** The Intel body: the same, with the attached core count capped by
    [core_count]. *)
Lemma intel_cache_descriptor_run (cpuid_out : cpuid_out_t) (m : machine) :
  intel_cache_descriptor cpuid_out m
  = match cache_level_of_index (descriptor_index cpuid_out) with
    | None => Fault OutOfBounds
    | Some l =>
        if threads_per_core (cpu_specs m) =? 0 then Fault DivisionByZero
        else
          Ok tt (update_cpu_specs
                   (fun s =>
                      let max_attached_core_count :=
                        Int32.to_s32 (Z.quot (descriptor_thread_count cpuid_out)
                                             (threads_per_core s)) in
                      set_cache_level_specs
                        (cache_set l
                           (mk_cache_level
                              (Int32.mul (descriptor_line_count cpuid_out) (cache_line_size s))
                              (if max_attached_core_count <=? core_count s
                               then max_attached_core_count else core_count s))
                           (cache_level_specs s)) s) m)
    end.
Proof.
  unfold intel_cache_descriptor, cache_level_spec_at.
  change (Int32.sub (Z.land (Z.shiftr (cpuid_out EAX) 5) 3) 1)
    with (descriptor_index cpuid_out).
  destruct (cache_level_of_index _) as [l |]; [| reflexivity].
  run_prims. unfold sdiv.
  cbn [cpu_specs update_cpu_specs threads_per_core core_count
       set_data_cache_size set_cache_level_specs].
  destruct (threads_per_core (cpu_specs m) =? 0); [reflexivity |].
  cbv beta iota zeta delta [ret update_cpu_specs descriptor_thread_count].
  cbn [cpu_specs eflags cpuid_queries cpu_identity
       threads_per_core core_count cache_line_size cache_level_specs instructions
       set_data_cache_size set_cache_level_specs set_attached_core_count].
  match goal with |- context [if ?c then _ else _] => destruct c end;
    destruct l; reflexivity.
Qed.

Lemma qualifies_bit0 (cpuid_out : cpuid_out_t) :
  descriptor_qualifies cpuid_out = true -> Z.testbit (cpuid_out EAX) 0 = true.
Proof.
  unfold descriptor_qualifies, truthy. rewrite land_1_testbit.
  destruct (Z.testbit (cpuid_out EAX) 0); [reflexivity | discriminate].
Qed.

Lemma qualifies_valid (cpuid_out : cpuid_out_t) :
  descriptor_qualifies cpuid_out = true ->
  negb (Z.land (cpuid_out EAX) 0xF =? 0) = true.
Proof.
  intros Hq. apply qualifies_bit0 in Hq.
  apply negb_true_iff, Z.eqb_neq. intros H0.
  apply (f_equal (fun x => Z.testbit x 0)) in H0.
  rewrite Z.land_spec, Hq in H0. discriminate H0.
Qed.

(** C9.  Both cache decoders store through index [level_field - 1], where
    [level_field] is the 2-bit level of the descriptor.  For a qualifying
    descriptor (data/unified bit set) that index lies in [0, 2] exactly when
    [level_field] is nonzero: with a level of 0 the body, and the loop
    iteration that runs it, stop at a store outside [cache_level_specs];
    with a nonzero level the body touches no other element of the array. *)
Theorem cache_write_index_in_bounds
  (hw : hardware) (fuel : nat) (subfunc : Z) (cpuid_out : cpuid_out_t) (m : machine) :
  descriptor_qualifies cpuid_out = true ->
  let level_field := Z.land (Z.shiftr (cpuid_out EAX) 5) 3 in
  let cache_idx := Int32.sub level_field 1 in
  cache_idx = level_field - 1
  /\ (0 <= cache_idx <= 2 <-> level_field <> 0)
  /\ (amd_cache_descriptor cpuid_out m = Fault OutOfBounds <-> level_field = 0)
  /\ (intel_cache_descriptor cpuid_out m = Fault OutOfBounds <-> level_field = 0)
  /\ (level_field = 0 ->
      amd_caches_loop hw (S fuel) subfunc cpuid_out m = Fault OutOfBounds
      /\ intel_caches_loop hw (S fuel) subfunc cpuid_out m = Fault OutOfBounds)
  /\ (forall m' l,
        amd_cache_descriptor cpuid_out m = Ok tt m'
        \/ intel_cache_descriptor cpuid_out m = Ok tt m' ->
        cache_level_index l <> cache_idx ->
        cache_get l (cache_level_specs (cpu_specs m'))
        = cache_get l (cache_level_specs (cpu_specs m))).
Proof.
  intros Hq level_field cache_idx.
  change level_field with (descriptor_level cpuid_out).
  change cache_idx with (descriptor_index cpuid_out).
  pose proof (descriptor_level_range cpuid_out) as Hrange.
  pose proof (descriptor_index_eq cpuid_out) as Hidx.
  pose proof (descriptor_index_none cpuid_out) as Hnone.
  assert (Hamd : amd_cache_descriptor cpuid_out m = Fault OutOfBounds
                 <-> descriptor_level cpuid_out = 0).
  { rewrite amd_cache_descriptor_run.
    destruct (cache_level_of_index (descriptor_index cpuid_out)) as [l |] eqn:Hl.
    - split.
      + destruct (threads_per_core (cpu_specs m) =? 0); discriminate.
      + intros H0. apply Hnone in H0. discriminate H0.
    - split; [intros _; apply Hnone; reflexivity | reflexivity]. }
  assert (Hintel : intel_cache_descriptor cpuid_out m = Fault OutOfBounds
                   <-> descriptor_level cpuid_out = 0).
  { rewrite intel_cache_descriptor_run.
    destruct (cache_level_of_index (descriptor_index cpuid_out)) as [l |] eqn:Hl.
    - split.
      + destruct (threads_per_core (cpu_specs m) =? 0); discriminate.
      + intros H0. apply Hnone in H0. discriminate H0.
    - split; [intros _; apply Hnone; reflexivity | reflexivity]. }
  split; [exact Hidx |].
  split; [lia |].
  split; [exact Hamd |].
  split; [exact Hintel |].
  split.
  - intros H0. split.
    + cbn [amd_caches_loop].
      change (truthy (Z.land (cpuid_out EAX) 1)) with (descriptor_qualifies cpuid_out).
      rewrite Hq. apply bind_fault. apply Hamd. exact H0.
    + cbn [intel_caches_loop]. rewrite (qualifies_valid _ Hq).
      change (truthy (Z.land (cpuid_out EAX) 1)) with (descriptor_qualifies cpuid_out).
      rewrite Hq. apply bind_fault. apply Hintel. exact H0.
  - intros m' l Hrun Hl.
    rewrite amd_cache_descriptor_run, intel_cache_descriptor_run in Hrun.
    destruct (cache_level_of_index (descriptor_index cpuid_out)) as [l0 |] eqn:Hl0.
    + apply cache_level_of_index_some in Hl0.
      destruct (threads_per_core (cpu_specs m) =? 0).
      * destruct Hrun as [Hrun | Hrun]; discriminate Hrun.
      * assert (Hne : l <> l0) by (intros ->; apply Hl; symmetry; exact Hl0).
        destruct Hrun as [Hrun | Hrun]; apply Ok_inj in Hrun; subst m';
          destruct l, l0; try reflexivity; contradiction Hne; reflexivity.
    + destruct Hrun as [Hrun | Hrun]; discriminate Hrun.
Qed.

Lemma cache_write_index_in_bounds_witness :
  let cpuid_out := regs 0x1 0x01C0003F 63 0 in
  let m := boot ISA_x64 0 in
  let level_field := Z.land (Z.shiftr (cpuid_out EAX) 5) 3 in
  let cache_idx := Int32.sub level_field 1 in
  cache_idx = level_field - 1
  /\ (0 <= cache_idx <= 2 <-> level_field <> 0)
  /\ (amd_cache_descriptor cpuid_out m = Fault OutOfBounds <-> level_field = 0)
  /\ (intel_cache_descriptor cpuid_out m = Fault OutOfBounds <-> level_field = 0)
  /\ (level_field = 0 ->
      amd_caches_loop sample_intel_hw 1 0 cpuid_out m = Fault OutOfBounds
      /\ intel_caches_loop sample_intel_hw 1 0 cpuid_out m = Fault OutOfBounds)
  /\ (forall m' l,
        amd_cache_descriptor cpuid_out m = Ok tt m'
        \/ intel_cache_descriptor cpuid_out m = Ok tt m' ->
        cache_level_index l <> cache_idx ->
        cache_get l (cache_level_specs (cpu_specs m'))
        = cache_get l (cache_level_specs (cpu_specs m))).
Proof.
  apply (cache_write_index_in_bounds sample_intel_hw 0 0
           (regs 0x1 0x01C0003F 63 0) (boot ISA_x64 0)).
  reflexivity.
Defined.

(** A descriptor of a data cache that reports level 0 stops the Intel
    decoder at the store outside the array. *)
Example level_zero_descriptor_runs_out_of_bounds :
  cpu_specs_intel_get_caches_info
    (mk_hardware (fun func _ => if func =? 0x4 then regs 0x1 0x01C0003F 63 0
                                else regs 0 0 0 0) true)
    8 (mk_cpuid_ctx 0x4 0) (boot ISA_x64 0)
  = Fault OutOfBounds.
Proof. reflexivity. Qed.

(* ===================================================================== *)
(** ** The divisions by [threads_per_core] *)

Lemma amd_cores_info_0xB (hw : hardware) (ctx : cpuid_ctx) (m : machine) :
  (max_standard_func ctx >=? 0xB) = true ->
  let tpc := Z.land (cpuid_result hw 0xB 0x0 EBX) 0xFFFF in
  let total_thread_count := Z.land (cpuid_result hw 0xB 0x1 EBX) 0xFFFF in
  cpu_specs_amd_get_cores_info hw ctx m
  = if tpc =? 0 then Fault DivisionByZero
    else Ok tt (update_cpu_specs
                  (fun s => set_core_count (Int32.to_s32 (Z.quot total_thread_count tpc))
                              (set_threads_per_core tpc s))
                  (log_query (0xB, 0x1) (log_query (0xB, 0x0) m))).
Proof.
  intros Hstd tpc total. unfold cpu_specs_amd_get_cores_info. rewrite Hstd.
  run_prims. unfold sdiv.
  cbn [cpu_specs update_cpu_specs log_query threads_per_core set_threads_per_core].
  fold tpc. fold total.
  destruct (tpc =? 0); reflexivity.
Qed.

Lemma intel_cores_info_0xB (hw : hardware) (ctx : cpuid_ctx) (m : machine) :
  (max_standard_func ctx >=? 0xB) = true ->
  let higher_func := if max_standard_func ctx >=? 0x1F then 0x1F else 0xB in
  let tpc := Z.land (cpuid_result hw higher_func 0x0 EBX) 0xFFFF in
  let total_thread_count := Z.land (cpuid_result hw higher_func 0x1 EBX) 0xFFFF in
  cpu_specs_intel_get_cores_info hw ctx m
  = if tpc =? 0 then Fault DivisionByZero
    else Ok tt (update_cpu_specs
                  (fun s => set_core_count (Int32.to_s32 (Z.quot total_thread_count tpc))
                              (set_threads_per_core tpc s))
                  (log_query (Int32.to_u32 higher_func, 0x1)
                     (log_query (Int32.to_u32 higher_func, 0x0) m))).
Proof.
  intros Hstd higher_func tpc total. unfold cpu_specs_intel_get_cores_info. rewrite Hstd.
  run_prims. unfold sdiv.
  cbn [cpu_specs update_cpu_specs log_query threads_per_core set_threads_per_core].
  fold higher_func. fold tpc. fold total.
  destruct (tpc =? 0); reflexivity.
Qed.

(** The quotient of two 16-bit fields needs no wrap-around. *)
Lemma field_quotient (total tpc : Z) :
  0 <= total < 2 ^ 16 -> 0 < tpc ->
  Int32.to_s32 (Z.quot total tpc) = total / tpc.
Proof.
  intros Ht Hp. rewrite Z.quot_div_nonneg by lia.
  apply to_s32_id. unfold Int32.in_s32, Int32.half_modulus.
  assert (0 <= total / tpc) by (apply Z.div_pos; lia).
  assert (total / tpc <= total) by (apply Z.div_le_upper_bound; nia).
  lia.
Qed.

(** C10.  Every division by [threads_per_core] of a detection pass has the
    hardware-reported field as its divisor.  In the function 0xB (Intel:
    0x1F or 0xB) topology path of both vendors the run stops at a division
    by zero exactly when the low 16 bits of EBX of sub-function 0 are zero,
    and otherwise [core_count] is the quotient of the two fields.  In both
    cache decoders the body of a descriptor with a nonzero level stops at a
    division by zero exactly when [threads_per_core] is zero. *)
Theorem threads_per_core_divisions
  (hw : hardware) (ctx : cpuid_ctx) (cpuid_out : cpuid_out_t) (m : machine) :
  (max_standard_func ctx >=? 0xB) = true ->
  Z.land (Z.shiftr (cpuid_out EAX) 5) 3 <> 0 ->
  let higher_func := if max_standard_func ctx >=? 0x1F then 0x1F else 0xB in
  let amd_field := Z.land (cpuid_result hw 0xB 0x0 EBX) 0xFFFF in
  let amd_total := Z.land (cpuid_result hw 0xB 0x1 EBX) 0xFFFF in
  let intel_field := Z.land (cpuid_result hw higher_func 0x0 EBX) 0xFFFF in
  let intel_total := Z.land (cpuid_result hw higher_func 0x1 EBX) 0xFFFF in
  (cpu_specs_amd_get_cores_info hw ctx m = Fault DivisionByZero <-> amd_field = 0)
  /\ (amd_field <> 0 ->
      exists m', cpu_specs_amd_get_cores_info hw ctx m = Ok tt m'
                 /\ threads_per_core (cpu_specs m') = amd_field
                 /\ core_count (cpu_specs m') = amd_total / amd_field)
  /\ (cpu_specs_intel_get_cores_info hw ctx m = Fault DivisionByZero <-> intel_field = 0)
  /\ (intel_field <> 0 ->
      exists m', cpu_specs_intel_get_cores_info hw ctx m = Ok tt m'
                 /\ threads_per_core (cpu_specs m') = intel_field
                 /\ core_count (cpu_specs m') = intel_total / intel_field)
  /\ (amd_cache_descriptor cpuid_out m = Fault DivisionByZero
      <-> threads_per_core (cpu_specs m) = 0)
  /\ (intel_cache_descriptor cpuid_out m = Fault DivisionByZero
      <-> threads_per_core (cpu_specs m) = 0).
Proof.
  intros Hstd Hlevel higher_func amd_field amd_total intel_field intel_total.
  pose proof (land_mask_range (cpuid_result hw 0xB 0x0 EBX) 16 ltac:(lia)) as Haf.
  pose proof (land_mask_range (cpuid_result hw 0xB 0x1 EBX) 16 ltac:(lia)) as Hat.
  pose proof (land_mask_range (cpuid_result hw higher_func 0x0 EBX) 16 ltac:(lia)) as Hif.
  pose proof (land_mask_range (cpuid_result hw higher_func 0x1 EBX) 16 ltac:(lia)) as Hit.
  change (Z.ones 16) with 0xFFFF in Haf, Hat, Hif, Hit.
  fold amd_field in Haf. fold amd_total in Hat.
  fold intel_field in Hif. fold intel_total in Hit.
  rewrite (amd_cores_info_0xB hw ctx m Hstd), (intel_cores_info_0xB hw ctx m Hstd).
  cbv zeta. fold higher_func. fold amd_field. fold amd_total.
  fold intel_field. fold intel_total.
  rewrite amd_cache_descriptor_run, intel_cache_descriptor_run.
  assert (Hsome : exists l, cache_level_of_index (descriptor_index cpuid_out) = Some l).
  { destruct (cache_level_of_index (descriptor_index cpuid_out)) as [l |] eqn:Hl.
    - exists l. reflexivity.
    - apply descriptor_index_none in Hl. contradiction. }
  destruct Hsome as [l Hl]. rewrite Hl.
  repeat split.
  - destruct (Z.eqb_spec amd_field 0); [intros _; assumption | discriminate].
  - intros ->. reflexivity.
  - destruct (Z.eqb_spec amd_field 0) as [H0 | Hn0]; [contradiction |].
    eexists. split; [reflexivity |].
    cbn [cpu_specs update_cpu_specs threads_per_core core_count
         set_core_count set_threads_per_core].
    split; [reflexivity | apply field_quotient; lia].
  - destruct (Z.eqb_spec intel_field 0); [intros _; assumption | discriminate].
  - intros ->. reflexivity.
  - destruct (Z.eqb_spec intel_field 0) as [H0 | Hn0]; [contradiction |].
    eexists. split; [reflexivity |].
    cbn [cpu_specs update_cpu_specs threads_per_core core_count
         set_core_count set_threads_per_core].
    split; [reflexivity | apply field_quotient; lia].
  - destruct (Z.eqb_spec (threads_per_core (cpu_specs m)) 0);
      [intros _; assumption | discriminate].
  - intros ->. reflexivity.
  - destruct (Z.eqb_spec (threads_per_core (cpu_specs m)) 0);
      [intros _; assumption | discriminate].
  - intros ->. reflexivity.
Qed.

Lemma threads_per_core_divisions_witness :
  let hw := sample_intel_hw in
  let ctx := mk_cpuid_ctx 0xB 0x80000004 in
  let cpuid_out := regs 0x4021 0x01C0003F 63 0 in
  let m := boot ISA_x64 0 in
  let higher_func := if max_standard_func ctx >=? 0x1F then 0x1F else 0xB in
  let amd_field := Z.land (cpuid_result hw 0xB 0x0 EBX) 0xFFFF in
  let amd_total := Z.land (cpuid_result hw 0xB 0x1 EBX) 0xFFFF in
  let intel_field := Z.land (cpuid_result hw higher_func 0x0 EBX) 0xFFFF in
  let intel_total := Z.land (cpuid_result hw higher_func 0x1 EBX) 0xFFFF in
  (cpu_specs_amd_get_cores_info hw ctx m = Fault DivisionByZero <-> amd_field = 0)
  /\ (amd_field <> 0 ->
      exists m', cpu_specs_amd_get_cores_info hw ctx m = Ok tt m'
                 /\ threads_per_core (cpu_specs m') = amd_field
                 /\ core_count (cpu_specs m') = amd_total / amd_field)
  /\ (cpu_specs_intel_get_cores_info hw ctx m = Fault DivisionByZero <-> intel_field = 0)
  /\ (intel_field <> 0 ->
      exists m', cpu_specs_intel_get_cores_info hw ctx m = Ok tt m'
                 /\ threads_per_core (cpu_specs m') = intel_field
                 /\ core_count (cpu_specs m') = intel_total / intel_field)
  /\ (amd_cache_descriptor cpuid_out m = Fault DivisionByZero
      <-> threads_per_core (cpu_specs m) = 0)
  /\ (intel_cache_descriptor cpuid_out m = Fault DivisionByZero
      <-> threads_per_core (cpu_specs m) = 0).
Proof.
  apply (threads_per_core_divisions sample_intel_hw (mk_cpuid_ctx 0xB 0x80000004)
           (regs 0x4021 0x01C0003F 63 0) (boot ISA_x64 0)).
  - reflexivity.
  - discriminate.
Defined.

(** Sub-function 0 reporting 2 threads per core and sub-function 1
    reporting 8 threads: 4 cores. *)
Example topology_of_sample_intel :
  exists m',
    cpu_specs_intel_get_cores_info sample_intel_hw (mk_cpuid_ctx 0xB 0x80000004)
      (boot ISA_x64 0) = Ok tt m'
    /\ threads_per_core (cpu_specs m') = 2
    /\ core_count (cpu_specs m') = 4.
Proof. eexists. split; [vm_compute; reflexivity | split; reflexivity]. Qed.

(** A processor that answers function 0xB with zeroes. *)
Example zero_threads_per_core_divides_by_zero :
  cpu_specs_amd_get_cores_info (mk_hardware (fun _ _ => regs 0 0 0 0) true)
    (mk_cpuid_ctx 0xB 0) (boot ISA_x64 0)
  = Fault DivisionByZero.
Proof. reflexivity. Qed.

(* ===================================================================== *)
(** ** Decode rules *)

Lemma set_or_clear_map_bits (f : Z -> Z) :
  set_or_clear_map f <->
  exists mask values, forall x n,
      Z.testbit (f x) n = if Z.testbit mask n then Z.testbit values n else Z.testbit x n.
Proof.
  split; intros (mask & values & H); exists mask, values.
  - intros x n. rewrite H.
    destruct (Z_lt_le_dec n 0) as [Hneg | Hn].
    + rewrite !Z.testbit_neg_r by assumption. reflexivity.
    + rewrite Z.lor_spec, !Z.land_spec, Z.lnot_spec by assumption.
      destruct (Z.testbit mask n), (Z.testbit values n), (Z.testbit x n); reflexivity.
  - intros x. apply Z.bits_inj'. intros n Hn.
    rewrite H, Z.lor_spec, !Z.land_spec, Z.lnot_spec by assumption.
    destruct (Z.testbit mask n), (Z.testbit values n), (Z.testbit x n); reflexivity.
Qed.

Lemma set_or_clear_map_id : set_or_clear_map (fun x => x).
Proof.
  apply set_or_clear_map_bits. exists 0, 0. intros x n.
  rewrite Z.bits_0. reflexivity.
Qed.

Lemma set_or_clear_map_compose (f g : Z -> Z) :
  set_or_clear_map f -> set_or_clear_map g -> set_or_clear_map (fun x => g (f x)).
Proof.
  rewrite !set_or_clear_map_bits.
  intros (mf & vf & Hf) (mg & vg & Hg).
  exists (Z.lor mf mg), (Z.lor (Z.land vg mg) (Z.land vf (Z.lnot mg))).
  intros x n. rewrite Hg, Hf.
  destruct (Z_lt_le_dec n 0) as [Hneg | Hn].
  - rewrite !Z.testbit_neg_r by assumption. reflexivity.
  - rewrite !Z.lor_spec, !Z.land_spec, Z.lnot_spec by assumption.
    destruct (Z.testbit mf n), (Z.testbit mg n), (Z.testbit vf n), (Z.testbit vg n);
      reflexivity.
Qed.

Lemma set_or_clear_map_idempotent (f : Z -> Z) (x : Z) :
  set_or_clear_map f -> f (f x) = f x.
Proof.
  rewrite set_or_clear_map_bits. intros (mask & values & H).
  apply Z.bits_inj'. intros n _. rewrite !H.
  destruct (Z.testbit mask n); reflexivity.
Qed.

Lemma set_or_clear_map_update (flags flag_bit feature_mask : Z) :
  0 <= flag_bit ->
  set_or_clear_map (fun x => update_inst_availability x flags flag_bit feature_mask).
Proof.
  intros Hb. apply set_or_clear_map_bits.
  exists feature_mask, (if Z.testbit flags flag_bit then -1 else 0).
  intros x n. rewrite update_inst_availability_bits by assumption.
  destruct (Z_lt_le_dec n 0) as [Hneg | Hn].
  - rewrite !(Z.testbit_neg_r _ n) by assumption. reflexivity.
  - destruct (Z.testbit flags flag_bit);
      rewrite ?Z.bits_m1, ?Z.bits_0 by assumption; reflexivity.
Qed.

Lemma apply_rules_app (rules rules' : list decode_rule) (x : Z) :
  apply_rules (rules ++ rules') x = apply_rules rules' (apply_rules rules x).
Proof. unfold apply_rules. apply fold_left_app. Qed.

Lemma set_or_clear_map_rules (rules : list decode_rule) :
  Forall rule_bit_ok rules -> set_or_clear_map (apply_rules rules).
Proof.
  induction 1 as [| [[flags flag_bit] feature] rules Hrule _ IH].
  - exact set_or_clear_map_id.
  - apply (set_or_clear_map_compose
             (fun x => update_inst_availability x flags flag_bit feature)
             (apply_rules rules)).
    + apply set_or_clear_map_update. exact Hrule.
    + exact IH.
Qed.

Lemma common_rules_ok (hw : hardware) (ctx : cpuid_ctx) :
  Forall rule_bit_ok (common_rules hw ctx).
Proof.
  unfold common_rules, leaf1_rules, leaf7_rules.
  destruct (max_standard_func ctx >=? 7), (max_extended_func ctx >=? 2147483649);
    repeat constructor; unfold rule_bit_ok; cbn; lia.
Qed.

Lemma amd_rules_ok (hw : hardware) (ctx : cpuid_ctx) :
  Forall rule_bit_ok (amd_rules hw ctx).
Proof.
  unfold amd_rules.
  destruct (max_standard_func ctx >=? 11), (max_extended_func ctx >=? 11);
    repeat constructor; unfold rule_bit_ok; cbn; lia.
Qed.

Lemma intel_rules_ok (hw : hardware) (ctx : cpuid_ctx) :
  Forall rule_bit_ok (intel_rules hw ctx).
Proof.
  unfold intel_rules.
  destruct (max_standard_func ctx >=? 7);
    repeat constructor; unfold rule_bit_ok; cbn; lia.
Qed.

(** The three instruction decoders apply their table to the flag word and
    touch nothing else of the singletons. *)
Lemma set_instructions_same (s : struct_cpu_specs) :
  set_instructions (instructions s) s = s.
Proof. destruct s. reflexivity. Qed.

(** The AVX-512 update of the AMD decoder is written out in place; it is
    the shared primitive applied to bit 0 of the comparison result. *)
Lemma inline_update_is_rule (insts : Z) (c : bool) (mask : Z) :
  Z.lxor insts (Z.land (Z.lxor (Int32.neg (Z.b2z c)) insts) mask)
  = update_inst_availability insts (Z.b2z c) 0 mask.
Proof. destruct c; reflexivity. Qed.

Ltac run_rules :=
  run_prims;
  (eexists; split; [reflexivity |]);
  cbn [cpu_specs cpu_identity update_cpu_specs log_query instructions set_instructions];
  cbv beta iota zeta delta [apply_rules apply_rule leaf1_rules leaf7_rules app fold_left];
  rewrite ?inline_update_is_rule, ?set_instructions_same;
  split; reflexivity.

(** The three instruction decoders apply their table to the flag word and
    touch nothing else of the singletons. *)
Lemma common_instructions_run (hw : hardware) (ctx : cpuid_ctx) (m : machine) :
  exists m',
    cpu_specs_get_common_instructions hw ctx m = Ok tt m'
    /\ cpu_specs m'
       = set_instructions (apply_rules (common_rules hw ctx) (instructions (cpu_specs m)))
           (cpu_specs m)
    /\ cpu_identity m' = cpu_identity m.
Proof.
  unfold cpu_specs_get_common_instructions, common_rules.
  destruct (max_standard_func ctx >=? 7), (max_extended_func ctx >=? 2147483649);
    run_rules.
Qed.

Lemma amd_instructions_run (hw : hardware) (ctx : cpuid_ctx) (m : machine) :
  exists m',
    cpu_specs_amd_get_instructions hw ctx m = Ok tt m'
    /\ cpu_specs m'
       = set_instructions (apply_rules (amd_rules hw ctx) (instructions (cpu_specs m)))
           (cpu_specs m)
    /\ cpu_identity m' = cpu_identity m.
Proof.
  unfold cpu_specs_amd_get_instructions, amd_rules.
  destruct (max_standard_func ctx >=? 11), (max_extended_func ctx >=? 11);
    run_rules.
Qed.

Lemma intel_instructions_run (hw : hardware) (ctx : cpuid_ctx) (m : machine) :
  exists m',
    cpu_specs_intel_get_instructions hw ctx m = Ok tt m'
    /\ cpu_specs m'
       = set_instructions (apply_rules (intel_rules hw ctx) (instructions (cpu_specs m)))
           (cpu_specs m)
    /\ cpu_identity m' = cpu_identity m.
Proof.
  unfold cpu_specs_intel_get_instructions, intel_rules.
  destruct (max_standard_func ctx >=? 7); run_rules.
Qed.

(** ** The detection pass *)

(** With CPUID the entry point resolves the context, runs the common
    decoder and dispatches on the signature word. *)
Lemma cpu_specs_init_available (hw : hardware) (fuel : nat) (m : machine) :
  hw_id_flag_changeable hw = true ->
  cpu_specs_init hw fuel m
  = (cpu_specs_get_common_instructions hw (detected_ctx hw) ;;
     cpuid_out <- __cpuidex hw 0x0 0x0 ;;
     if cpuid_out ECX =? CPU_MANUFACTURER_AMD then
       cpu_specs_amd_get_cores_info hw (detected_ctx hw) ;;
       cpu_specs_amd_get_caches_info hw fuel (detected_ctx hw) ;;
       cpu_specs_amd_get_instructions hw (detected_ctx hw)
     else if cpuid_out ECX =? CPU_MANUFACTURER_INTEL then
       cpu_specs_intel_get_cores_info hw (detected_ctx hw) ;;
       cpu_specs_intel_get_caches_info hw fuel (detected_ctx hw) ;;
       cpu_specs_intel_get_instructions hw (detected_ctx hw)
     else ret tt)
      (log_query (0x80000000, 0x0)
         (log_query (0x0, 0x0) (set_eflags (eflags_after_probe hw (eflags m)) m))).
Proof.
  intros Hhw. unfold cpu_specs_init.
  rewrite (bind_ok _ _ _ _ _ (cpuid_is_available_run hw m)), Hhw.
  reflexivity.
Qed.

Lemma flag_mask_testbit (f : cpu_instruction) (j : Z) :
  Z.testbit (flag_mask f) j = (j =? flag_pos f).
Proof. unfold flag_mask. apply testbit_single. destruct f; cbn; lia. Qed.

(* ===================================================================== *)
(** ** The flag-update primitive *)

Lemma decode_rules_ok (hw : hardware) (ctx : cpuid_ctx) :
  Forall rule_bit_ok (common_rules hw ctx ++ amd_rules hw ctx ++ intel_rules hw ctx).
Proof.
  rewrite !Forall_app.
  split; [apply common_rules_ok | split; [apply amd_rules_ok | apply intel_rules_ok]].
Qed.

(** C2.  Set-or-clear law of [update_inst_availability]: for every
    instruction bitset, every probed register word, every bit position
    [flag_bit] and every single-flag mask [1 << k], the result carries the
    probed bit at position [k] and the old value at every other position;
    with a probed bit of 0 it is the bitset with exactly that flag cleared,
    with a probed bit of 1 it is the bitset with that flag set.  The law
    holds for every rule of the common, AMD and Intel instruction decoders,
    whatever the processor and the context. *)
Theorem update_inst_availability_set_or_clear
  (instructions flags flag_bit k : Z) :
  0 <= flag_bit ->
  0 <= k ->
  let F := Z.shiftl 1 k in
  let updated := update_inst_availability instructions flags flag_bit F in
  Z.testbit updated k = Z.testbit flags flag_bit
  /\ (forall j, j <> k -> Z.testbit updated j = Z.testbit instructions j)
  /\ (Z.testbit flags flag_bit = false -> updated = Z.land instructions (Z.lnot F))
  /\ (Z.testbit flags flag_bit = true -> updated = Z.lor instructions F)
  /\ (forall hw ctx probed probed_bit (f : cpu_instruction),
        In (probed, probed_bit, f)
           (common_rules hw ctx ++ amd_rules hw ctx ++ intel_rules hw ctx) ->
        let decoded := update_inst_availability instructions probed probed_bit f in
        Z.testbit decoded (flag_pos f) = Z.testbit probed probed_bit
        /\ forall j, j <> flag_pos f -> Z.testbit decoded j = Z.testbit instructions j).
Proof.
  intros Hb Hk F updated. subst F updated.
  split; [| split; [| split; [| split]]].
  - rewrite update_inst_availability_bits, testbit_single, Z.eqb_refl by assumption.
    reflexivity.
  - intros j Hj.
    rewrite update_inst_availability_bits, testbit_single by assumption.
    destruct (Z.eqb_spec j k); [contradiction | reflexivity].
  - apply update_inst_availability_clear; assumption.
  - apply update_inst_availability_set; assumption.
  - intros hw ctx probed probed_bit f Hin decoded. subst decoded.
    pose proof (decode_rules_ok hw ctx) as Hok.
    rewrite Forall_forall in Hok. specialize (Hok _ Hin).
    unfold rule_bit_ok in Hok. cbn [fst snd] in Hok.
    split.
    + rewrite update_inst_availability_bits, flag_mask_testbit, Z.eqb_refl by assumption.
      reflexivity.
    + intros j Hj.
      rewrite update_inst_availability_bits, flag_mask_testbit by assumption.
      destruct (Z.eqb_spec j (flag_pos f)); [contradiction | reflexivity].
Qed.

Lemma update_inst_availability_set_or_clear_witness :
  let F := Z.shiftl 1 9 in
  let updated := update_inst_availability 0x37FFF 0x128 16 F in
  Z.testbit updated 9 = Z.testbit 0x128 16
  /\ (forall j, j <> 9 -> Z.testbit updated j = Z.testbit 0x37FFF j)
  /\ (Z.testbit 0x128 16 = false -> updated = Z.land 0x37FFF (Z.lnot F))
  /\ (Z.testbit 0x128 16 = true -> updated = Z.lor 0x37FFF F)
  /\ (forall hw ctx probed probed_bit (f : cpu_instruction),
        In (probed, probed_bit, f)
           (common_rules hw ctx ++ amd_rules hw ctx ++ intel_rules hw ctx) ->
        let decoded := update_inst_availability 0x37FFF probed probed_bit f in
        Z.testbit decoded (flag_pos f) = Z.testbit probed probed_bit
        /\ forall j, j <> flag_pos f -> Z.testbit decoded j = Z.testbit 0x37FFF j).
Proof.
  apply (update_inst_availability_set_or_clear 0x37FFF 0x128 16 9); lia.
Defined.

(** A flag word with AVX512F set, probed against a function-7 EBX whose
    bit 16 is clear: the update clears exactly that flag. *)
Example clearing_avx512f :
  update_inst_availability 0x37FFF 0x128 16 AVX512F = 0x37DFF.
Proof. reflexivity. Qed.

(** The flags function 1 decides carry its bits; every other bit of the
    flag word is as before. *)
Lemma leaf1_rules_bits (cpuid_out : cpuid_out_t) (x : Z) :
  (forall f : cpu_instruction,
      Z.testbit (apply_rules (leaf1_rules cpuid_out) x) (flag_pos f)
      = match leaf1_probe f with
        | Some (r, flag_bit) => Z.testbit (cpuid_out r) flag_bit
        | None => Z.testbit x (flag_pos f)
        end)
  /\ (forall j, (forall f : cpu_instruction, j <> flag_pos f) ->
                Z.testbit (apply_rules (leaf1_rules cpuid_out) x) j = Z.testbit x j).
Proof.
  assert (Hbits : forall j,
    Z.testbit (apply_rules (leaf1_rules cpuid_out) x) j
    = if j =? flag_pos F16C then Z.testbit (cpuid_out ECX) 29
      else if j =? flag_pos AVX1 then Z.testbit (cpuid_out ECX) 28
      else if j =? flag_pos POPCNT then Z.testbit (cpuid_out ECX) 23
      else if j =? flag_pos SSE4_2 then Z.testbit (cpuid_out ECX) 20
      else if j =? flag_pos SSE4_1 then Z.testbit (cpuid_out ECX) 19
      else if j =? flag_pos FMA3 then Z.testbit (cpuid_out ECX) 12
      else if j =? flag_pos SSSE3 then Z.testbit (cpuid_out ECX) 9
      else if j =? flag_pos SSE3 then Z.testbit (cpuid_out ECX) 0
      else if j =? flag_pos SSE2 then Z.testbit (cpuid_out EDX) 26
      else if j =? flag_pos SSE1 then Z.testbit (cpuid_out EDX) 25
      else if j =? flag_pos RDTSCP then Z.testbit (cpuid_out EDX) 4
      else Z.testbit x j).
  { intros j.
    cbv beta iota zeta delta [apply_rules apply_rule leaf1_rules fold_left].
    rewrite !update_inst_availability_bits by lia.
    rewrite !flag_mask_testbit. reflexivity. }
  split.
  - intros f. rewrite Hbits. destruct f; reflexivity.
  - intros j Hj. rewrite Hbits.
    pose proof (Hj F16C). pose proof (Hj AVX1). pose proof (Hj POPCNT).
    pose proof (Hj SSE4_2). pose proof (Hj SSE4_1). pose proof (Hj FMA3).
    pose proof (Hj SSSE3). pose proof (Hj SSE3). pose proof (Hj SSE2).
    pose proof (Hj SSE1). pose proof (Hj RDTSCP).
    repeat match goal with
           | |- context [?a =? ?b] => destruct (Z.eqb_spec a b); [contradiction |]
           end.
    reflexivity.
Qed.

Lemma initializer_flag_bits (isa : ISA) :
  (forall f : cpu_instruction,
      leaf1_probe f = None ->
      Z.testbit (instructions (cpu_specs_initializer isa)) (flag_pos f) = false)
  /\ (forall j, (forall f : cpu_instruction, j <> flag_pos f) ->
                Z.testbit (instructions (cpu_specs_initializer isa)) j = false).
Proof.
  split.
  - intros f Hf. destruct isa, f; try discriminate Hf; reflexivity.
  - intros j Hj. pose proof (Hj SSE1) as H0. pose proof (Hj SSE2) as H1.
    cbn in H0, H1.
    destruct isa; cbn [instructions cpu_specs_initializer]; [| apply Z.bits_0].
    change (Z.lor SSE1 SSE2) with (Z.ones 2).
    destruct (Z_lt_le_dec j 0); [apply Z.testbit_neg_r; assumption |].
    apply Z.ones_spec_high. lia.
Qed.

(** C4.  Unknown vendor: with CPUID available, function 0 reporting a
    highest standard function of 1, function 0x80000000 a highest extended
    function of 0, and a signature word that is neither
    [CPU_MANUFACTURER_AMD] nor [CPU_MANUFACTURER_INTEL], a detection pass
    started from the static initializer leaves the cache hierarchy,
    [cache_line_size], [threads_per_core] and [core_count] at their default
    values; each flag function 1 decides carries its probed bit, and every
    other bit of the flag word -- the vendor-exclusive AVX512F and TBM
    among them -- is zero. *)
Theorem unknown_vendor_profile
  (hw : hardware) (isa : ISA) (fuel : nat) (m m0 : machine) (available : bool) :
  cpuid_is_available hw m = Ok available m0 ->
  available = true ->
  cpu_specs m = cpu_specs_initializer isa ->
  Int32.to_u32 (hw_cpuid hw 0x0 0x0 EAX) = 1 ->
  Int32.to_u32 (hw_cpuid hw 0x80000000 0x0 EAX) = 0 ->
  cpuid_result hw 0x0 0x0 ECX <> CPU_MANUFACTURER_AMD ->
  cpuid_result hw 0x0 0x0 ECX <> CPU_MANUFACTURER_INTEL ->
  exists m',
    cpu_specs_init hw fuel m = Ok tt m'
    /\ cache_level_specs (cpu_specs m')
       = mk_cache_array (mk_cache_level (4 * 1024) 1) (mk_cache_level 0 0)
           (mk_cache_level 0 0)
    /\ cache_line_size (cpu_specs m') = 64
    /\ threads_per_core (cpu_specs m') = 1
    /\ core_count (cpu_specs m') = 1
    /\ (forall f : cpu_instruction,
          Z.testbit (instructions (cpu_specs m')) (flag_pos f)
          = match leaf1_probe f with
            | Some (r, flag_bit) => Z.testbit (cpuid_result hw 0x1 0x0 r) flag_bit
            | None => false
            end)
    /\ (forall j, (forall f : cpu_instruction, j <> flag_pos f) ->
                  Z.testbit (instructions (cpu_specs m')) j = false).
Proof.
  intros Hprobe -> Hinit Hstd Hext Hamd Hintel.
  apply cpuid_is_available_inv in Hprobe. symmetry in Hprobe.
  rewrite (cpu_specs_init_available hw fuel m Hprobe).
  assert (Hctx : detected_ctx hw = mk_cpuid_ctx 1 0).
  { unfold detected_ctx, cpuid_result. rewrite !to_u32_to_s32.
    change (Int32.to_u32 0) with 0. change (Int32.to_u32 2147483648) with 2147483648.
    rewrite Hstd, Hext. reflexivity. }
  rewrite Hctx.
  match goal with |- exists _, bind _ _ ?p = _ /\ _ =>
    destruct (common_instructions_run hw (mk_cpuid_ctx 1 0) p) as (a & Hrun & Hspecs & _)
  end.
  rewrite (bind_ok _ _ _ _ _ Hrun).
  cbv beta iota delta [bind __cpuidex].
  apply Z.eqb_neq in Hamd, Hintel. rewrite Hamd, Hintel.
  eexists. split; [reflexivity |].
  cbn [cpu_specs log_query set_eflags] in Hspecs |- *.
  rewrite Hspecs, Hinit.
  unfold common_rules. cbn [max_standard_func].
  change (1 >=? 7) with false. rewrite app_nil_r.
  cbn [set_instructions cache_level_specs cache_line_size threads_per_core core_count
       instructions].
  destruct (leaf1_rules_bits (cpuid_result hw 1 0)
              (instructions (cpu_specs_initializer isa))) as [Hflags Hrest].
  destruct (initializer_flag_bits isa) as [Hinit_flags Hinit_rest].
  repeat split.
  - intros f. rewrite Hflags.
    destruct (leaf1_probe f) as [[r flag_bit] |] eqn:Hf; [reflexivity |].
    apply Hinit_flags. exact Hf.
  - intros j Hj. rewrite Hrest by exact Hj. apply Hinit_rest. exact Hj.
Qed.

Lemma unknown_vendor_profile_witness :
  exists m',
    cpu_specs_init sample_unknown_hw 8 (boot ISA_x64 0) = Ok tt m'
    /\ cache_level_specs (cpu_specs m')
       = mk_cache_array (mk_cache_level (4 * 1024) 1) (mk_cache_level 0 0)
           (mk_cache_level 0 0)
    /\ cache_line_size (cpu_specs m') = 64
    /\ threads_per_core (cpu_specs m') = 1
    /\ core_count (cpu_specs m') = 1
    /\ (forall f : cpu_instruction,
          Z.testbit (instructions (cpu_specs m')) (flag_pos f)
          = match leaf1_probe f with
            | Some (r, flag_bit) =>
                Z.testbit (cpuid_result sample_unknown_hw 0x1 0x0 r) flag_bit
            | None => false
            end)
    /\ (forall j, (forall f : cpu_instruction, j <> flag_pos f) ->
                  Z.testbit (instructions (cpu_specs m')) j = false).
Proof.
  apply (unknown_vendor_profile sample_unknown_hw ISA_x64 8 (boot ISA_x64 0)
           (set_eflags ID_FLAG (boot ISA_x64 0)) true);
    try reflexivity; discriminate.
Defined.

(** On the sample processor: RDTSCP, SSE1, SSE2, SSE3 and SSSE3. *)
Example flags_of_sample_unknown :
  exists m',
    cpu_specs_init sample_unknown_hw 8 (boot ISA_x64 0) = Ok tt m'
    /\ instructions (cpu_specs m')
       = Z.lor RDTSCP (Z.lor SSE1 (Z.lor SSE2 (Z.lor SSE3 SSSE3))).
Proof. eexists. split; [vm_compute; reflexivity | reflexivity]. Qed.

(* ===================================================================== *)
(** ** The cache decoders *)

Lemma cache_get_set_same (l : cache_level) (e : cpu_cache_level_specs) (a : cache_array) :
  cache_get l (cache_set l e a) = e.
Proof. destruct l; reflexivity. Qed.

Lemma cache_get_set_other (l l0 : cache_level) (e : cpu_cache_level_specs) (a : cache_array) :
  l <> l0 -> cache_get l (cache_set l0 e a) = cache_get l a.
Proof. intros Hne. destruct l, l0; try reflexivity; contradiction Hne; reflexivity. Qed.

Lemma cache_level_eq_dec (l l0 : cache_level) : {l = l0} + {l <> l0}.
Proof. decide equality. Defined.

Lemma cache_array_ext (a b : cache_array) :
  (forall l, cache_get l a = cache_get l b) -> a = b.
Proof.
  intros H. destruct a, b.
  pose proof (H L1) as H1. pose proof (H L2) as H2. pose proof (H L3) as H3.
  cbn in H1, H2, H3. congruence.
Qed.

(** What one iteration's body does to [cpu_specs], for both vendors: it
    stores one element of [cache_level_specs] and nothing else. *)
Lemma intel_cache_descriptor_inv (cpuid_out : cpuid_out_t) (m m' : machine) :
  intel_cache_descriptor cpuid_out m = Ok tt m' ->
  exists l,
    cache_level_of_index (descriptor_index cpuid_out) = Some l
    /\ threads_per_core (cpu_specs m) <> 0
    /\ m' = update_cpu_specs
              (fun s =>
                 let max_attached_core_count :=
                   Int32.to_s32 (Z.quot (descriptor_thread_count cpuid_out)
                                        (threads_per_core s)) in
                 set_cache_level_specs
                   (cache_set l
                      (mk_cache_level
                         (Int32.mul (descriptor_line_count cpuid_out) (cache_line_size s))
                         (if max_attached_core_count <=? core_count s
                          then max_attached_core_count else core_count s))
                      (cache_level_specs s)) s) m.
Proof.
  rewrite intel_cache_descriptor_run.
  destruct (cache_level_of_index (descriptor_index cpuid_out)) as [l |]; [| discriminate].
  destruct (Z.eqb_spec (threads_per_core (cpu_specs m)) 0) as [H0 | Hn0]; [discriminate |].
  intros H. apply Ok_inj in H. subst m'. exists l. repeat split. exact Hn0.
Qed.

Lemma amd_cache_descriptor_inv (cpuid_out : cpuid_out_t) (m m' : machine) :
  amd_cache_descriptor cpuid_out m = Ok tt m' ->
  exists l,
    cache_level_of_index (descriptor_index cpuid_out) = Some l
    /\ threads_per_core (cpu_specs m) <> 0
    /\ m' = update_cpu_specs
              (fun s =>
                 set_cache_level_specs
                   (cache_set l
                      (mk_cache_level
                         (Int32.mul (descriptor_line_count cpuid_out) (cache_line_size s))
                         (Int32.to_s32 (Z.quot (descriptor_thread_count cpuid_out)
                                               (threads_per_core s))))
                      (cache_level_specs s)) s) m.
Proof.
  rewrite amd_cache_descriptor_run.
  destruct (cache_level_of_index (descriptor_index cpuid_out)) as [l |]; [| discriminate].
  destruct (Z.eqb_spec (threads_per_core (cpu_specs m)) 0) as [H0 | Hn0]; [discriminate |].
  intros H. apply Ok_inj in H. subst m'. exists l. repeat split. exact Hn0.
Qed.

Lemma intel_caches_loop_bound (hw : hardware) (fuel : nat) :
  forall (subfunc : Z) (cpuid_out : cpuid_out_t) (m m' : machine),
    intel_caches_loop hw fuel subfunc cpuid_out m = Ok tt m' ->
    same_topology (cpu_specs m) (cpu_specs m')
    /\ forall l,
        cache_get l (cache_level_specs (cpu_specs m'))
        = cache_get l (cache_level_specs (cpu_specs m))
        \/ attached_core_count (cache_get l (cache_level_specs (cpu_specs m')))
           <= core_count (cpu_specs m).
Proof.
  induction fuel as [| fuel IH]; intros subfunc cpuid_out m m' Hrun;
    cbn [intel_caches_loop] in Hrun;
    destruct (negb (Z.land (cpuid_out EAX) 15 =? 0)).
  - discriminate Hrun.
  - apply Ok_inj in Hrun; subst m'. split; [repeat split | intros l; left; reflexivity].
  - apply bind_inv in Hrun. destruct Hrun as ([] & m1 & Hbody & Hrest).
    cbv beta iota delta [bind __cpuidex] in Hrest.
    apply IH in Hrest. cbn [cpu_specs log_query] in Hrest.
    destruct Hrest as [(Hcl & Htpc & Hcc & Hins) Hlev].
    destruct (truthy (Z.land (cpuid_out EAX) 1)).
    + apply intel_cache_descriptor_inv in Hbody.
      destruct Hbody as (l0 & _ & _ & ->).
      cbn [cpu_specs update_cpu_specs set_cache_level_specs cache_line_size
           threads_per_core core_count instructions cache_level_specs] in *.
      split; [repeat split; assumption |].
      intros l. destruct (Hlev l) as [Heq | Hle].
      * rewrite Heq. destruct (cache_level_eq_dec l l0) as [-> | Hne].
        -- right. rewrite cache_get_set_same. cbn [attached_core_count].
           match goal with |- context [if ?c <=? ?d then _ else _] =>
             destruct (Z.leb_spec c d) end; lia.
        -- left. apply cache_get_set_other. exact Hne.
      * right. exact Hle.
    + apply Ok_inj in Hbody; subst m1.
      split; [repeat split; assumption | exact Hlev].
  - apply Ok_inj in Hrun; subst m'. split; [repeat split | intros l; left; reflexivity].
Qed.

Lemma same_or_untouched_refl {A : Type} (a b : A) : same_or_untouched a a b b.
Proof. right. split; reflexivity. Qed.

Lemma same_or_untouched_trans {A : Type} (a a1 a' b b1 b' : A) :
  same_or_untouched a a1 b b1 ->
  same_or_untouched a1 a' b1 b' ->
  same_or_untouched a a' b b'.
Proof.
  unfold same_or_untouched.
  intros [H1 | [H1a H1b]] [H2 | [H2a H2b]]; subst; auto.
Qed.

Lemma same_topology_refl (s : struct_cpu_specs) : same_topology s s.
Proof. repeat split. Qed.

Lemma same_topology_trans (s s1 s' : struct_cpu_specs) :
  same_topology s s1 -> same_topology s1 s' -> same_topology s s'.
Proof.
  unfold same_topology. intros (H1 & H2 & H3 & H4) (H5 & H6 & H7 & H8).
  repeat split; congruence.
Qed.



Lemma same_inputs_after (a a' b b' : machine) :
  same_inputs a b ->
  same_topology (cpu_specs a) (cpu_specs a') ->
  same_topology (cpu_specs b) (cpu_specs b') ->
  same_inputs a' b'.
Proof.
  unfold same_inputs, same_topology.
  intros (H1 & H2 & H3) (H4 & H5 & H6 & _) (H7 & H8 & H9 & _).
  repeat split; congruence.
Qed.

Lemma cache_step_sim_ret : cache_step_sim (ret tt).
Proof.
  intros a a' b Hrun _. apply Ok_inj in Hrun; subst a'.
  split; [apply same_topology_refl |].
  exists b. split; [reflexivity |]. split; [apply same_topology_refl |].
  intros l. apply same_or_untouched_refl.
Qed.

Lemma cache_step_sim_bind (c : M unit) (k : unit -> M unit) :
  cache_step_sim c -> (forall u, cache_step_sim (k u)) -> cache_step_sim (bind c k).
Proof.
  intros Hc Hk a a' b Hrun Hin.
  apply bind_inv in Hrun. destruct Hrun as ([] & a1 & Hrun1 & Hrun2).
  destruct (Hc a a1 b Hrun1 Hin) as (Ha1 & b1 & Hb1 & Htb1 & Hl1).
  pose proof (same_inputs_after _ _ _ _ Hin Ha1 Htb1) as Hin1.
  destruct (Hk tt a1 a' b1 Hrun2 Hin1) as (Ha' & b' & Hb' & Htb' & Hl').
  split; [eapply same_topology_trans; eassumption |].
  exists b'. split; [rewrite (bind_ok _ _ _ _ _ Hb1); exact Hb' |].
  split; [eapply same_topology_trans; eassumption |].
  intros l. eapply same_or_untouched_trans; [apply Hl1 | apply Hl'].
Qed.

(** A query changes neither singleton. *)
Lemma cache_step_sim_query (hw : hardware) (func sub_func : Z) (k : cpuid_out_t -> M unit) :
  cache_step_sim (k (cpuid_result hw func sub_func)) ->
  cache_step_sim (bind (__cpuidex hw func sub_func) k).
Proof.
  intros Hk a a' b Hrun Hin.
  cbv beta iota delta [bind __cpuidex] in Hrun |- *.
  destruct (Hk _ a' (log_query (Int32.to_u32 func, Int32.to_u32 sub_func) b) Hrun Hin)
    as (Ha' & b' & Hb' & Htb' & Hl').
  split; [exact Ha' |]. exists b'. repeat split; try apply Htb'; assumption.
Qed.

Lemma cache_step_sim_amd_descriptor (cpuid_out : cpuid_out_t) :
  cache_step_sim (amd_cache_descriptor cpuid_out).
Proof.
  intros a a' b Hrun (Hcl & Htpc & Hcc).
  apply amd_cache_descriptor_inv in Hrun. destruct Hrun as (l0 & Hl0 & Hn0 & ->).
  split; [repeat split |].
  eexists. split.
  - rewrite amd_cache_descriptor_run, Hl0.
    destruct (Z.eqb_spec (threads_per_core (cpu_specs b)) 0) as [H0 | _];
      [congruence | reflexivity].
  - split; [repeat split |].
    intros l. unfold same_or_untouched.
    cbn [cpu_specs update_cpu_specs set_cache_level_specs cache_level_specs].
    destruct (cache_level_eq_dec l l0) as [-> | Hne].
    + left. rewrite !cache_get_set_same, Hcl, Htpc. reflexivity.
    + right. rewrite !cache_get_set_other by exact Hne. split; reflexivity.
Qed.

Lemma cache_step_sim_intel_descriptor (cpuid_out : cpuid_out_t) :
  cache_step_sim (intel_cache_descriptor cpuid_out).
Proof.
  intros a a' b Hrun (Hcl & Htpc & Hcc).
  apply intel_cache_descriptor_inv in Hrun. destruct Hrun as (l0 & Hl0 & Hn0 & ->).
  split; [repeat split |].
  eexists. split.
  - rewrite intel_cache_descriptor_run, Hl0.
    destruct (Z.eqb_spec (threads_per_core (cpu_specs b)) 0) as [H0 | _];
      [congruence | reflexivity].
  - split; [repeat split |].
    intros l. unfold same_or_untouched.
    cbn [cpu_specs update_cpu_specs set_cache_level_specs cache_level_specs].
    destruct (cache_level_eq_dec l l0) as [-> | Hne].
    + left. rewrite !cache_get_set_same, Hcl, Htpc, Hcc. reflexivity.
    + right. rewrite !cache_get_set_other by exact Hne. split; reflexivity.
Qed.

Lemma cache_step_sim_if (c : bool) (s1 s2 : M unit) :
  cache_step_sim s1 -> cache_step_sim s2 -> cache_step_sim (if c then s1 else s2).
Proof. destruct c; auto. Qed.

Lemma cache_step_sim_raise (f : fault) : cache_step_sim (raise f).
Proof. intros a a' b Hrun. discriminate Hrun. Qed.

Lemma cache_step_sim_amd_loop (hw : hardware) (fuel : nat) :
  forall subfunc cpuid_out, cache_step_sim (amd_caches_loop hw fuel subfunc cpuid_out).
Proof.
  induction fuel as [| fuel IH]; intros subfunc cpuid_out; cbn [amd_caches_loop].
  - apply cache_step_sim_raise.
  - apply cache_step_sim_bind.
    + apply cache_step_sim_if;
        [apply cache_step_sim_amd_descriptor | apply cache_step_sim_ret].
    + intros _. apply cache_step_sim_query.
      apply cache_step_sim_if; [apply IH | apply cache_step_sim_ret].
Qed.

Lemma cache_step_sim_intel_loop (hw : hardware) (fuel : nat) :
  forall subfunc cpuid_out, cache_step_sim (intel_caches_loop hw fuel subfunc cpuid_out).
Proof.
  induction fuel as [| fuel IH]; intros subfunc cpuid_out; cbn [intel_caches_loop];
    (apply cache_step_sim_if; [| apply cache_step_sim_ret]).
  - apply cache_step_sim_raise.
  - apply cache_step_sim_bind.
    + apply cache_step_sim_if;
        [apply cache_step_sim_intel_descriptor | apply cache_step_sim_ret].
    + intros _. apply cache_step_sim_query. apply IH.
Qed.






Ltac specs_simpl :=
  cbn [cpu_specs cpu_identity eflags cpuid_queries update_cpu_specs log_query set_eflags
       set_cache_level_specs set_cache_line_size set_threads_per_core set_core_count
       set_instructions set_data_cache_size set_attached_core_count
       cache_level_specs cache_line_size threads_per_core core_count instructions] in *.

Lemma cores_stage_ret : cores_stage (ret tt).
Proof.
  intros a a' b Hrun. apply Ok_inj in Hrun; subst a'.
  split; [repeat split |]. exists b. split; [reflexivity |].
  split; [repeat split |]. split; apply same_or_untouched_refl.
Qed.

Lemma cores_stage_amd (hw : hardware) (ctx : cpuid_ctx) :
  cores_stage (cpu_specs_amd_get_cores_info hw ctx).
Proof.
  intros a a' b. unfold cpu_specs_amd_get_cores_info.
  destruct (max_standard_func ctx >=? 11).
  - run_prims. unfold sdiv. specs_simpl.
    destruct (Z.land (cpuid_result hw 11 0 EBX) 65535 =? 0); [discriminate |].
    cbv beta iota delta [ret]. intros Hrun. apply Ok_inj in Hrun. subst a'. specs_simpl.
    split; [repeat split |]. eexists. split; [reflexivity |]. specs_simpl.
    split; [repeat split |]. split; left; reflexivity.
  - run_prims. specs_simpl.
    destruct (max_extended_func ctx >=? 2147483656);
      [| destruct (truthy (Z.land (Z.shiftr (cpuid_result hw 1 0 EDX) 28) 1));
         [destruct (max_extended_func ctx >=? 2147483649);
          [destruct (truthy (Z.land (cpuid_result hw 2147483649 0 ECX) (Z.shiftl 1 1))) |] |]];
      intros Hrun; apply Ok_inj in Hrun; subst a'; specs_simpl;
      (split; [repeat split |]); (eexists; split; [reflexivity |]); specs_simpl;
      (split; [repeat split |]);
      (split; [left; reflexivity |]);
      first [left; reflexivity | right; split; reflexivity].
Qed.

Lemma cores_stage_intel (hw : hardware) (ctx : cpuid_ctx) :
  cores_stage (cpu_specs_intel_get_cores_info hw ctx).
Proof.
  intros a a' b. unfold cpu_specs_intel_get_cores_info.
  destruct (max_standard_func ctx >=? 11).
  - run_prims. unfold sdiv. specs_simpl.
    match goal with |- context [if ?c =? 0 then _ else _] => destruct (c =? 0) end;
      [discriminate |].
    cbv beta iota delta [ret]. intros Hrun. apply Ok_inj in Hrun. subst a'. specs_simpl.
    split; [repeat split |]. eexists. split; [reflexivity |]. specs_simpl.
    split; [repeat split |]. split; left; reflexivity.
  - run_prims. specs_simpl.
    destruct (truthy (Z.land (Z.shiftr (cpuid_result hw 1 0 EDX) 28) 1)).
    + unfold sdiv. specs_simpl.
      match goal with |- context [if ?c =? 0 then _ else _] => destruct (c =? 0) end;
        [discriminate |].
      cbv beta iota delta [ret]. intros Hrun. apply Ok_inj in Hrun. subst a'. specs_simpl.
      split; [repeat split |]. eexists. split; [reflexivity |]. specs_simpl.
      split; [repeat split |]. split; left; reflexivity.
    + intros Hrun. apply Ok_inj in Hrun. subst a'. specs_simpl.
      split; [repeat split |]. eexists. split; [reflexivity |]. specs_simpl.
      split; [repeat split |]. split; [left; reflexivity | right; split; reflexivity].
Qed.

Lemma caches_stage_ret : caches_stage (ret tt).
Proof.
  intros a a' b Hrun _ _. apply Ok_inj in Hrun. subst a'.
  split; [repeat split |]. exists b. split; [reflexivity |].
  split; [repeat split |]. split; [| intros l]; apply same_or_untouched_refl.
Qed.

(** A cache loop entered after [cache_line_size] was stored. *)
Lemma caches_stage_loop (loop : M unit) (line_size : Z) (q : Z * Z) :
  cache_step_sim loop ->
  caches_stage (fun m => loop (update_cpu_specs (set_cache_line_size line_size)
                                 (log_query q m))).
Proof.
  intros Hloop a a' b Hrun Htpc Hcc.
  destruct (Hloop _ a' (update_cpu_specs (set_cache_line_size line_size) (log_query q b)) Hrun)
    as ((Hcl & Ht & Hc & Hi) & b' & Hrunb & (Hclb & Htb & Hcb & Hib) & Hlev).
  { repeat split; assumption. }
  specs_simpl.
  split; [repeat split; assumption |].
  exists b'. split; [exact Hrunb |]. split; [repeat split; assumption |].
  split; [left; congruence | exact Hlev].
Qed.

Lemma caches_stage_intel (hw : hardware) (fuel : nat) (ctx : cpuid_ctx) :
  caches_stage (cpu_specs_intel_get_caches_info hw fuel ctx).
Proof.
  unfold cpu_specs_intel_get_caches_info.
  destruct (max_standard_func ctx >=? 4); [| apply caches_stage_ret].
  apply (caches_stage_loop
           (intel_caches_loop hw fuel 0 (cpuid_result hw 4 0))
           (Int32.add (Z.land (cpuid_result hw 4 0 EBX) 127) 1)
           (Int32.to_u32 4, Int32.to_u32 0)).
  apply cache_step_sim_intel_loop.
Qed.

Lemma caches_stage_amd (hw : hardware) (fuel : nat) (ctx : cpuid_ctx) :
  caches_stage (cpu_specs_amd_get_caches_info hw fuel ctx).
Proof.
  unfold cpu_specs_amd_get_caches_info.
  destruct (max_extended_func ctx >=? 2147483677).
  - intros a a' b. cbv beta iota zeta delta [bind __cpuidex].
    destruct (truthy (Z.land (cpuid_result hw 2147483649 0 ECX) (Z.shiftl 1 22))).
    + intros Hrun Htpc Hcc.
      destruct (caches_stage_loop
                  (amd_caches_loop hw fuel 0 (cpuid_result hw 2147483677 0))
                  (Int32.add (Z.land (cpuid_result hw 2147483677 0 EBX) 127) 1)
                  (Int32.to_u32 2147483677, Int32.to_u32 0)
                  (cache_step_sim_amd_loop hw fuel 0 (cpuid_result hw 2147483677 0))
                  (log_query (Int32.to_u32 2147483649, Int32.to_u32 0) a) a'
                  (log_query (Int32.to_u32 2147483649, Int32.to_u32 0) b) Hrun Htpc Hcc)
        as (Ha & b' & Hrunb & Hrest).
      split; [exact Ha |]. exists b'. split; [exact Hrunb | exact Hrest].
    + intros Hrun Htpc Hcc. apply Ok_inj in Hrun. subst a'. specs_simpl.
      split; [repeat split |]. eexists. split; [reflexivity |]. specs_simpl.
      split; [repeat split |]. split; [| intros l]; apply same_or_untouched_refl.
  - destruct (max_extended_func ctx >=? 2147483653); [| apply caches_stage_ret].
    intros a a' b. run_prims.
    destruct (max_extended_func ctx >=? 2147483654);
      intros Hrun Htpc Hcc; apply Ok_inj in Hrun; subst a'; specs_simpl;
      (split; [repeat split |]); (eexists; split; [reflexivity |]); specs_simpl;
      (split; [repeat split |]); (split; [left; reflexivity |]);
      intros l; destruct l; cbn [cache_get cache_set at_L1 at_L2 at_L3
                                 data_cache_size attached_core_count];
      first [left; rewrite ?Hcc; reflexivity | right; split; reflexivity].
Qed.

Lemma flags_stage_ret : flags_stage (ret tt).
Proof.
  exists []. split; [constructor |]. intros m. exists m.
  split; [reflexivity |]. symmetry. apply set_instructions_same.
Qed.

Lemma flags_stage_common (hw : hardware) (ctx : cpuid_ctx) :
  flags_stage (cpu_specs_get_common_instructions hw ctx).
Proof.
  exists (common_rules hw ctx). split; [apply common_rules_ok |].
  intros m. destruct (common_instructions_run hw ctx m) as (m' & Hrun & Hspecs & _).
  exists m'. split; assumption.
Qed.

Lemma flags_stage_amd (hw : hardware) (ctx : cpuid_ctx) :
  flags_stage (cpu_specs_amd_get_instructions hw ctx).
Proof.
  exists (amd_rules hw ctx). split; [apply amd_rules_ok |].
  intros m. destruct (amd_instructions_run hw ctx m) as (m' & Hrun & Hspecs & _).
  exists m'. split; assumption.
Qed.

Lemma flags_stage_intel (hw : hardware) (ctx : cpuid_ctx) :
  flags_stage (cpu_specs_intel_get_instructions hw ctx).
Proof.
  exists (intel_rules hw ctx). split; [apply intel_rules_ok |].
  intros m. destruct (intel_instructions_run hw ctx m) as (m' & Hrun & Hspecs & _).
  exists m'. split; assumption.
Qed.

Lemma cpu_specs_ext (s s' : struct_cpu_specs) :
  (forall l, cache_get l (cache_level_specs s) = cache_get l (cache_level_specs s')) ->
  cache_line_size s = cache_line_size s' ->
  threads_per_core s = threads_per_core s' ->
  core_count s = core_count s' ->
  instructions s = instructions s' ->
  s = s'.
Proof.
  intros Hl Hcl Ht Hc Hi. apply cache_array_ext in Hl.
  destruct s, s'. cbn in *. congruence.
Qed.

(** From equal-or-untouched to equal, when the second run started where
    the first one ended and nothing later in the first run touched the
    location. *)
Lemma same_or_untouched_fixed {A : Type} (a a' b b' : A) :
  same_or_untouched a a' b b' -> b = a' -> a' = b'.
Proof. intros [H | [_ H]] Hb; congruence. Qed.

(** The vendor part of a detection pass, run a second time on the outcome
    of the first, changes nothing. *)
Lemma vendor_pass_idempotent (cores caches instr : M unit) (rc : list decode_rule) :
  Forall rule_bit_ok rc ->
  cores_stage cores -> caches_stage caches -> flags_stage instr ->
  forall a a' b x,
    (cores ;; caches ;; instr) a = Ok tt a' ->
    instructions (cpu_specs a) = apply_rules rc x ->
    cpu_specs b
    = set_instructions (apply_rules rc (instructions (cpu_specs a'))) (cpu_specs a') ->
    exists b', (cores ;; caches ;; instr) b = Ok tt b' /\ cpu_specs b' = cpu_specs a'.
Proof.
  intros Hrc Hcores Hcaches (ri & Hri & Hinstr) a a' b x Hrun Hx Hb.
  apply bind_inv in Hrun. destruct Hrun as ([] & a2 & Hrun1 & Hrun).
  apply bind_inv in Hrun. destruct Hrun as ([] & a3 & Hrun2 & Hrun3).
  destruct (Hinstr a3) as (a4 & Hrun3' & Ha4).
  rewrite Hrun3 in Hrun3'. apply Ok_inj in Hrun3'. subst a4.
  (* what the first run kept *)
  assert (Hb_cache : cache_level_specs (cpu_specs b) = cache_level_specs (cpu_specs a3)
                     /\ cache_line_size (cpu_specs b) = cache_line_size (cpu_specs a3)
                     /\ threads_per_core (cpu_specs b) = threads_per_core (cpu_specs a3)
                     /\ core_count (cpu_specs b) = core_count (cpu_specs a3)).
  { rewrite Hb, Ha4. repeat split. }
  destruct Hb_cache as (Hbl & Hbcl & Hbt & Hbc).
  (* cores *)
  destruct (Hcores a a2 b Hrun1)
    as ((Hal2 & Hacl2 & Hai2) & b2 & Hrunb1 & (Hbl2 & Hbcl2 & Hbi2) & Htpc & Hcc).
  destruct (Hcaches a2 a3 a2 Hrun2 eq_refl eq_refl) as ((Hat3 & Hac3 & Hai3) & _).
  destruct (Hcaches a2 a3 b2 Hrun2) as
    (_ & b3 & Hrunb2 & (Hbt3 & Hbc3 & Hbi3) & Hcl & Hlev).
  { apply (same_or_untouched_fixed _ _ _ _ Htpc). congruence. }
  { apply (same_or_untouched_fixed _ _ _ _ Hcc). congruence. }
  destruct (Hinstr b3) as (b4 & Hrunb3 & Hb4).
  exists b4. split.
  - rewrite (bind_ok _ _ _ _ _ Hrunb1), (bind_ok _ _ _ _ _ Hrunb2). exact Hrunb3.
  - rewrite Hb4, Ha4. apply cpu_specs_ext; cbn [set_instructions cache_level_specs
      cache_line_size threads_per_core core_count instructions].
    + intros l. symmetry. apply (same_or_untouched_fixed _ _ _ _ (Hlev l)). congruence.
    + symmetry. apply (same_or_untouched_fixed _ _ _ _ Hcl). congruence.
    + rewrite Hbt3, Hat3. symmetry.
      apply (same_or_untouched_fixed _ _ _ _ Htpc). congruence.
    + rewrite Hbc3, Hac3. symmetry.
      apply (same_or_untouched_fixed _ _ _ _ Hcc). congruence.
    + rewrite Hbi3, Hbi2, Hb, Ha4, Hai3, Hai2, Hx.
      cbn [set_instructions instructions].
      apply (set_or_clear_map_idempotent (fun y => apply_rules ri (apply_rules rc y)) x).
      apply (set_or_clear_map_compose (apply_rules rc) (apply_rules ri));
        apply set_or_clear_map_rules; assumption.
Qed.

Lemma bind_cpuidex {A : Type} (hw : hardware) (func sub_func : Z)
  (k : cpuid_out_t -> M A) (m : machine) :
  bind (__cpuidex hw func sub_func) k m
  = k (cpuid_result hw func sub_func)
      (log_query (Int32.to_u32 func, Int32.to_u32 sub_func) m).
Proof. reflexivity. Qed.

(* ===================================================================== *)
(** ** Attached cores against cores *)

Lemma intel_caches_info_bound (hw : hardware) (fuel : nat) (ctx : cpuid_ctx)
  (m m' : machine) :
  cpu_specs_intel_get_caches_info hw fuel ctx m = Ok tt m' ->
  core_count (cpu_specs m') = core_count (cpu_specs m)
  /\ forall l,
      cache_get l (cache_level_specs (cpu_specs m'))
      = cache_get l (cache_level_specs (cpu_specs m))
      \/ attached_core_count (cache_get l (cache_level_specs (cpu_specs m')))
         <= core_count (cpu_specs m).
Proof.
  unfold cpu_specs_intel_get_caches_info.
  destruct (max_standard_func ctx >=? 4).
  - rewrite bind_cpuidex. cbv beta iota zeta delta [bind write_specs].
    intros Hrun. apply intel_caches_loop_bound in Hrun.
    destruct Hrun as [(_ & _ & Hcc & _) Hlev]. specs_simpl.
    split; assumption.
  - intros Hrun. apply Ok_inj in Hrun. subst m'.
    split; [reflexivity | intros l; left; reflexivity].
Qed.

(** C3, as amended.  After a completed detection pass on a processor whose
    signature word is [CPU_MANUFACTURER_INTEL] (the function 0x4 decoder),
    every cache level differs from what it was before the pass only if its
    [attached_core_count] is at most [core_count], for every sequence of
    register values. *)
Theorem intel_attached_cores_bounded
  (hw : hardware) (fuel : nat) (m m' : machine) :
  cpuid_result hw 0x0 0x0 ECX = CPU_MANUFACTURER_INTEL ->
  cpu_specs_init hw fuel m = Ok tt m' ->
  forall l,
    cache_get l (cache_level_specs (cpu_specs m'))
    = cache_get l (cache_level_specs (cpu_specs m))
    \/ attached_core_count (cache_get l (cache_level_specs (cpu_specs m')))
       <= core_count (cpu_specs m').
Proof.
  intros Hintel Hrun l.
  destruct (hw_id_flag_changeable hw) eqn:Hprobe.
  - rewrite (cpu_specs_init_available hw fuel m Hprobe) in Hrun.
    match type of Hrun with bind _ _ ?p = _ =>
      destruct (common_instructions_run hw (detected_ctx hw) p)
        as (a1 & Hrun1 & Hspecs1 & _)
    end.
    rewrite (bind_ok _ _ _ _ _ Hrun1), bind_cpuidex, Hintel in Hrun.
    change (CPU_MANUFACTURER_INTEL =? CPU_MANUFACTURER_AMD) with false in Hrun.
    change (CPU_MANUFACTURER_INTEL =? CPU_MANUFACTURER_INTEL) with true in Hrun.
    cbv beta iota in Hrun.
    apply bind_inv in Hrun. destruct Hrun as ([] & a2 & Hcores & Hrun).
    apply bind_inv in Hrun. destruct Hrun as ([] & a3 & Hcaches & Hinstr).
    destruct (cores_stage_intel hw (detected_ctx hw) _ a2 a2 Hcores) as ((Hl2 & _) & _).
    destruct (intel_caches_info_bound hw fuel _ _ _ Hcaches) as [Hcc3 Hlev3].
    destruct (intel_instructions_run hw (detected_ctx hw) a3)
      as (a4 & Hinstr' & Hspecs4 & _).
    rewrite Hinstr in Hinstr'. apply Ok_inj in Hinstr'. subst a4.
    rewrite Hspecs4. specs_simpl.
    rewrite Hspecs1 in Hl2. specs_simpl.
    rewrite <- Hl2, Hcc3. apply Hlev3.
  - rewrite (cpu_specs_init_unavailable hw fuel m Hprobe) in Hrun.
    apply Ok_inj in Hrun. subst m'. left. reflexivity.
Qed.

Lemma intel_attached_cores_bounded_witness :
  exists m',
    cpu_specs_init sample_intel_hw 8 (boot ISA_x64 0) = Ok tt m'
    /\ forall l,
        cache_get l (cache_level_specs (cpu_specs m'))
        = cache_get l (cache_level_specs (cpu_specs (boot ISA_x64 0)))
        \/ attached_core_count (cache_get l (cache_level_specs (cpu_specs m')))
           <= core_count (cpu_specs m').
Proof.
  eexists. split; [vm_compute; reflexivity |].
  apply (intel_attached_cores_bounded sample_intel_hw 8 (boot ISA_x64 0));
    reflexivity.
Defined.

(** On the sample Intel processor the L3 descriptor reports 16 sharing
    threads, 8 cores' worth, and the decoder stores the 4 cores there
    are. *)
Example attached_cores_of_sample_intel :
  exists m',
    cpu_specs_init sample_intel_hw 8 (boot ISA_x64 0) = Ok tt m'
    /\ core_count (cpu_specs m') = 4
    /\ attached_core_count (cache_get L3 (cache_level_specs (cpu_specs m'))) = 4.
Proof. eexists. split; [vm_compute; reflexivity | split; reflexivity]. Qed.

(** C3, as stated, fails in the AMD decoder: on the sample processor the
    pass returns with 2 cores and an L3 level that was decoded from
    function 0x8000001D with 8 attached cores. *)
Lemma amd_attached_cores_exceed_cores :
  cpuid_result sample_amd_hw 0x0 0x0 ECX = CPU_MANUFACTURER_AMD
  /\ exists m',
       cpu_specs_init sample_amd_hw 8 (boot ISA_x64 0) = Ok tt m'
       /\ cache_get L3 (cache_level_specs (cpu_specs m'))
          <> cache_get L3 (cache_level_specs (cpu_specs (boot ISA_x64 0)))
       /\ core_count (cpu_specs m') = 2
       /\ attached_core_count (cache_get L3 (cache_level_specs (cpu_specs m'))) = 8
       /\ ~ (attached_core_count (cache_get L3 (cache_level_specs (cpu_specs m')))
             <= core_count (cpu_specs m')).
Proof.
  split; [reflexivity |].
  eexists. split; [vm_compute; reflexivity |].
  split; [discriminate |].
  split; [reflexivity |].
  split; [reflexivity |].
  cbn. lia.
Qed.

(* ===================================================================== *)
(** ** Idempotence *)

Lemma set_instructions_twice (v w : Z) (s : struct_cpu_specs) :
  set_instructions v (set_instructions w s) = set_instructions v s.
Proof. reflexivity. Qed.

(** A second detection pass on the outcome of a completed one returns and
    leaves [cpu_specs] as it is. *)
Lemma cpu_specs_init_idempotent (hw : hardware) (fuel : nat) (m m1 : machine) :
  cpu_specs_init hw fuel m = Ok tt m1 ->
  exists m2, cpu_specs_init hw fuel m1 = Ok tt m2 /\ cpu_specs m2 = cpu_specs m1.
Proof.
  intros Hrun.
  destruct (hw_id_flag_changeable hw) eqn:Hhw.
  - rewrite (cpu_specs_init_available hw fuel m Hhw) in Hrun.
    rewrite (cpu_specs_init_available hw fuel m1 Hhw).
    set (ctx := detected_ctx hw) in *.
    set (rc := common_rules hw ctx).
    match type of Hrun with bind _ _ ?p = _ =>
      destruct (common_instructions_run hw ctx p) as (a1 & Hrun1 & Hspecs1 & _)
    end.
    match goal with |- exists _, bind _ _ ?p = _ /\ _ =>
      destruct (common_instructions_run hw ctx p) as (b1 & Hrunb1 & Hspecsb1 & _)
    end.
    rewrite (bind_ok _ _ _ _ _ Hrun1), bind_cpuidex in Hrun.
    rewrite (bind_ok _ _ _ _ _ Hrunb1), bind_cpuidex.
    specs_simpl. fold rc in Hspecs1, Hspecsb1.
    set (q := (Int32.to_u32 0, Int32.to_u32 0)) in *.
    assert (Ha : instructions (cpu_specs (log_query q a1))
                 = apply_rules rc (instructions (cpu_specs m))).
    { cbn [cpu_specs log_query]. rewrite Hspecs1. reflexivity. }
    assert (Hb : cpu_specs (log_query q b1)
                 = set_instructions (apply_rules rc (instructions (cpu_specs m1)))
                     (cpu_specs m1)).
    { cbn [cpu_specs log_query]. exact Hspecsb1. }
    destruct (cpuid_result hw 0 0 ECX =? CPU_MANUFACTURER_AMD);
      [| destruct (cpuid_result hw 0 0 ECX =? CPU_MANUFACTURER_INTEL)].
    + apply (vendor_pass_idempotent _ _ _ rc (common_rules_ok hw ctx)
               (cores_stage_amd hw ctx) (caches_stage_amd hw fuel ctx)
               (flags_stage_amd hw ctx) _ _ _ _ Hrun Ha Hb).
    + apply (vendor_pass_idempotent _ _ _ rc (common_rules_ok hw ctx)
               (cores_stage_intel hw ctx) (caches_stage_intel hw fuel ctx)
               (flags_stage_intel hw ctx) _ _ _ _ Hrun Ha Hb).
    + apply Ok_inj in Hrun. subst m1.
      eexists. split; [reflexivity |].
      rewrite Hb. cbn [cpu_specs log_query]. rewrite Hspecs1.
      rewrite set_instructions_twice. cbn [set_instructions instructions].
      f_equal.
      apply set_or_clear_map_idempotent, set_or_clear_map_rules, common_rules_ok.
  - rewrite (cpu_specs_init_unavailable hw fuel m Hhw) in Hrun.
    apply Ok_inj in Hrun. subst m1.
    rewrite (cpu_specs_init_unavailable hw fuel _ Hhw).
    eexists. split; reflexivity.
Qed.

Lemma cpu_identity_ext (i j : struct_cpu_identity) :
  family i = family j -> model i = model j -> stepping i = stepping j ->
  manufacturer i = manufacturer j -> name i = name j -> i = j.
Proof. destruct i, j. cbn. congruence. Qed.

Lemma skipn_app_exact {A : Type} (n : nat) (p t : list A) :
  List.length p = n -> skipn n (p ++ t) = t.
Proof.
  intros <-. rewrite skipn_app, skipn_all, Nat.sub_diag. reflexivity.
Qed.

(** [cpu_identity_init] always returns, and a second call leaves
    [cpu_identity] as the first one made it. *)
Lemma cpu_identity_init_idempotent (hw : hardware) (m : machine) :
  exists m1 m2,
    cpu_identity_init hw m = Ok tt m1
    /\ cpu_identity_init hw m1 = Ok tt m2
    /\ cpu_identity m2 = cpu_identity m1.
Proof.
  destruct (hw_id_flag_changeable hw) eqn:Hhw.
  - destruct (cpu_identity_init_available hw m Hhw)
      as (m1 & Hrun1 & _ & Hf1 & Hm1 & Hs1 & Hman1 & Hn1).
    destruct (cpu_identity_init_available hw m1 Hhw)
      as (m2 & Hrun2 & _ & Hf2 & Hm2 & Hs2 & Hman2 & Hn2).
    exists m1, m2. split; [exact Hrun1 |]. split; [exact Hrun2 |].
    apply cpu_identity_ext; try congruence.
    + rewrite Hman2, Hman1. rewrite !app_assoc.
      rewrite (skipn_app_exact 12) by reflexivity. reflexivity.
    + rewrite Hn2, Hn1.
      destruct (Int32.to_u32 (cpuid_result hw 2147483648 0 EAX) >=? 2147483652);
        [| reflexivity].
      rewrite !app_assoc. rewrite (skipn_app_exact 48) by reflexivity. reflexivity.
  - eexists. eexists.
    split; [apply (cpu_identity_init_unavailable hw m Hhw) |].
    split; [apply (cpu_identity_init_unavailable hw _ Hhw) | reflexivity].
Qed.

(** C5.  For a fixed processor (fixed answers of the query primitive and a
    fixed ID flag behaviour), a second call of [cpu_specs_init] after a
    completed first call returns and yields the same [cpu_specs], and
    [cpu_identity_init], which always returns, yields the same
    [cpu_identity] when called a second time. *)
Theorem detection_idempotent (hw : hardware) (fuel : nat) (m m1 : machine) :
  cpu_specs_init hw fuel m = Ok tt m1 ->
  (exists m2, cpu_specs_init hw fuel m1 = Ok tt m2 /\ cpu_specs m2 = cpu_specs m1)
  /\ (exists i1 i2,
         cpu_identity_init hw m = Ok tt i1
         /\ cpu_identity_init hw i1 = Ok tt i2
         /\ cpu_identity i2 = cpu_identity i1).
Proof.
  intros Hrun. split.
  - apply (cpu_specs_init_idempotent hw fuel m m1 Hrun).
  - apply cpu_identity_init_idempotent.
Qed.

Lemma detection_idempotent_witness :
  exists m1,
    cpu_specs_init sample_amd_hw 8 (boot ISA_x64 0) = Ok tt m1
    /\ (exists m2, cpu_specs_init sample_amd_hw 8 m1 = Ok tt m2
                   /\ cpu_specs m2 = cpu_specs m1)
    /\ (exists i1 i2,
           cpu_identity_init sample_amd_hw (boot ISA_x64 0) = Ok tt i1
           /\ cpu_identity_init sample_amd_hw i1 = Ok tt i2
           /\ cpu_identity i2 = cpu_identity i1).
Proof.
  eexists. split; [vm_compute; reflexivity |].
  apply (detection_idempotent sample_amd_hw 8 (boot ISA_x64 0)).
  vm_compute. reflexivity.
Defined.

(* ===================================================================== *)
(** ** The earlier revision *)

(** Without a probe the context resolver always issues its two queries. *)
Lemma legacy_cpuid_ctx_get_run (hw : hardware) (m : machine) :
  Legacy.cpuid_ctx_get hw m
  = Ok (detected_ctx hw) (log_query (0x80000000, 0x0) (log_query (0x0, 0x0) m)).
Proof. reflexivity. Qed.

Lemma or_flag_bits (x w k : Z) (f : cpu_instruction) (j : Z) :
  0 <= k ->
  Z.testbit (Z.lor x (Int32.mul (Z.land (Z.shiftr w k) 1) f)) j
  = (Z.testbit x j || (Z.testbit w k && (j =? flag_pos f)))%bool.
Proof.
  intros Hk. rewrite isolated_bit_testbit by assumption.
  rewrite Z.lor_spec. f_equal.
  destruct (Z.testbit w k).
  - replace (Int32.mul (Z.b2z true) f) with (flag_mask f) by (destruct f; reflexivity).
    apply flag_mask_testbit.
  - replace (Int32.mul (Z.b2z false) f) with 0 by (destruct f; reflexivity).
    apply Z.bits_0.
Qed.

(** The unknown-vendor pass of the earlier revision ends in the same
    profile. *)
Lemma legacy_pass_unknown_vendor (hw : hardware) (fuel : nat) (m : machine) :
  Int32.to_u32 (hw_cpuid hw 0x0 0x0 EAX) = 1 ->
  Int32.to_u32 (hw_cpuid hw 0x80000000 0x0 EAX) = 0 ->
  cpuid_result hw 0x0 0x0 ECX <> CPU_MANUFACTURER_AMD ->
  cpuid_result hw 0x0 0x0 ECX <> CPU_MANUFACTURER_INTEL ->
  exists m',
    Legacy.cpu_specs_init hw fuel m = Ok tt m'
    /\ cache_level_specs (cpu_specs m')
       = mk_cache_array (mk_cache_level (4 * 1024) 1) (mk_cache_level 0 0)
           (mk_cache_level 0 0)
    /\ cache_line_size (cpu_specs m') = 64
    /\ threads_per_core (cpu_specs m') = 1
    /\ core_count (cpu_specs m') = 1
    /\ (forall f : cpu_instruction,
          Z.testbit (instructions (cpu_specs m')) (flag_pos f)
          = match leaf1_probe f with
            | Some (r, flag_bit) => Z.testbit (cpuid_result hw 0x1 0x0 r) flag_bit
            | None => false
            end)
    /\ (forall j, (forall f : cpu_instruction, j <> flag_pos f) ->
                  Z.testbit (instructions (cpu_specs m')) j = false).
Proof.
  intros Hstd Hext Hamd Hintel.
  unfold Legacy.cpu_specs_init.
  rewrite (bind_ok _ _ _ _ _ (legacy_cpuid_ctx_get_run hw m)).
  assert (Hctx : detected_ctx hw = mk_cpuid_ctx 1 0).
  { unfold detected_ctx, cpuid_result. rewrite !to_u32_to_s32.
    change (Int32.to_u32 0) with 0. change (Int32.to_u32 2147483648) with 2147483648.
    rewrite Hstd, Hext. reflexivity. }
  rewrite Hctx.
  unfold Legacy.cpu_specs_set_defaults, Legacy.cpu_specs_get_common_instructions,
    Legacy.or_flag.
  cbn [max_standard_func]. change (1 >=? 7) with false.
  run_prims.
  apply Z.eqb_neq in Hamd, Hintel. rewrite Hamd, Hintel.
  eexists. split; [reflexivity |].
  specs_simpl.
  split; [reflexivity |]. split; [reflexivity |]. split; [reflexivity |].
  split; [reflexivity |].
  split.
  - intros f. rewrite !or_flag_bits by lia. rewrite Z.bits_0.
    destruct f; cbn [flag_pos Z.eqb Pos.eqb leaf1_probe orb andb];
      rewrite ?andb_false_r, ?andb_true_r, ?orb_false_r; reflexivity.
  - intros j Hj. rewrite !or_flag_bits by lia. rewrite Z.bits_0.
    pose proof (Hj F16C). pose proof (Hj AVX1). pose proof (Hj POPCNT).
    pose proof (Hj SSE4_2). pose proof (Hj SSE4_1). pose proof (Hj FMA3).
    pose proof (Hj SSSE3). pose proof (Hj SSE3). pose proof (Hj SSE2).
    pose proof (Hj SSE1). pose proof (Hj RDTSCP).
    repeat match goal with
           | |- context [?a =? ?b] => destruct (Z.eqb_spec a b); [contradiction |]
           end.
    rewrite ?andb_false_r. reflexivity.
Qed.

(* ===================================================================== *)
(** ** Divisors that cannot be zero *)

Lemma hyperthreaded_plus_one (x : Z) :
  Int32.add (Z.land (Z.shiftr x 28) 1) 1 = 1
  \/ Int32.add (Z.land (Z.shiftr x 28) 1) 1 = 2.
Proof.
  rewrite isolated_bit_testbit by lia.
  destruct (Z.testbit x 28); [right | left]; reflexivity.
Qed.

(** The one other division of the pass, in the Intel path without function
    0xB, divides by [hyperthreaded + 1]: that decoder always returns. *)
Lemma intel_legacy_cores_info_returns (hw : hardware) (ctx : cpuid_ctx) (m : machine) :
  (max_standard_func ctx >=? 0xB) = false ->
  exists m', cpu_specs_intel_get_cores_info hw ctx m = Ok tt m'.
Proof.
  intros Hstd. unfold cpu_specs_intel_get_cores_info. rewrite Hstd.
  run_prims. unfold sdiv. specs_simpl.
  destruct (truthy (Z.land (Z.shiftr (cpuid_result hw 1 0 EDX) 28) 1));
    [| eexists; reflexivity].
  destruct (hyperthreaded_plus_one (cpuid_result hw 1 0 EDX)) as [-> | ->];
    eexists; reflexivity.
Qed.

(** A topology decoder that returns leaves a nonzero [threads_per_core]:
    within a detection pass the cache decoders never divide by zero. *)
Lemma cores_info_threads_per_core_nonzero (hw : hardware) (ctx : cpuid_ctx)
  (m m' : machine) :
  cpu_specs_amd_get_cores_info hw ctx m = Ok tt m'
  \/ cpu_specs_intel_get_cores_info hw ctx m = Ok tt m' ->
  threads_per_core (cpu_specs m') <> 0.
Proof.
  destruct (max_standard_func ctx >=? 0xB) eqn:Hstd.
  - rewrite (amd_cores_info_0xB hw ctx m Hstd), (intel_cores_info_0xB hw ctx m Hstd).
    cbv zeta.
    intros [Hrun | Hrun];
      match type of Hrun with (if ?c =? 0 then _ else _) = _ =>
        destruct (Z.eqb_spec c 0) as [H0 | Hn0]; [discriminate Hrun |]
      end;
      apply Ok_inj in Hrun; subst m'; specs_simpl; exact Hn0.
  - unfold cpu_specs_amd_get_cores_info, cpu_specs_intel_get_cores_info.
    rewrite Hstd. intros Hrun.
    assert (Htpc : threads_per_core (cpu_specs m')
                   = Int32.add (Z.land (Z.shiftr (cpuid_result hw 1 0 EDX) 28) 1) 1).
    { revert Hrun. run_prims. unfold sdiv. specs_simpl.
      destruct (max_extended_func ctx >=? 2147483656),
               (truthy (Z.land (Z.shiftr (cpuid_result hw 1 0 EDX) 28) 1)),
               (max_extended_func ctx >=? 2147483649),
               (truthy (Z.land (cpuid_result hw 2147483649 0 ECX) (Z.shiftl 1 1)));
        destruct (hyperthreaded_plus_one (cpuid_result hw 1 0 EDX)) as [Heq | Heq];
        rewrite ?Heq; cbv beta iota delta [ret];
        intros [Hrun | Hrun]; try discriminate Hrun;
        apply Ok_inj in Hrun; subst m'; specs_simpl; rewrite ?Heq; reflexivity. }
    rewrite Htpc.
    destruct (hyperthreaded_plus_one (cpuid_result hw 1 0 EDX)) as [-> | ->]; discriminate.
Qed.

(* ===================================================================== *)
(** ** What the detection pass depends on *)

Lemma specs_determined_ret {A : Type} (x : A) : specs_determined (ret x).
Proof. intros a b H. cbn. auto. Qed.

Lemma specs_determined_raise {A : Type} (f : fault) : specs_determined (@raise A f).
Proof. intros a b H. reflexivity. Qed.

Lemma specs_determined_bind {A B : Type} (c : M A) (k : A -> M B) :
  specs_determined c -> (forall x, specs_determined (k x)) -> specs_determined (bind c k).
Proof.
  intros Hc Hk a b Hab. unfold bind.
  specialize (Hc a b Hab). unfold results_agree in Hc.
  destruct (c a) as [x a' | f], (c b) as [y b' | g]; try contradiction.
  - destruct Hc as [<- Hab']. apply Hk. exact Hab'.
  - exact Hc.
Qed.

Lemma specs_determined_cpuidex (hw : hardware) (func sub_func : Z) :
  specs_determined (__cpuidex hw func sub_func).
Proof. intros a b H. cbn. auto. Qed.

Lemma specs_determined_read {A : Type} (f : struct_cpu_specs -> A) :
  specs_determined (read_specs f).
Proof. intros a b H. cbn. rewrite H. auto. Qed.

Lemma specs_determined_write (f : struct_cpu_specs -> struct_cpu_specs) :
  specs_determined (write_specs f).
Proof. intros a b H. cbn. rewrite H. auto. Qed.

Lemma specs_determined_sdiv (x y : Z) : specs_determined (sdiv x y).
Proof.
  unfold sdiv. destruct (y =? 0);
    [apply specs_determined_raise | apply specs_determined_ret].
Qed.

Lemma specs_determined_level (i : Z) : specs_determined (cache_level_spec_at i).
Proof.
  unfold cache_level_spec_at. destruct (cache_level_of_index i);
    [apply specs_determined_ret | apply specs_determined_raise].
Qed.

Lemma specs_determined_probe (hw : hardware) : specs_determined (cpuid_is_available hw).
Proof.
  intros a b H. rewrite !cpuid_is_available_run. cbn. auto.
Qed.

(** One step of a proof that a piece of code is settled by [cpu_specs];
    [known] closes the calls to functions already dealt with. *)
Ltac determined_step known :=
  lazymatch goal with
  | |- specs_determined (ret _) => apply specs_determined_ret
  | |- specs_determined (raise _) => apply specs_determined_raise
  | |- specs_determined (__cpuidex _ _ _) => apply specs_determined_cpuidex
  | |- specs_determined (read_specs _) => apply specs_determined_read
  | |- specs_determined (write_specs _) => apply specs_determined_write
  | |- specs_determined (sdiv _ _) => apply specs_determined_sdiv
  | |- specs_determined (cache_level_spec_at _) => apply specs_determined_level
  | |- specs_determined (cpuid_is_available _) => apply specs_determined_probe
  | |- specs_determined (bind _ _) => apply specs_determined_bind; [| intros ?]
  | |- specs_determined (if ?c then _ else _) => destruct c
  | |- specs_determined (let _ := _ in _) => cbv zeta
  | |- specs_determined (match ?c with _ => _ end) => destruct c
  | |- specs_determined _ => known
  end.

Ltac determined known := repeat determined_step known.

Lemma specs_determined_amd_cores (hw : hardware) (ctx : cpuid_ctx) :
  specs_determined (cpu_specs_amd_get_cores_info hw ctx).
Proof. unfold cpu_specs_amd_get_cores_info. determined fail. Qed.

Lemma specs_determined_intel_cores (hw : hardware) (ctx : cpuid_ctx) :
  specs_determined (cpu_specs_intel_get_cores_info hw ctx).
Proof. unfold cpu_specs_intel_get_cores_info. determined fail. Qed.

Lemma specs_determined_amd_descriptor (o : cpuid_out_t) :
  specs_determined (amd_cache_descriptor o).
Proof. unfold amd_cache_descriptor. determined fail. Qed.

Lemma specs_determined_intel_descriptor (o : cpuid_out_t) :
  specs_determined (intel_cache_descriptor o).
Proof. unfold intel_cache_descriptor. determined fail. Qed.

Lemma specs_determined_amd_loop (hw : hardware) (fuel : nat) :
  forall subfunc o, specs_determined (amd_caches_loop hw fuel subfunc o).
Proof.
  induction fuel as [| fuel IH]; intros subfunc o; cbn [amd_caches_loop];
    determined ltac:(first [apply IH | apply specs_determined_amd_descriptor]).
Qed.

Lemma specs_determined_intel_loop (hw : hardware) (fuel : nat) :
  forall subfunc o, specs_determined (intel_caches_loop hw fuel subfunc o).
Proof.
  induction fuel as [| fuel IH]; intros subfunc o; cbn [intel_caches_loop];
    determined ltac:(first [apply IH | apply specs_determined_intel_descriptor]).
Qed.

Lemma specs_determined_amd_caches (hw : hardware) (fuel : nat) (ctx : cpuid_ctx) :
  specs_determined (cpu_specs_amd_get_caches_info hw fuel ctx).
Proof.
  unfold cpu_specs_amd_get_caches_info.
  determined ltac:(apply specs_determined_amd_loop).
Qed.

Lemma specs_determined_intel_caches (hw : hardware) (fuel : nat) (ctx : cpuid_ctx) :
  specs_determined (cpu_specs_intel_get_caches_info hw fuel ctx).
Proof.
  unfold cpu_specs_intel_get_caches_info.
  determined ltac:(apply specs_determined_intel_loop).
Qed.

Lemma specs_determined_amd_instructions (hw : hardware) (ctx : cpuid_ctx) :
  specs_determined (cpu_specs_amd_get_instructions hw ctx).
Proof. unfold cpu_specs_amd_get_instructions. determined fail. Qed.

Lemma specs_determined_intel_instructions (hw : hardware) (ctx : cpuid_ctx) :
  specs_determined (cpu_specs_intel_get_instructions hw ctx).
Proof. unfold cpu_specs_intel_get_instructions. determined fail. Qed.

Lemma specs_determined_common (hw : hardware) (ctx : cpuid_ctx) :
  specs_determined (cpu_specs_get_common_instructions hw ctx).
Proof. unfold cpu_specs_get_common_instructions. determined fail. Qed.

Lemma specs_determined_init (hw : hardware) (fuel : nat) :
  specs_determined (cpu_specs_init hw fuel).
Proof.
  unfold cpu_specs_init.
  determined ltac:(idtac; lazymatch goal with
    | |- specs_determined (cpu_specs_get_common_instructions _ _) =>
        apply specs_determined_common
    | |- specs_determined (cpu_specs_amd_get_cores_info _ _) =>
        apply specs_determined_amd_cores
    | |- specs_determined (cpu_specs_amd_get_caches_info _ _ _) =>
        apply specs_determined_amd_caches
    | |- specs_determined (cpu_specs_amd_get_instructions _ _) =>
        apply specs_determined_amd_instructions
    | |- specs_determined (cpu_specs_intel_get_cores_info _ _) =>
        apply specs_determined_intel_cores
    | |- specs_determined (cpu_specs_intel_get_caches_info _ _ _) =>
        apply specs_determined_intel_caches
    | |- specs_determined (cpu_specs_intel_get_instructions _ _) =>
        apply specs_determined_intel_instructions
    end).
Qed.

(* ===================================================================== *)
(** ** The two singletons are filled independently *)

Lemma keeps_identity_ret {A : Type} (x : A) : keeps_identity (ret x).
Proof. intros m y m' H. apply Ok_inj in H. subst m'. reflexivity. Qed.

Lemma keeps_identity_raise {A : Type} (f : fault) : keeps_identity (@raise A f).
Proof. intros m y m' H. discriminate H. Qed.

Lemma keeps_identity_bind {A B : Type} (c : M A) (k : A -> M B) :
  keeps_identity c -> (forall x, keeps_identity (k x)) -> keeps_identity (bind c k).
Proof.
  intros Hc Hk m y m' H.
  apply bind_inv in H. destruct H as (x & m1 & H1 & H2).
  rewrite (Hk x _ _ _ H2). apply (Hc _ _ _ H1).
Qed.

Lemma keeps_identity_cpuidex (hw : hardware) (func sub_func : Z) :
  keeps_identity (__cpuidex hw func sub_func).
Proof. intros m y m' H. apply Ok_inj in H. subst m'. reflexivity. Qed.

Lemma keeps_identity_read {A : Type} (f : struct_cpu_specs -> A) :
  keeps_identity (read_specs f).
Proof. intros m y m' H. apply Ok_inj in H. subst m'. reflexivity. Qed.

Lemma keeps_identity_write (f : struct_cpu_specs -> struct_cpu_specs) :
  keeps_identity (write_specs f).
Proof. intros m y m' H. apply Ok_inj in H. subst m'. reflexivity. Qed.

Lemma keeps_identity_sdiv (x y : Z) : keeps_identity (sdiv x y).
Proof.
  unfold sdiv. destruct (y =? 0);
    [apply keeps_identity_raise | apply keeps_identity_ret].
Qed.

Lemma keeps_identity_level (i : Z) : keeps_identity (cache_level_spec_at i).
Proof.
  unfold cache_level_spec_at. destruct (cache_level_of_index i);
    [apply keeps_identity_ret | apply keeps_identity_raise].
Qed.

Lemma keeps_identity_probe (hw : hardware) : keeps_identity (cpuid_is_available hw).
Proof.
  intros m y m' H. rewrite cpuid_is_available_run in H.
  apply Ok_inj in H. subst m'. reflexivity.
Qed.

Ltac keeps_identity_step known :=
  lazymatch goal with
  | |- keeps_identity (ret _) => apply keeps_identity_ret
  | |- keeps_identity (raise _) => apply keeps_identity_raise
  | |- keeps_identity (__cpuidex _ _ _) => apply keeps_identity_cpuidex
  | |- keeps_identity (read_specs _) => apply keeps_identity_read
  | |- keeps_identity (write_specs _) => apply keeps_identity_write
  | |- keeps_identity (sdiv _ _) => apply keeps_identity_sdiv
  | |- keeps_identity (cache_level_spec_at _) => apply keeps_identity_level
  | |- keeps_identity (cpuid_is_available _) => apply keeps_identity_probe
  | |- keeps_identity (bind _ _) => apply keeps_identity_bind; [| intros ?]
  | |- keeps_identity (if ?c then _ else _) => destruct c
  | |- keeps_identity (let _ := _ in _) => cbv zeta
  | |- keeps_identity _ => known
  end.

Ltac keeps_identity_auto known := repeat keeps_identity_step known.

Lemma keeps_identity_amd_loop (hw : hardware) (fuel : nat) :
  forall subfunc o, keeps_identity (amd_caches_loop hw fuel subfunc o).
Proof.
  induction fuel as [| fuel IH]; intros subfunc o; cbn [amd_caches_loop];
    keeps_identity_auto ltac:(first [apply IH | unfold amd_cache_descriptor]).
Qed.

Lemma keeps_identity_intel_loop (hw : hardware) (fuel : nat) :
  forall subfunc o, keeps_identity (intel_caches_loop hw fuel subfunc o).
Proof.
  induction fuel as [| fuel IH]; intros subfunc o; cbn [intel_caches_loop];
    keeps_identity_auto ltac:(first [apply IH | unfold intel_cache_descriptor]).
Qed.

Lemma keeps_identity_init (hw : hardware) (fuel : nat) :
  keeps_identity (cpu_specs_init hw fuel).
Proof.
  unfold cpu_specs_init.
  keeps_identity_auto ltac:(idtac; lazymatch goal with
    | |- keeps_identity (amd_caches_loop _ _ _ _) => apply keeps_identity_amd_loop
    | |- keeps_identity (intel_caches_loop _ _ _ _) => apply keeps_identity_intel_loop
    | |- keeps_identity (cpu_specs_get_common_instructions _ _) =>
        unfold cpu_specs_get_common_instructions
    | |- keeps_identity (cpu_specs_amd_get_cores_info _ _) =>
        unfold cpu_specs_amd_get_cores_info
    | |- keeps_identity (cpu_specs_amd_get_caches_info _ _ _) =>
        unfold cpu_specs_amd_get_caches_info
    | |- keeps_identity (cpu_specs_amd_get_instructions _ _) =>
        unfold cpu_specs_amd_get_instructions
    | |- keeps_identity (cpu_specs_intel_get_cores_info _ _) =>
        unfold cpu_specs_intel_get_cores_info
    | |- keeps_identity (cpu_specs_intel_get_caches_info _ _ _) =>
        unfold cpu_specs_intel_get_caches_info
    | |- keeps_identity (cpu_specs_intel_get_instructions _ _) =>
        unfold cpu_specs_intel_get_instructions
    end).
Qed.

(** [cpu_identity_init] returns from every machine, keeps [cpu_specs], and
    what it leaves in [cpu_identity] depends on the processor and on the
    previous [cpu_identity] only. *)
Lemma cpu_identity_init_frame (hw : hardware) (m : machine) :
  exists m',
    cpu_identity_init hw m = Ok tt m'
    /\ cpu_specs m' = cpu_specs m
    /\ forall b, cpu_identity b = cpu_identity m ->
         exists b', cpu_identity_init hw b = Ok tt b'
                    /\ cpu_specs b' = cpu_specs b
                    /\ cpu_identity b' = cpu_identity m'.
Proof.
  destruct (hw_id_flag_changeable hw) eqn:Hhw.
  - destruct (cpu_identity_init_available hw m Hhw)
      as (m' & Hrun & Hspecs & Hf & Hm & Hs & Hman & Hn).
    exists m'. split; [exact Hrun |]. split; [exact Hspecs |].
    intros b Hb.
    destruct (cpu_identity_init_available hw b Hhw)
      as (b' & Hrunb & Hspecsb & Hfb & Hmb & Hsb & Hmanb & Hnb).
    exists b'. split; [exact Hrunb |]. split; [exact Hspecsb |].
    apply cpu_identity_ext; try congruence.
    rewrite Hnb, Hn, Hb. reflexivity.
  - exists (set_eflags (eflags_after_probe hw (eflags m)) m).
    split; [apply (cpu_identity_init_unavailable hw m Hhw) |].
    split; [reflexivity |].
    intros b Hb. eexists.
    split; [apply (cpu_identity_init_unavailable hw b Hhw) |].
    split; [reflexivity | exact Hb].
Qed.

(** X1.  A detection pass that returns has not written to [cpu_identity]. *)
Theorem cpu_specs_init_keeps_identity
  (hw : hardware) (fuel : nat) (m m' : machine) :
  cpu_specs_init hw fuel m = Ok tt m' ->
  cpu_identity m' = cpu_identity m.
Proof. apply keeps_identity_init. Qed.

Lemma cpu_specs_init_keeps_identity_witness :
  exists m',
    cpu_specs_init sample_intel_hw 8 (boot ISA_x64 0) = Ok tt m'
    /\ cpu_identity m' = cpu_identity (boot ISA_x64 0).
Proof.
  eexists. split; [vm_compute; reflexivity |].
  apply (cpu_specs_init_keeps_identity sample_intel_hw 8 (boot ISA_x64 0)).
  vm_compute. reflexivity.
Defined.

(** X2.  [cpu_identity_init] returns from every machine and has not written to
    [cpu_specs]. *)
Theorem cpu_identity_init_keeps_specs (hw : hardware) (m : machine) :
  exists m', cpu_identity_init hw m = Ok tt m' /\ cpu_specs m' = cpu_specs m.
Proof.
  destruct (cpu_identity_init_frame hw m) as (m' & Hrun & Hspecs & _).
  exists m'. split; assumption.
Qed.

(** X3.  The two entry points can be called in either order: both orders stop
    on the same fault, or return with the same [cpu_specs] and the same
    [cpu_identity]. *)
Theorem detection_order_irrelevant (hw : hardware) (fuel : nat) (m : machine) :
  match (cpu_specs_init hw fuel ;; cpu_identity_init hw) m,
        (cpu_identity_init hw ;; cpu_specs_init hw fuel) m with
  | Ok _ a, Ok _ b => cpu_specs a = cpu_specs b /\ cpu_identity a = cpu_identity b
  | Fault f, Fault g => f = g
  | _, _ => False
  end.
Proof.
  destruct (cpu_identity_init_frame hw m) as (m1 & Hid & Hspecs1 & Hdet).
  pose proof (specs_determined_init hw fuel m m1 (eq_sym Hspecs1)) as Hagree.
  rewrite (bind_ok _ _ _ _ _ Hid).
  unfold results_agree in Hagree.
  destruct (cpu_specs_init hw fuel m) as [[] a | f] eqn:Hrun;
    [rewrite (bind_ok _ _ _ _ _ Hrun) | rewrite (bind_fault _ _ _ _ Hrun)];
    destruct (cpu_specs_init hw fuel m1) as [[] b | g] eqn:Hrun1;
    try contradiction; [| exact Hagree].
  destruct Hagree as [_ Hab].
  destruct (Hdet a (keeps_identity_init hw fuel _ _ _ Hrun)) as (a' & Hida & Hsa & Hia).
  rewrite Hida. split.
  - rewrite Hsa. exact Hab.
  - rewrite Hia. symmetry. apply (keeps_identity_init hw fuel _ _ _ Hrun1).
Qed.

(* ===================================================================== *)
(** ** What the identity fields can hold *)

Lemma lor_nibbles_range (x y : Z) :
  0 <= Z.lor (Z.land x 0xF) (Z.land y 0xF0) <= 255.
Proof.
  assert (H : Z.lor (Z.land x 0xF) (Z.land y 0xF0)
              = Z.land (Z.lor (Z.land x 0xF) (Z.land y 0xF0)) (Z.ones 8)).
  { apply Z.bits_inj'. intros n Hn.
    rewrite Z.land_spec, Z.lor_spec, !Z.land_spec.
    destruct (Z_lt_le_dec n 8) as [Hlow | Hhigh].
    - rewrite Z.ones_spec_low by lia. rewrite andb_true_r. reflexivity.
    - rewrite Z.ones_spec_high by lia. rewrite andb_false_r.
      change 15 with (Z.ones 4). change 240 with (Z.shiftl (Z.ones 4) 4).
      rewrite Z.ones_spec_high by lia.
      rewrite Z.shiftl_spec by lia. rewrite Z.ones_spec_high by lia.
      rewrite !andb_false_r. reflexivity. }
  rewrite H.
  pose proof (land_mask_range (Z.lor (Z.land x 15) (Z.land y 240)) 8 ltac:(lia)) as Hr.
  change (2 ^ 8) with 256 in Hr. lia.
Qed.

(** X4.  On a processor with CPUID, [cpu_identity_init] leaves a stepping of 4
    bits and a model of 8 bits; the family is the 4-bit field, or 0xF plus
    an 8-bit field: at most 270, one bit more than the 8 bits the header
    announces. *)
Theorem identity_field_ranges (hw : hardware) (m m' : machine) :
  hw_id_flag_changeable hw = true ->
  cpu_identity_init hw m = Ok tt m' ->
  0 <= stepping (cpu_identity m') <= 15
  /\ 0 <= model (cpu_identity m') <= 255
  /\ 0 <= family (cpu_identity m') <= 270
  /\ (family (cpu_identity m') < 15
      \/ 15 <= family (cpu_identity m')
         /\ family (cpu_identity m') - 15
            = bit_field 20 8 (cpuid_result hw 0x1 0x0 EAX)).
Proof.
  intros Hhw Hrun.
  destruct (cpu_identity_init_available hw m Hhw)
    as (m1 & Hrun1 & _ & Hf & Hm & Hs & _ & _).
  rewrite Hrun in Hrun1. apply Ok_inj in Hrun1. subst m1.
  set (fms := cpuid_result hw 1 0 EAX) in *.
  pose proof (land_mask_range fms 4 ltac:(lia)) as Hs4.
  pose proof (land_mask_range (Z.shiftr fms 4) 4 ltac:(lia)) as Hm4.
  pose proof (land_mask_range (Z.shiftr fms 8) 4 ltac:(lia)) as Hf4.
  pose proof (land_mask_range (Z.shiftr fms 20) 8 ltac:(lia)) as Hf8.
  pose proof (lor_nibbles_range (Z.shiftr fms 4) (Z.shiftr fms 12)) as Hm8.
  change (Z.ones 4) with 15 in *. change (Z.ones 8) with 255 in *.
  change (2 ^ 4) with 16 in *. change (2 ^ 8) with 256 in *.
  rewrite Hs, Hm, Hf. unfold bit_field. change (Z.ones 8) with 255.
  fold fms.
  split; [lia |]. split.
  - destruct (_ || _); lia.
  - destruct (Z.eqb_spec (Z.land (Z.shiftr fms 8) 15) 15);
      (split; [lia |]); [right | left]; lia.
Qed.

Lemma identity_field_ranges_witness :
  exists m',
    cpu_identity_init sample_amd_hw (boot ISA_x64 0) = Ok tt m'
    /\ 0 <= stepping (cpu_identity m') <= 15
    /\ 0 <= model (cpu_identity m') <= 255
    /\ 0 <= family (cpu_identity m') <= 270
    /\ (family (cpu_identity m') < 15
        \/ 15 <= family (cpu_identity m')
           /\ family (cpu_identity m') - 15
              = bit_field 20 8 (cpuid_result sample_amd_hw 0x1 0x0 EAX)).
Proof.
  eexists. split; [vm_compute; reflexivity |].
  apply (identity_field_ranges sample_amd_hw (boot ISA_x64 0));
    [reflexivity | vm_compute; reflexivity].
Defined.

(** The largest family: base field 0xF and extended field 0xFF. *)
Example family_above_eight_bits :
  exists m',
    cpu_identity_init
      (mk_hardware (fun func _ => if func =? 0x1 then regs 0x0FF00F00 0 0 0
                                  else regs 0 0 0 0) true)
      (boot ISA_x64 0) = Ok tt m'
    /\ family (cpu_identity m') = 270.
Proof. eexists. split; [vm_compute; reflexivity | reflexivity]. Qed.

(* ===================================================================== *)
(** ** The processor name *)

Lemma load_s32_at (p : list byte) (w : Z) (t : list byte) :
  Bytes.load_s32 (List.length p) (p ++ Bytes.le_bytes w ++ t) = Int32.to_s32 w.
Proof.
  unfold Bytes.load_s32.
  rewrite skipn_app, skipn_all, Nat.sub_diag. cbn [app skipn].
  change (firstn 4 (Bytes.le_bytes w ++ t)) with (Bytes.le_bytes w).
  rewrite le_word_le_bytes. apply to_s32_to_u32.
Qed.

Lemma load_s32_of_cpuid_out (p : list byte) (o : cpuid_out_t) (t : list byte)
  (r : cpuid_output_register) :
  Bytes.load_s32 (List.length p + 4 * register_index r) (p ++ Bytes.of_cpuid_out o ++ t)
  = Int32.to_s32 (o r).
Proof.
  unfold Bytes.of_cpuid_out. rewrite <- !app_assoc.
  destruct r; cbn [register_index Nat.mul Nat.add].
  - rewrite Nat.add_0_r. apply load_s32_at.
  - rewrite (app_assoc p).
    replace (List.length p + 4)%nat with (List.length (p ++ Bytes.le_bytes (o EAX)))
      by (rewrite length_app; reflexivity).
    apply load_s32_at.
  - rewrite (app_assoc p), (app_assoc (p ++ _)).
    replace (List.length p + 8)%nat
      with (List.length ((p ++ Bytes.le_bytes (o EAX)) ++ Bytes.le_bytes (o EBX)))
      by (rewrite !length_app; cbn [List.length Bytes.le_bytes]; lia).
    apply load_s32_at.
  - rewrite (app_assoc p), (app_assoc (p ++ _)), (app_assoc ((p ++ _) ++ _)).
    replace (List.length p + 12)%nat
      with (List.length (((p ++ Bytes.le_bytes (o EAX)) ++ Bytes.le_bytes (o EBX))
                           ++ Bytes.le_bytes (o ECX)))
      by (rewrite !length_app; cbn [List.length Bytes.le_bytes]; lia).
    apply load_s32_at.
Qed.

(** X5.  The name buffer after [cpu_identity_init] on a processor with CPUID.
    When function 0x80000000 reports 0x80000004 or more, the 48 bytes of
    the buffer are the registers of functions 0x80000002, 0x80000003 and
    0x80000004, each function filling 16 bytes with EAX, EBX, ECX, EDX in
    this order: every register reads back as an [s32] from its place.  The
    buffer is filled to its last byte and nothing is written behind it.
    With a smaller maximum the buffer is not written at all. *)
Theorem name_holds_the_brand_registers (hw : hardware) (m m' : machine) :
  hw_id_flag_changeable hw = true ->
  cpu_identity_init hw m = Ok tt m' ->
  List.length (name (cpu_identity m)) = 48%nat ->
  let max_extended := Int32.to_u32 (cpuid_result hw 0x80000000 0x0 EAX) in
  List.length (name (cpu_identity m')) = 48%nat
  /\ (max_extended < 0x80000004 -> name (cpu_identity m') = name (cpu_identity m))
  /\ (0x80000004 <= max_extended ->
      forall (i : nat) (r : cpuid_output_register),
        (i < 3)%nat ->
        Bytes.load_s32 (16 * i + 4 * register_index r) (name (cpu_identity m'))
        = cpuid_result hw (0x80000002 + Z.of_nat i) 0x0 r).
Proof.
  intros Hhw Hrun Hlen max_extended.
  destruct (cpu_identity_init_available hw m Hhw)
    as (m1 & Hrun1 & _ & _ & _ & _ & _ & Hn).
  rewrite Hrun in Hrun1. apply Ok_inj in Hrun1. subst m1.
  fold max_extended in Hn.
  destruct (Z.geb_spec max_extended 0x80000004) as [Hge | Hlt].
  - rewrite Hn. split; [| split].
    + rewrite !length_app, !of_cpuid_out_length, length_skipn, Hlen. reflexivity.
    + intros Hsmall. lia.
    + intros _ i r Hi.
      rewrite <- (to_s32_cpuid_result hw (0x80000002 + Z.of_nat i) 0 r).
      assert (Hcases : i = 0%nat \/ i = 1%nat \/ i = 2%nat) by lia.
      destruct Hcases as [-> | [-> | ->]].
      * apply (load_s32_of_cpuid_out [] (cpuid_result hw 0x80000002 0)).
      * apply (load_s32_of_cpuid_out (Bytes.of_cpuid_out (cpuid_result hw 0x80000002 0))
                 (cpuid_result hw 0x80000003 0)).
      * rewrite (app_assoc (Bytes.of_cpuid_out (cpuid_result hw 0x80000002 0))).
        apply (load_s32_of_cpuid_out
                 (Bytes.of_cpuid_out (cpuid_result hw 0x80000002 0)
                  ++ Bytes.of_cpuid_out (cpuid_result hw 0x80000003 0))
                 (cpuid_result hw 0x80000004 0)).
  - rewrite Hn. split; [exact Hlen |]. split; [reflexivity |].
    intros Hbig. lia.
Qed.

Lemma name_holds_the_brand_registers_witness :
  exists m',
    cpu_identity_init sample_intel_hw (boot ISA_x64 0) = Ok tt m'
    /\ let max_extended :=
         Int32.to_u32 (cpuid_result sample_intel_hw 0x80000000 0x0 EAX) in
       List.length (name (cpu_identity m')) = 48%nat
       /\ (max_extended < 0x80000004 ->
           name (cpu_identity m') = name (cpu_identity (boot ISA_x64 0)))
       /\ (0x80000004 <= max_extended ->
           forall (i : nat) (r : cpuid_output_register),
             (i < 3)%nat ->
             Bytes.load_s32 (16 * i + 4 * register_index r) (name (cpu_identity m'))
             = cpuid_result sample_intel_hw (0x80000002 + Z.of_nat i) 0x0 r).
Proof.
  eexists. split; [vm_compute; reflexivity |].
  apply (name_holds_the_brand_registers sample_intel_hw (boot ISA_x64 0));
    [reflexivity | vm_compute; reflexivity | reflexivity].
Defined.

(* ===================================================================== *)
(** ** The flag word after a detection pass *)

Lemma apply_rules_bits (rules : list decode_rule) :
  Forall rule_bit_ok rules ->
  forall x j,
    Z.testbit (apply_rules rules x) j
    = match decided_by rules j with
      | Some b => b
      | None => Z.testbit x j
      end.
Proof.
  induction 1 as [| [[flags flag_bit] feature] rules Hrule _ IH]; intros x j.
  - reflexivity.
  - change (apply_rules ((flags, flag_bit, feature) :: rules) x)
      with (apply_rules rules (update_inst_availability x flags flag_bit feature)).
    rewrite IH. cbn [decided_by].
    destruct (decided_by rules j); [reflexivity |].
    rewrite update_inst_availability_bits by exact Hrule.
    rewrite flag_mask_testbit. destruct (j =? flag_pos feature); reflexivity.
Qed.

Lemma decided_by_none (rules : list decode_rule) (j : Z) :
  (forall f : cpu_instruction, j <> flag_pos f) -> decided_by rules j = None.
Proof.
  intros Hj. induction rules as [| [[flags flag_bit] feature] rules IH].
  - reflexivity.
  - cbn [decided_by]. rewrite IH.
    destruct (Z.eqb_spec j (flag_pos feature)) as [Heq | _]; [| reflexivity].
    exfalso. apply (Hj feature). exact Heq.
Qed.

Lemma pass_rules_ok (hw : hardware) : Forall rule_bit_ok (pass_rules hw).
Proof.
  unfold pass_rules. cbv zeta. rewrite Forall_app.
  split; [apply common_rules_ok |].
  destruct (_ =? CPU_MANUFACTURER_AMD); [apply amd_rules_ok |].
  destruct (_ =? CPU_MANUFACTURER_INTEL); [apply intel_rules_ok | constructor].
Qed.

(** The three stages of a vendor's decoder: only the last one writes the
    flag word. *)
Lemma vendor_stages_instructions (cores caches instr : M unit) (rules : list decode_rule)
  (m m' : machine) :
  cores_stage cores -> caches_stage caches ->
  (forall a, exists a',
      instr a = Ok tt a'
      /\ cpu_specs a'
         = set_instructions (apply_rules rules (instructions (cpu_specs a))) (cpu_specs a)) ->
  (cores ;; caches ;; instr) m = Ok tt m' ->
  instructions (cpu_specs m') = apply_rules rules (instructions (cpu_specs m)).
Proof.
  intros Hcores Hcaches Hinstr Hrun.
  apply bind_inv in Hrun. destruct Hrun as ([] & a1 & Hrun1 & Hrun).
  apply bind_inv in Hrun. destruct Hrun as ([] & a2 & Hrun2 & Hrun).
  destruct (Hcores m a1 m Hrun1) as ((_ & _ & Hi1) & _).
  destruct (Hcaches a1 a2 a1 Hrun2 eq_refl eq_refl) as ((_ & _ & Hi2) & _).
  destruct (Hinstr a2) as (a3 & Hrun3 & Hspecs).
  rewrite Hrun3 in Hrun. apply Ok_inj in Hrun. subst a3.
  rewrite Hspecs. cbn [instructions set_instructions]. congruence.
Qed.

Lemma instructions_run_any (hw : hardware) (ctx : cpuid_ctx) :
  (forall a, exists a',
      cpu_specs_amd_get_instructions hw ctx a = Ok tt a'
      /\ cpu_specs a'
         = set_instructions (apply_rules (amd_rules hw ctx) (instructions (cpu_specs a)))
             (cpu_specs a))
  /\ (forall a, exists a',
         cpu_specs_intel_get_instructions hw ctx a = Ok tt a'
         /\ cpu_specs a'
            = set_instructions (apply_rules (intel_rules hw ctx) (instructions (cpu_specs a)))
                (cpu_specs a)).
Proof.
  split; intros a.
  - destruct (amd_instructions_run hw ctx a) as (a' & Hrun & Hspecs & _).
    exists a'. split; assumption.
  - destruct (intel_instructions_run hw ctx a) as (a' & Hrun & Hspecs & _).
    exists a'. split; assumption.
Qed.

(** A detection pass that returns has applied [pass_rules] to the flag
    word. *)
Lemma pass_instructions (hw : hardware) (fuel : nat) (m m' : machine) :
  hw_id_flag_changeable hw = true ->
  cpu_specs_init hw fuel m = Ok tt m' ->
  instructions (cpu_specs m') = apply_rules (pass_rules hw) (instructions (cpu_specs m)).
Proof.
  intros Hhw Hrun.
  rewrite (cpu_specs_init_available hw fuel m Hhw) in Hrun.
  match type of Hrun with bind _ _ ?p = _ =>
    destruct (common_instructions_run hw (detected_ctx hw) p) as (a1 & Hrun1 & Hspecs1 & _)
  end.
  rewrite (bind_ok _ _ _ _ _ Hrun1), bind_cpuidex in Hrun.
  cbn [cpu_specs log_query set_eflags] in Hspecs1.
  unfold pass_rules. cbv zeta. rewrite apply_rules_app.
  assert (Ha : instructions (cpu_specs (log_query (Int32.to_u32 0, Int32.to_u32 0) a1))
               = apply_rules (common_rules hw (detected_ctx hw)) (instructions (cpu_specs m))).
  { cbn [cpu_specs log_query]. rewrite Hspecs1. reflexivity. }
  destruct (instructions_run_any hw (detected_ctx hw)) as [Hamd Hintel].
  destruct (cpuid_result hw 0 0 ECX =? CPU_MANUFACTURER_AMD);
    [| destruct (cpuid_result hw 0 0 ECX =? CPU_MANUFACTURER_INTEL)].
  - rewrite <- Ha.
    apply (vendor_stages_instructions _ _ _ _ _ _
             (cores_stage_amd hw _) (caches_stage_amd hw fuel _) Hamd Hrun).
  - rewrite <- Ha.
    apply (vendor_stages_instructions _ _ _ _ _ _
             (cores_stage_intel hw _) (caches_stage_intel hw fuel _) Hintel Hrun).
  - apply Ok_inj in Hrun. subst m'. exact Ha.
Qed.

Lemma pass_rules_table (hw : hardware) (f : cpu_instruction) :
  decided_by (pass_rules hw) (flag_pos f) = detected_flag hw f.
Proof.
  unfold pass_rules, detected_flag, common_rules, amd_rules, intel_rules,
    leaf1_rules, leaf7_rules.
  cbv zeta.
  destruct (max_standard_func (detected_ctx hw) >=? 7);
    destruct (max_extended_func (detected_ctx hw) >=? 2147483649);
    destruct (cpuid_result hw 0 0 ECX =? CPU_MANUFACTURER_AMD);
    destruct (cpuid_result hw 0 0 ECX =? CPU_MANUFACTURER_INTEL);
    destruct (max_standard_func (detected_ctx hw) >=? 11);
    destruct (max_extended_func (detected_ctx hw) >=? 11);
    cbn [app andb];
    destruct f; cbn [decided_by flag_pos Z.eqb Pos.eqb];
    rewrite ?Z.b2z_bit0; reflexivity.
Qed.

(** X6.  The flag word after a detection pass that returns, on a processor with
    CPUID.  Each flag the decoders decide on this processor carries the
    value they probe for it -- the table [detected_flag] -- whatever the
    rules applied before and after; a flag they do not decide, and every
    bit of the word that is no flag, keeps the value it had before the
    pass. *)
Theorem flags_after_detection (hw : hardware) (fuel : nat) (m m' : machine) :
  hw_id_flag_changeable hw = true ->
  cpu_specs_init hw fuel m = Ok tt m' ->
  (forall f : cpu_instruction,
      Z.testbit (instructions (cpu_specs m')) (flag_pos f)
      = match detected_flag hw f with
        | Some b => b
        | None => Z.testbit (instructions (cpu_specs m)) (flag_pos f)
        end)
  /\ (forall j, (forall f : cpu_instruction, j <> flag_pos f) ->
                Z.testbit (instructions (cpu_specs m')) j
                = Z.testbit (instructions (cpu_specs m)) j).
Proof.
  intros Hhw Hrun.
  rewrite (pass_instructions hw fuel m m' Hhw Hrun).
  split.
  - intros f. rewrite (apply_rules_bits _ (pass_rules_ok hw)), pass_rules_table.
    reflexivity.
  - intros j Hj. rewrite (apply_rules_bits _ (pass_rules_ok hw)), decided_by_none by exact Hj.
    reflexivity.
Qed.

Lemma flags_after_detection_witness :
  exists m',
    cpu_specs_init sample_amd_hw 8 (boot ISA_x64 0) = Ok tt m'
    /\ (forall f : cpu_instruction,
           Z.testbit (instructions (cpu_specs m')) (flag_pos f)
           = match detected_flag sample_amd_hw f with
             | Some b => b
             | None => Z.testbit (instructions (cpu_specs (boot ISA_x64 0))) (flag_pos f)
             end)
    /\ (forall j, (forall f : cpu_instruction, j <> flag_pos f) ->
                  Z.testbit (instructions (cpu_specs m')) j
                  = Z.testbit (instructions (cpu_specs (boot ISA_x64 0))) j).
Proof.
  eexists. split; [vm_compute; reflexivity |].
  apply (flags_after_detection sample_amd_hw 8 (boot ISA_x64 0));
    [reflexivity | vm_compute; reflexivity].
Defined.

(* ===================================================================== *)
(** ** The two revisions of the detection pass *)

Lemma or_rules_bits (rules : list decode_rule) :
  Forall rule_bit_ok rules ->
  forall x j,
    Z.testbit (or_rules rules x) j = (Z.testbit x j || raised_by rules j)%bool.
Proof.
  induction 1 as [| [[flags flag_bit] feature] rules Hrule _ IH]; intros x j.
  - cbn. rewrite orb_false_r. reflexivity.
  - change (or_rules ((flags, flag_bit, feature) :: rules) x)
      with (or_rules rules
              (Z.lor x (Int32.mul (Z.land (Z.shiftr flags flag_bit) 1) feature))).
    rewrite IH, or_flag_bits by exact Hrule.
    cbn [raised_by existsb]. rewrite orb_assoc. reflexivity.
Qed.

Lemma raised_by_targets (rules : list decode_rule) (j : Z) :
  ~ In j (rule_targets rules) -> raised_by rules j = false /\ decided_by rules j = None.
Proof.
  induction rules as [| [[flags flag_bit] feature] rules IH]; intros Hj.
  - split; reflexivity.
  - cbn [rule_targets map snd In] in Hj.
    destruct IH as [Hr Hd]; [intros Hin; apply Hj; right; exact Hin |].
    cbn [raised_by existsb decided_by]. fold (raised_by rules j). rewrite Hr, Hd.
    destruct (Z.eqb_spec j (flag_pos feature)) as [Heq | _].
    + exfalso. apply Hj. left. symmetry. exact Heq.
    + rewrite andb_false_r. split; reflexivity.
Qed.

Lemma decided_by_targets (rules : list decode_rule) (j : Z) :
  NoDup (rule_targets rules) -> In j (rule_targets rules) ->
  decided_by rules j = Some (raised_by rules j).
Proof.
  induction rules as [| [[flags flag_bit] feature] rules IH]; intros Hnd Hj.
  - contradiction.
  - cbn [rule_targets map snd] in Hnd, Hj. apply NoDup_cons_iff in Hnd.
    destruct Hnd as [Hfresh Hnd].
    cbn [raised_by existsb decided_by]. fold (raised_by rules j).
    destruct (Z.eqb_spec j (flag_pos feature)) as [Heq | Hne].
    + subst j. destruct (raised_by_targets rules _ Hfresh) as [-> ->].
      rewrite andb_true_r, orb_false_r. reflexivity.
    + destruct Hj as [Heq | Hj]; [exfalso; apply Hne; symmetry; exact Heq |].
      rewrite (IH Hnd Hj), andb_false_r. reflexivity.
Qed.

(** Setting-or-clearing and setting-only agree for a table with distinct
    flags when the flags the table writes are clear beforehand. *)
Lemma apply_rules_or_rules (rules : list decode_rule) (x y : Z) :
  Forall rule_bit_ok rules ->
  NoDup (rule_targets rules) ->
  (forall j, In j (rule_targets rules) -> Z.testbit y j = false) ->
  (forall j, ~ In j (rule_targets rules) -> Z.testbit x j = Z.testbit y j) ->
  apply_rules rules x = or_rules rules y.
Proof.
  intros Hok Hnd Hin Hout. apply Z.bits_inj. intros j.
  rewrite (apply_rules_bits rules Hok), (or_rules_bits rules Hok).
  destruct (in_dec Z.eq_dec j (rule_targets rules)) as [Hj | Hj].
  - rewrite (decided_by_targets rules j Hnd Hj), (Hin j Hj). reflexivity.
  - destruct (raised_by_targets rules j Hj) as [-> ->].
    rewrite orb_false_r. apply Hout. exact Hj.
Qed.

Lemma or_bool_is_rule (x : Z) (c : bool) (f : cpu_instruction) :
  Z.lor x (Int32.mul (Z.b2z c) f)
  = Z.lor x (Int32.mul (Z.land (Z.shiftr (Z.b2z c) 0) 1) f).
Proof. destruct c; reflexivity. Qed.

Lemma or_masked_is_rule (x w : Z) (f : cpu_instruction) :
  Z.lor x (Int32.mul (Z.shiftr (Z.land w (Z.shiftl 1 16)) 16) f)
  = Z.lor x (Int32.mul (Z.land (Z.shiftr w 16) 1) f).
Proof. rewrite Z.shiftr_land. reflexivity. Qed.

Ltac run_or_rules :=
  unfold Legacy.or_flag; run_prims;
  (eexists; split; [reflexivity |]);
  cbn [cpu_specs cpu_identity update_cpu_specs log_query instructions set_instructions];
  cbv beta iota zeta delta [or_rules or_rule leaf1_rules leaf7_rules app fold_left];
  rewrite <- ?or_bool_is_rule, <- ?or_masked_is_rule, ?set_instructions_same;
  reflexivity.

Lemma legacy_common_instructions_run (hw : hardware) (ctx : cpuid_ctx) (m : machine) :
  exists m',
    Legacy.cpu_specs_get_common_instructions hw ctx m = Ok tt m'
    /\ cpu_specs m'
       = set_instructions (or_rules (common_rules hw ctx) (instructions (cpu_specs m)))
           (cpu_specs m).
Proof.
  unfold Legacy.cpu_specs_get_common_instructions, common_rules.
  destruct (max_standard_func ctx >=? 7), (max_extended_func ctx >=? 2147483649);
    run_or_rules.
Qed.

Lemma legacy_amd_instructions_run (hw : hardware) (ctx : cpuid_ctx) (m : machine) :
  exists m',
    Legacy.cpu_specs_amd_get_instructions hw ctx m = Ok tt m'
    /\ cpu_specs m'
       = set_instructions (or_rules (amd_rules hw ctx) (instructions (cpu_specs m)))
           (cpu_specs m).
Proof.
  unfold Legacy.cpu_specs_amd_get_instructions, amd_rules.
  destruct (max_standard_func ctx >=? 11), (max_extended_func ctx >=? 11);
    run_or_rules.
Qed.

Lemma legacy_intel_instructions_run (hw : hardware) (ctx : cpuid_ctx) (m : machine) :
  exists m',
    Legacy.cpu_specs_intel_get_instructions hw ctx m = Ok tt m'
    /\ cpu_specs m'
       = set_instructions (or_rules (intel_rules hw ctx) (instructions (cpu_specs m)))
           (cpu_specs m).
Proof.
  unfold Legacy.cpu_specs_intel_get_instructions, intel_rules.
  destruct (max_standard_func ctx >=? 7); run_or_rules.
Qed.

Lemma legacy_set_defaults_run (m : machine) :
  Legacy.cpu_specs_set_defaults m
  = Ok tt (update_cpu_specs (fun _ => cpu_specs_initializer ISA_x86) m).
Proof. reflexivity. Qed.

Ltac targets_simpl :=
  cbv beta iota delta [rule_targets map snd fst flag_pos common_rules amd_rules intel_rules
                       leaf1_rules leaf7_rules app].

Lemma decoder_targets_distinct (hw : hardware) (ctx : cpuid_ctx) :
  NoDup (rule_targets (common_rules hw ctx))
  /\ NoDup (rule_targets (amd_rules hw ctx))
  /\ NoDup (rule_targets (intel_rules hw ctx)).
Proof.
  unfold common_rules, amd_rules, intel_rules.
  destruct (max_standard_func ctx >=? 7), (max_extended_func ctx >=? 2147483649),
    (max_standard_func ctx >=? 11), (max_extended_func ctx >=? 11);
    targets_simpl;
    repeat split;
    repeat (apply NoDup_cons; [cbn [In]; lia |]); apply NoDup_nil.
Qed.

(** The flags the vendor decoders write are not written by the common
    decoder, and each flag the static initializer sets is written by it. *)
Lemma decoder_targets (hw : hardware) (ctx : cpuid_ctx) (j : Z) :
  (In j (rule_targets (amd_rules hw ctx)) \/ In j (rule_targets (intel_rules hw ctx)) ->
   (j = flag_pos AVX512F \/ j = flag_pos TBM)
   /\ ~ In j (rule_targets (common_rules hw ctx)))
  /\ (j = flag_pos SSE1 \/ j = flag_pos SSE2 -> In j (rule_targets (common_rules hw ctx))).
Proof.
  unfold common_rules, amd_rules, intel_rules.
  destruct (max_standard_func ctx >=? 7), (max_extended_func ctx >=? 2147483649),
    (max_standard_func ctx >=? 11), (max_extended_func ctx >=? 11);
    targets_simpl; cbn [In]; lia.
Qed.

Lemma initializer_bits (isa : ISA) (j : Z) :
  Z.testbit (instructions (cpu_specs_initializer isa)) j = true ->
  j = flag_pos SSE1 \/ j = flag_pos SSE2.
Proof.
  destruct isa; cbn [instructions cpu_specs_initializer].
  - change (Z.lor SSE1 SSE2) with (Z.ones 2). intros Hbit.
    destruct (Z_lt_le_dec j 0) as [Hneg | Hpos];
      [rewrite Z.testbit_neg_r in Hbit by assumption; discriminate |].
    destruct (Z_lt_le_dec j 2) as [Hlow | Hhigh]; [cbn; lia |].
    rewrite Z.ones_spec_high in Hbit by lia. discriminate.
  - rewrite Z.bits_0. discriminate.
Qed.

(** From the static initializer the common decoder of either revision
    computes the same flag word. *)
Lemma common_flags_agree (hw : hardware) (ctx : cpuid_ctx) (isa : ISA) :
  apply_rules (common_rules hw ctx) (instructions (cpu_specs_initializer isa))
  = or_rules (common_rules hw ctx) 0.
Proof.
  destruct (decoder_targets_distinct hw ctx) as (Hnd & _ & _).
  apply apply_rules_or_rules; [apply common_rules_ok | exact Hnd | |].
  - intros j _. apply Z.bits_0.
  - intros j Hj. rewrite Z.bits_0.
    destruct (Z.testbit (instructions (cpu_specs_initializer isa)) j) eqn:Hbit;
      [| reflexivity].
    exfalso. apply Hj. apply (decoder_targets hw ctx j).
    apply (initializer_bits isa j Hbit).
Qed.

(** After the common decoder ran from the static initializer the flags of
    the vendor decoders are still clear. *)
Lemma vendor_flags_clear (hw : hardware) (ctx : cpuid_ctx) (isa : ISA) (j : Z) :
  In j (rule_targets (amd_rules hw ctx)) \/ In j (rule_targets (intel_rules hw ctx)) ->
  Z.testbit (apply_rules (common_rules hw ctx) (instructions (cpu_specs_initializer isa))) j
  = false.
Proof.
  intros Hj. destruct (proj1 (decoder_targets hw ctx j) Hj) as [Hflag Hout].
  rewrite (apply_rules_bits _ (common_rules_ok hw ctx)).
  destruct (raised_by_targets _ j Hout) as [_ ->].
  destruct (Z.testbit (instructions (cpu_specs_initializer isa)) j) eqn:Hbit;
    [| reflexivity].
  apply initializer_bits in Hbit. cbn in Hflag, Hbit. lia.
Qed.

Lemma results_agree_bind {A B : Type} (c : M A) (k k' : A -> M B) (a b : machine) :
  results_agree (c a) (c b) ->
  (forall x a' b',
      c a = Ok x a' -> c b = Ok x b' -> cpu_specs a' = cpu_specs b' ->
      results_agree (k x a') (k' x b')) ->
  results_agree (bind c k a) (bind c k' b).
Proof.
  intros Hc Hk. unfold bind. unfold results_agree in Hc.
  destruct (c a) as [x a' | f], (c b) as [y b' | g]; try contradiction.
  - destruct Hc as [<- Hab]. apply Hk; [reflexivity | reflexivity | exact Hab].
  - exact Hc.
Qed.

(** The three stages of a vendor's decoder in the two revisions, run from
    machines with the same [cpu_specs] in which the flags of the vendor's
    rules are clear. *)
Lemma vendor_stages_agree (cores caches instr instr' : M unit) (rules : list decode_rule)
  (a b : machine) :
  specs_determined cores -> specs_determined caches ->
  cores_stage cores -> caches_stage caches ->
  Forall rule_bit_ok rules -> NoDup (rule_targets rules) ->
  (forall m, exists m',
      instr m = Ok tt m'
      /\ cpu_specs m'
         = set_instructions (apply_rules rules (instructions (cpu_specs m))) (cpu_specs m)) ->
  (forall m, exists m',
      instr' m = Ok tt m'
      /\ cpu_specs m'
         = set_instructions (or_rules rules (instructions (cpu_specs m))) (cpu_specs m)) ->
  cpu_specs a = cpu_specs b ->
  (forall j, In j (rule_targets rules) -> Z.testbit (instructions (cpu_specs a)) j = false) ->
  results_agree ((cores ;; caches ;; instr) a) ((cores ;; caches ;; instr') b).
Proof.
  intros Hdc Hdk Hcores Hcaches Hok Hnd Hnew Hold Hab Hclear.
  apply results_agree_bind; [apply Hdc; exact Hab |].
  intros [] a1 b1 Hrun1 _ Hab1.
  apply results_agree_bind; [apply Hdk; exact Hab1 |].
  intros [] a2 b2 Hrun2 _ Hab2.
  destruct (Hcores a a1 a Hrun1) as ((_ & _ & Hi1) & _).
  destruct (Hcaches a1 a2 a1 Hrun2 eq_refl eq_refl) as ((_ & _ & Hi2) & _).
  destruct (Hnew a2) as (a3 & -> & Hspecs3).
  destruct (Hold b2) as (b3 & -> & Hspecs3').
  split; [reflexivity |].
  rewrite Hspecs3, Hspecs3', <- Hab2. f_equal.
  apply apply_rules_or_rules; [exact Hok | exact Hnd | | reflexivity].
  intros j Hj. rewrite Hi2, Hi1. apply Hclear. exact Hj.
Qed.

(** X7.  On a processor with CPUID, the first detection pass of the later
    revision -- started from the static initializer, in an ISA_x64 or an
    ISA_x86 build -- and a detection pass of the earlier revision, which
    resets [cpu_specs] itself, end the same way: both stop on the same
    fault, or both return with the same [cpu_specs]. *)
Theorem revisions_agree_on_cpu_specs
  (hw : hardware) (isa : ISA) (fuel : nat) (m l : machine) :
  hw_id_flag_changeable hw = true ->
  cpu_specs m = cpu_specs_initializer isa ->
  results_agree (cpu_specs_init hw fuel m) (Legacy.cpu_specs_init hw fuel l).
Proof.
  intros Hhw Hinit.
  rewrite (cpu_specs_init_available hw fuel m Hhw).
  unfold Legacy.cpu_specs_init.
  rewrite (bind_ok _ _ _ _ _ (legacy_cpuid_ctx_get_run hw l)).
  rewrite (bind_ok _ _ _ _ _ (legacy_set_defaults_run _)).
  set (ctx := detected_ctx hw).
  match goal with |- results_agree (bind _ _ ?p) _ =>
    destruct (common_instructions_run hw ctx p) as (a1 & Hrun1 & Hspecs1 & _)
  end.
  match goal with |- results_agree _ (bind _ _ ?p) =>
    destruct (legacy_common_instructions_run hw ctx p) as (b1 & Hrunb1 & Hspecsb1)
  end.
  rewrite (bind_ok _ _ _ _ _ Hrun1), (bind_ok _ _ _ _ _ Hrunb1), !bind_cpuidex.
  cbn [cpu_specs log_query set_eflags update_cpu_specs] in Hspecs1, Hspecsb1.
  rewrite Hinit in Hspecs1.
  assert (Hflags : instructions (cpu_specs a1)
                   = apply_rules (common_rules hw ctx)
                       (instructions (cpu_specs_initializer isa))).
  { rewrite Hspecs1. reflexivity. }
  assert (Hsame : cpu_specs a1 = cpu_specs b1).
  { rewrite Hspecs1, Hspecsb1. rewrite (common_flags_agree hw ctx isa).
    destruct isa; reflexivity. }
  set (q := (Int32.to_u32 0, Int32.to_u32 0)).
  destruct (decoder_targets_distinct hw ctx) as (_ & Hnd_amd & Hnd_intel).
  destruct (instructions_run_any hw ctx) as [Hamd Hintel].
  destruct (cpuid_result hw 0 0 ECX =? CPU_MANUFACTURER_AMD);
    [| destruct (cpuid_result hw 0 0 ECX =? CPU_MANUFACTURER_INTEL)].
  - apply (vendor_stages_agree _ _ _ _ (amd_rules hw ctx));
      [ apply specs_determined_amd_cores | apply specs_determined_amd_caches
      | apply cores_stage_amd | apply caches_stage_amd
      | apply amd_rules_ok | exact Hnd_amd | exact Hamd
      | apply legacy_amd_instructions_run | exact Hsame | ].
    intros j Hj. cbn [cpu_specs log_query]. rewrite Hflags.
    apply vendor_flags_clear. left. exact Hj.
  - apply (vendor_stages_agree _ _ _ _ (intel_rules hw ctx));
      [ apply specs_determined_intel_cores | apply specs_determined_intel_caches
      | apply cores_stage_intel | apply caches_stage_intel
      | apply intel_rules_ok | exact Hnd_intel | exact Hintel
      | apply legacy_intel_instructions_run | exact Hsame | ].
    intros j Hj. cbn [cpu_specs log_query]. rewrite Hflags.
    apply vendor_flags_clear. right. exact Hj.
  - split; [reflexivity | exact Hsame].
Qed.

Lemma revisions_agree_on_cpu_specs_witness :
  results_agree (cpu_specs_init sample_intel_hw 8 (boot ISA_x64 0))
    (Legacy.cpu_specs_init sample_intel_hw 8 (boot ISA_x86 0)).
Proof.
  apply (revisions_agree_on_cpu_specs sample_intel_hw ISA_x64 8
           (boot ISA_x64 0) (boot ISA_x86 0)); reflexivity.
Defined.

(* ===================================================================== *)
(** ** The identity in the earlier revision *)

(** What one call of the earlier [cpu_identity_init] leaves in
    [cpu_identity]: the fields and the manufacturer of the later revision,
    computed after [cpu_identity_set_defaults] zeroed byte 0 of the
    manufacturer and byte 11 of the name. *)
Lemma legacy_cpu_identity_init_run (hw : hardware) (m : machine) :
  let fms := cpuid_result hw 0x1 0x0 EAX in
  let base_family := Z.land (Z.shiftr fms 8) 0xF in
  let base_model := Z.land (Z.shiftr fms 4) 0xF in
  let extended_model := Z.land (Z.shiftr fms 12) 0xF0 in
  exists m',
    Legacy.cpu_identity_init hw m = Ok tt m'
    /\ cpu_specs m' = cpu_specs m
    /\ family (cpu_identity m')
       = (if base_family =? 0xF then 0xF + Z.land (Z.shiftr fms 20) 0xFF else base_family)
    /\ model (cpu_identity m')
       = (if (base_family =? 0xF)
             || ((cpuid_result hw 0x0 0x0 ECX =? CPU_MANUFACTURER_INTEL)
                 && (base_family =? 0x6))
          then Z.lor base_model extended_model else base_model)
    /\ stepping (cpu_identity m') = Z.land fms 0xF
    /\ manufacturer (cpu_identity m')
       = (Bytes.le_bytes (cpuid_result hw 0x0 0x0 EBX)
          ++ Bytes.le_bytes (cpuid_result hw 0x0 0x0 EDX)
          ++ Bytes.le_bytes (cpuid_result hw 0x0 0x0 ECX)
          ++ skipn 12 (Bytes.store 0 [x00] (manufacturer (cpu_identity m))))%list
    /\ name (cpu_identity m')
       = (if Int32.to_u32 (cpuid_result hw 0x80000000 0x0 EAX) >=? 0x80000004
          then (Bytes.of_cpuid_out (cpuid_result hw 0x80000002 0x0)
                ++ Bytes.of_cpuid_out (cpuid_result hw 0x80000003 0x0)
                ++ Bytes.of_cpuid_out (cpuid_result hw 0x80000004 0x0)
                ++ skipn 48 (Bytes.store 11 [x00] (name (cpu_identity m))))%list
          else Bytes.store 11 [x00] (name (cpu_identity m))).
Proof.
  intros fms bf bm em. unfold Legacy.cpu_identity_init, Legacy.cpu_identity_set_defaults.
  run_prims. fold fms. fold bf. fold bm. fold em. proj_simpl.
  pose proof (land_mask_range (Z.shiftr fms 20) 8 ltac:(lia)) as Hext.
  change (Z.ones 8) with 255 in Hext. change (2 ^ 8) with 256 in Hext.
  set (man := Bytes.store 0 [x00] (manufacturer (cpu_identity m))).
  set (nam := Bytes.store 11 [x00] (name (cpu_identity m))).
  destruct (bf =? 15) eqn:E15; cbv beta iota; proj_simpl;
    rewrite load_s32_stored, to_s32_cpuid_result.
  - apply Z.eqb_eq in E15. rewrite E15.
    assert (Hadd : Int32.add 15 (Z.land (Z.shiftr fms 20) 255)
                   = 15 + Z.land (Z.shiftr fms 20) 255).
    { apply to_s32_id. unfold Int32.in_s32, Int32.half_modulus. lia. }
    rewrite Hadd.
    replace (15 + Z.land (Z.shiftr fms 20) 255 =? 6) with false
      by (symmetry; apply Z.eqb_neq; lia).
    rewrite andb_false_r. cbv beta iota.
    destruct (Int32.to_u32 (cpuid_result hw 2147483648 0 EAX) >=? 2147483652);
      eexists; (split; [reflexivity |]); proj_simpl;
      rewrite (store_three 4 _ _ _ man) by reflexivity;
      rewrite ?(store_three 16 _ _ _ nam) by reflexivity;
      repeat split; exact Hadd.
  - cbn [orb].
    destruct ((cpuid_result hw 0 0 ECX =? CPU_MANUFACTURER_INTEL) && (bf =? 6));
      cbv beta iota;
      destruct (Int32.to_u32 (cpuid_result hw 2147483648 0 EAX) >=? 2147483652);
      eexists; (split; [reflexivity |]); proj_simpl;
      rewrite (store_three 4 _ _ _ man) by reflexivity;
      rewrite ?(store_three 16 _ _ _ nam) by reflexivity;
      repeat split.
Qed.

Lemma skipn_store (n off : nat) (bs buf : list byte) :
  (off + List.length bs <= n)%nat -> (off <= List.length buf)%nat ->
  skipn n (Bytes.store off bs buf) = skipn n buf.
Proof.
  intros Hn Hoff. unfold Bytes.store.
  rewrite skipn_app, length_firstn, Nat.min_l by exact Hoff.
  rewrite (skipn_all2 (firstn off buf)) by (rewrite length_firstn; lia).
  rewrite skipn_app.
  rewrite (skipn_all2 bs) by lia.
  cbn [app]. rewrite skipn_skipn. f_equal. lia.
Qed.

(** X8.  The two revisions of [cpu_identity_init] on a processor with CPUID,
    run from the same machine.  Family, model, stepping and manufacturer
    come out the same: what [cpu_identity_set_defaults] stores in them is
    overwritten.  The name is the same when function 0x80000000 reports
    0x80000004 or more; with a smaller maximum the later revision leaves
    the name as it was and the earlier one leaves it with byte 11 zeroed,
    the only byte of the name that [cpu_identity_set_defaults] writes. *)
Theorem identity_across_revisions (hw : hardware) (m : machine) :
  hw_id_flag_changeable hw = true ->
  List.length (name (cpu_identity m)) = 48%nat ->
  exists m' l',
    cpu_identity_init hw m = Ok tt m'
    /\ Legacy.cpu_identity_init hw m = Ok tt l'
    /\ family (cpu_identity l') = family (cpu_identity m')
    /\ model (cpu_identity l') = model (cpu_identity m')
    /\ stepping (cpu_identity l') = stepping (cpu_identity m')
    /\ manufacturer (cpu_identity l') = manufacturer (cpu_identity m')
    /\ name (cpu_identity l')
       = (if Int32.to_u32 (cpuid_result hw 0x80000000 0x0 EAX) >=? 0x80000004
          then name (cpu_identity m')
          else Bytes.store 11 [x00] (name (cpu_identity m))).
Proof.
  intros Hhw Hlen.
  destruct (cpu_identity_init_available hw m Hhw)
    as (m' & Hrun & _ & Hf & Hm & Hs & Hman & Hn).
  destruct (legacy_cpu_identity_init_run hw m)
    as (l' & Hrunl & _ & Hfl & Hml & Hsl & Hmanl & Hnl).
  exists m', l'. split; [exact Hrun |]. split; [exact Hrunl |].
  split; [congruence |]. split; [congruence |]. split; [congruence |].
  split.
  - rewrite Hmanl, Hman. do 3 f_equal.
    unfold Bytes.store. cbn [firstn app List.length Nat.add].
    change (skipn 12 (x00 :: skipn 1 (manufacturer (cpu_identity m))))
      with (skipn 11 (skipn 1 (manufacturer (cpu_identity m)))).
    rewrite skipn_skipn. reflexivity.
  - rewrite Hnl, Hn.
    destruct (Int32.to_u32 (cpuid_result hw 2147483648 0 EAX) >=? 2147483652);
      [| reflexivity].
    do 3 f_equal. apply skipn_store; [cbn; lia | lia].
Qed.

Lemma identity_across_revisions_witness :
  exists m' l',
    cpu_identity_init sample_unknown_hw (boot ISA_x64 0) = Ok tt m'
    /\ Legacy.cpu_identity_init sample_unknown_hw (boot ISA_x64 0) = Ok tt l'
    /\ family (cpu_identity l') = family (cpu_identity m')
    /\ model (cpu_identity l') = model (cpu_identity m')
    /\ stepping (cpu_identity l') = stepping (cpu_identity m')
    /\ manufacturer (cpu_identity l') = manufacturer (cpu_identity m')
    /\ name (cpu_identity l')
       = (if Int32.to_u32 (cpuid_result sample_unknown_hw 0x80000000 0x0 EAX)
             >=? 0x80000004
          then name (cpu_identity m')
          else Bytes.store 11 [x00] (name (cpu_identity (boot ISA_x64 0)))).
Proof.
  apply (identity_across_revisions sample_unknown_hw (boot ISA_x64 0)); reflexivity.
Defined.

(* ===================================================================== *)
(** ** Enumerating the caches *)

Lemma describes_index (l : cache_level) (cpuid_out : cpuid_out_t) :
  descriptor_qualifies cpuid_out = true ->
  (cache_level_of_index (descriptor_index cpuid_out) = Some l
   <-> descriptor_describes l cpuid_out = true).
Proof.
  intros Hq. unfold descriptor_describes. rewrite Hq. cbn [andb].
  rewrite cache_level_of_index_some, descriptor_index_eq, Z.eqb_eq. lia.
Qed.

Lemma describes_one_level (l l0 : cache_level) (cpuid_out : cpuid_out_t) :
  descriptor_describes l cpuid_out = true ->
  descriptor_describes l0 cpuid_out = true -> l = l0.
Proof.
  unfold descriptor_describes. rewrite !andb_true_iff, !Z.eqb_eq.
  intros [_ H] [_ H0]. destruct l, l0; cbn in H, H0; try reflexivity; lia.
Qed.

Lemma next_subfunc (i : nat) :
  Z.of_nat (S i) < 2 ^ 31 ->
  Int32.add (Z.of_nat i) 1 = Z.of_nat (S i)
  /\ Int32.to_u32 (Z.of_nat (S i)) = Z.of_nat (S i).
Proof.
  intros Hi. split.
  - unfold Int32.add. rewrite Nat2Z.inj_succ.
    apply to_s32_id. unfold Int32.in_s32, Int32.half_modulus. lia.
  - unfold Int32.to_u32, Int32.modulus. apply Z.mod_small. lia.
Qed.

(** The body of the Intel loop on a descriptor of a nonzero level, with a
    nonzero [threads_per_core]. *)
Lemma intel_body_run (cpuid_out : cpuid_out_t) (m : machine) :
  (descriptor_qualifies cpuid_out = true -> descriptor_level cpuid_out <> 0) ->
  threads_per_core (cpu_specs m) <> 0 ->
  exists m',
    (if truthy (Z.land (cpuid_out EAX) 1) then intel_cache_descriptor cpuid_out
     else ret tt) m = Ok tt m'
    /\ cpuid_queries m' = cpuid_queries m
    /\ same_topology (cpu_specs m) (cpu_specs m')
    /\ forall l,
        cache_get l (cache_level_specs (cpu_specs m'))
        = if descriptor_describes l cpuid_out
          then intel_descriptor_entry (cpu_specs m) cpuid_out
          else cache_get l (cache_level_specs (cpu_specs m)).
Proof.
  intros Hlevel Htpc.
  change (truthy (Z.land (cpuid_out EAX) 1)) with (descriptor_qualifies cpuid_out).
  destruct (descriptor_qualifies cpuid_out) eqn:Hq.
  - rewrite intel_cache_descriptor_run.
    destruct (cache_level_of_index (descriptor_index cpuid_out)) as [l0 |] eqn:Hl0.
    + apply Z.eqb_neq in Htpc. rewrite Htpc.
      eexists. split; [reflexivity |]. split; [reflexivity |].
      split; [repeat split |].
      intros l. specs_simpl.
      apply (describes_index l0 cpuid_out Hq) in Hl0.
      destruct (descriptor_describes l cpuid_out) eqn:Hl.
      * rewrite (describes_one_level _ _ _ Hl Hl0). apply cache_get_set_same.
      * rewrite cache_get_set_other; [reflexivity |].
        intros ->. congruence.
    + apply descriptor_index_none in Hl0. exfalso. apply (Hlevel eq_refl Hl0).
  - exists m. split; [reflexivity |]. split; [reflexivity |].
    split; [repeat split |].
    intros l. unfold descriptor_describes. rewrite Hq. reflexivity.
Qed.

Lemma intel_entry_same_topology (s s' : struct_cpu_specs) (cpuid_out : cpuid_out_t) :
  same_topology s s' ->
  intel_descriptor_entry s' cpuid_out = intel_descriptor_entry s cpuid_out.
Proof.
  intros (Hl & Ht & Hc & _). unfold intel_descriptor_entry. rewrite Hl, Ht, Hc.
  reflexivity.
Qed.

Lemma intel_loop_enumerates (hw : hardware) :
  forall (count first fuel : nat) (m : machine),
    (count <= fuel)%nat ->
    Z.of_nat (first + count) < 2 ^ 31 ->
    (forall i, (first <= i < first + count)%nat ->
               descriptor_valid (cpuid_result hw 0x4 (Z.of_nat i)) = true) ->
    descriptor_valid (cpuid_result hw 0x4 (Z.of_nat (first + count))) = false ->
    (forall i, (first <= i < first + count)%nat ->
               descriptor_qualifies (cpuid_result hw 0x4 (Z.of_nat i)) = true ->
               descriptor_level (cpuid_result hw 0x4 (Z.of_nat i)) <> 0) ->
    threads_per_core (cpu_specs m) <> 0 ->
    exists m',
      intel_caches_loop hw fuel (Z.of_nat first) (cpuid_result hw 0x4 (Z.of_nat first)) m
      = Ok tt m'
      /\ cpuid_queries m'
         = (cpuid_queries m ++ map (fun i => (0x4, Z.of_nat i)) (seq (S first) count))%list
      /\ same_topology (cpu_specs m) (cpu_specs m')
      /\ forall l,
          cache_get l (cache_level_specs (cpu_specs m'))
          = match last_descriptor l (descriptors hw 0x4 first count) with
            | Some cpuid_out => intel_descriptor_entry (cpu_specs m) cpuid_out
            | None => cache_get l (cache_level_specs (cpu_specs m))
            end.
Proof.
  induction count as [| count IH]; intros first fuel m Hfuel Hbound Hvalid Hend Hlevel Htpc.
  - rewrite Nat.add_0_r in Hend.
    exists m. split.
    + destruct fuel; cbn [intel_caches_loop];
        change (negb (Z.land (cpuid_result hw 4 (Z.of_nat first) EAX) 15 =? 0))
          with (descriptor_valid (cpuid_result hw 4 (Z.of_nat first)));
        rewrite Hend; reflexivity.
    + split; [cbn; rewrite app_nil_r; reflexivity |].
      split; [apply same_topology_refl | intros l; reflexivity].
  - destruct fuel as [| fuel]; [lia |].
    cbn [intel_caches_loop].
    change (negb (Z.land (cpuid_result hw 4 (Z.of_nat first) EAX) 15 =? 0))
      with (descriptor_valid (cpuid_result hw 4 (Z.of_nat first))).
    rewrite (Hvalid first) by lia. cbv beta iota.
    destruct (intel_body_run (cpuid_result hw 4 (Z.of_nat first)) m)
      as (m1 & Hrun1 & Hq1 & Htop1 & Hcache1);
      [apply Hlevel; lia | exact Htpc |].
    rewrite (bind_ok _ _ _ _ _ Hrun1). cbv zeta.
    destruct (next_subfunc first) as [Hnext Hu32]; [lia |].
    rewrite Hnext, bind_cpuidex, Hu32.
    change (Int32.to_u32 4) with 4.
    destruct (IH (S first) fuel (log_query (4, Z.of_nat (S first)) m1))
      as (m' & Hrun & Hq & Htop & Hcache).
    + lia.
    + rewrite Nat.add_succ_l, <- Nat.add_succ_r. exact Hbound.
    + intros i Hi. apply Hvalid. lia.
    + rewrite Nat.add_succ_l, <- Nat.add_succ_r. exact Hend.
    + intros i Hi. apply Hlevel. lia.
    + cbn [cpu_specs log_query]. destruct Htop1 as (_ & -> & _). exact Htpc.
    + exists m'. split; [exact Hrun |].
      cbn [cpu_specs cpuid_queries log_query] in Hq, Htop, Hcache.
      split; [| split].
      * rewrite Hq, Hq1, <- app_assoc. reflexivity.
      * apply (same_topology_trans _ _ _ Htop1 Htop).
      * intros l. rewrite Hcache. unfold descriptors. cbn [seq map last_descriptor].
        fold (descriptors hw 4 (S first) count).
        destruct (last_descriptor l (descriptors hw 4 (S first) count)) as [d |].
        -- apply intel_entry_same_topology. exact Htop1.
        -- rewrite Hcache1.
           destruct (descriptor_describes l (cpuid_result hw 4 (Z.of_nat first)));
             reflexivity.
Qed.

Lemma line_size_field (x : Z) : Int32.add (Z.land x 0x7F) 1 = bit_field 0 7 x + 1.
Proof.
  unfold bit_field. rewrite Z.shiftr_0_r. change (Z.ones 7) with 127.
  pose proof (land_mask_range x 7 ltac:(lia)) as H.
  change (Z.ones 7) with 127 in H. change (2 ^ 7) with 128 in H.
  apply to_s32_id. unfold Int32.in_s32, Int32.half_modulus. lia.
Qed.

(** X9.  The Intel cache decoder on a processor whose function 0x4 describes
    [count] caches: sub-functions 0 to [count - 1] carry a nonzero type
    field, sub-function [count] is the first with type 0, and no data or
    unified descriptor reports level 0.  With a [threads_per_core] that is
    not 0 the decoder returns after querying sub-functions 0 to [count]
    and nothing else; [cache_line_size] is the line size of sub-function 0;
    an element of [cache_level_specs] no descriptor describes is left
    alone, and an element described more than once holds the values of the
    last descriptor: the size in lines times [cache_line_size], and the
    attached cores capped by [core_count]. *)
Theorem intel_caches_enumeration
  (hw : hardware) (fuel : nat) (ctx : cpuid_ctx) (m : machine) (count : nat) :
  (max_standard_func ctx >=? 0x4) = true ->
  descriptors_end_at hw 0x4 0 count ->
  threads_per_core (cpu_specs m) <> 0 ->
  (count <= fuel)%nat ->
  exists m',
    cpu_specs_intel_get_caches_info hw fuel ctx m = Ok tt m'
    /\ cpuid_queries m'
       = (cpuid_queries m ++ map (fun i => (0x4, Z.of_nat i)) (seq 0 (S count)))%list
    /\ cache_line_size (cpu_specs m') = bit_field 0 7 (cpuid_result hw 0x4 0x0 EBX) + 1
    /\ threads_per_core (cpu_specs m') = threads_per_core (cpu_specs m)
    /\ core_count (cpu_specs m') = core_count (cpu_specs m)
    /\ instructions (cpu_specs m') = instructions (cpu_specs m)
    /\ forall l,
        cache_get l (cache_level_specs (cpu_specs m'))
        = match last_descriptor l (descriptors hw 0x4 0 count) with
          | Some cpuid_out => intel_descriptor_entry (cpu_specs m') cpuid_out
          | None => cache_get l (cache_level_specs (cpu_specs m))
          end.
Proof.
  intros Hstd (_ & Hbound & Hvalid & Hend & Hlevel) Htpc Hfuel.
  unfold cpu_specs_intel_get_caches_info. rewrite Hstd. cbv zeta.
  rewrite bind_cpuidex.
  match goal with |- exists _, bind (write_specs ?f) _ ?p = _ /\ _ =>
    change (bind (write_specs f) (fun _ => intel_caches_loop hw fuel 0 (cpuid_result hw 4 0)) p)
      with (intel_caches_loop hw fuel (Z.of_nat 0) (cpuid_result hw 4 (Z.of_nat 0))
              (update_cpu_specs f p));
    destruct (intel_loop_enumerates hw count 0 fuel (update_cpu_specs f p))
      as (m' & Hrun & Hq & (Hl & Ht & Hc & Hi) & Hcache)
  end;
    try assumption;
    try (intros i Hi; first [apply Hvalid; lia | apply Hlevel; lia]).
  exists m'. split; [exact Hrun |].
  cbn [cpu_specs cpuid_queries update_cpu_specs log_query] in Hq, Hl, Ht, Hc, Hi, Hcache.
  cbn [cache_line_size threads_per_core core_count instructions cache_level_specs
       set_cache_line_size] in Hl, Ht, Hc, Hi, Hcache.
  split; [rewrite Hq, <- app_assoc; reflexivity |].
  split; [rewrite Hl; apply line_size_field |].
  split; [exact Ht |]. split; [exact Hc |]. split; [exact Hi |].
  intros l. rewrite Hcache.
  destruct (last_descriptor l (descriptors hw 4 0 count)); [| reflexivity].
  unfold intel_descriptor_entry.
  cbn [cache_line_size threads_per_core core_count set_cache_line_size].
  rewrite Hl, Ht, Hc. reflexivity.
Qed.

Lemma intel_caches_enumeration_witness :
  exists m',
    cpu_specs_intel_get_caches_info sample_intel_hw 8 (mk_cpuid_ctx 0xB 0x80000004)
      (boot ISA_x64 0) = Ok tt m'
    /\ cpuid_queries m'
       = (cpuid_queries (boot ISA_x64 0)
          ++ map (fun i => (0x4, Z.of_nat i)) (seq 0 (S 4)))%list
    /\ cache_line_size (cpu_specs m')
       = bit_field 0 7 (cpuid_result sample_intel_hw 0x4 0x0 EBX) + 1
    /\ threads_per_core (cpu_specs m') = threads_per_core (cpu_specs (boot ISA_x64 0))
    /\ core_count (cpu_specs m') = core_count (cpu_specs (boot ISA_x64 0))
    /\ instructions (cpu_specs m') = instructions (cpu_specs (boot ISA_x64 0))
    /\ forall l,
        cache_get l (cache_level_specs (cpu_specs m'))
        = match last_descriptor l (descriptors sample_intel_hw 0x4 0 4) with
          | Some cpuid_out => intel_descriptor_entry (cpu_specs m') cpuid_out
          | None => cache_get l (cache_level_specs (cpu_specs (boot ISA_x64 0)))
          end.
Proof.
  apply (intel_caches_enumeration sample_intel_hw 8 (mk_cpuid_ctx 0xB 0x80000004)
           (boot ISA_x64 0) 4).
  - reflexivity.
  - split; [lia |]. split; [reflexivity |]. split; [| split; [reflexivity |]].
    + intros i Hi.
      assert (Hcases : i = 0%nat \/ i = 1%nat \/ i = 2%nat \/ i = 3%nat) by lia.
      destruct Hcases as [-> | [-> | [-> | ->]]]; reflexivity.
    + intros i Hi _.
      assert (Hcases : i = 0%nat \/ i = 1%nat \/ i = 2%nat \/ i = 3%nat) by lia.
      destruct Hcases as [-> | [-> | [-> | ->]]]; discriminate.
  - discriminate.
  - lia.
Defined.

(** On the sample processor: 32 KiB of L1 data for one core, 256 KiB of L2
    for one core, 8 MiB of L3 for the four cores. *)
Example caches_of_sample_intel :
  exists m' m'',
    cpu_specs_intel_get_cores_info sample_intel_hw (mk_cpuid_ctx 0xB 0x80000004)
      (boot ISA_x64 0) = Ok tt m'
    /\ cpu_specs_intel_get_caches_info sample_intel_hw 8 (mk_cpuid_ctx 0xB 0x80000004) m'
       = Ok tt m''
    /\ cache_level_specs (cpu_specs m'')
       = mk_cache_array (mk_cache_level (32 * 1024) 1) (mk_cache_level (256 * 1024) 1)
           (mk_cache_level (8 * 1024 * 1024) 4).
Proof.
  eexists. eexists. split; [vm_compute; reflexivity |].
  split; [vm_compute; reflexivity | reflexivity].
Qed.

(** The body of the AMD loop on a descriptor of a nonzero level, with a
    nonzero [threads_per_core]. *)
Lemma amd_body_run (cpuid_out : cpuid_out_t) (m : machine) :
  (descriptor_qualifies cpuid_out = true -> descriptor_level cpuid_out <> 0) ->
  threads_per_core (cpu_specs m) <> 0 ->
  exists m',
    (if truthy (Z.land (cpuid_out EAX) 1) then amd_cache_descriptor cpuid_out
     else ret tt) m = Ok tt m'
    /\ cpuid_queries m' = cpuid_queries m
    /\ same_topology (cpu_specs m) (cpu_specs m')
    /\ forall l,
        cache_get l (cache_level_specs (cpu_specs m'))
        = if descriptor_describes l cpuid_out
          then amd_descriptor_entry (cpu_specs m) cpuid_out
          else cache_get l (cache_level_specs (cpu_specs m)).
Proof.
  intros Hlevel Htpc.
  change (truthy (Z.land (cpuid_out EAX) 1)) with (descriptor_qualifies cpuid_out).
  destruct (descriptor_qualifies cpuid_out) eqn:Hq.
  - rewrite amd_cache_descriptor_run.
    destruct (cache_level_of_index (descriptor_index cpuid_out)) as [l0 |] eqn:Hl0.
    + apply Z.eqb_neq in Htpc. rewrite Htpc.
      eexists. split; [reflexivity |]. split; [reflexivity |].
      split; [repeat split |].
      intros l. specs_simpl.
      apply (describes_index l0 cpuid_out Hq) in Hl0.
      destruct (descriptor_describes l cpuid_out) eqn:Hl.
      * rewrite (describes_one_level _ _ _ Hl Hl0). apply cache_get_set_same.
      * rewrite cache_get_set_other; [reflexivity |].
        intros ->. congruence.
    + apply descriptor_index_none in Hl0. exfalso. apply (Hlevel eq_refl Hl0).
  - exists m. split; [reflexivity |]. split; [reflexivity |].
    split; [repeat split |].
    intros l. unfold descriptor_describes. rewrite Hq. reflexivity.
Qed.

Lemma amd_entry_same_topology (s s' : struct_cpu_specs) (cpuid_out : cpuid_out_t) :
  same_topology s s' ->
  amd_descriptor_entry s' cpuid_out = amd_descriptor_entry s cpuid_out.
Proof.
  intros (Hl & Ht & _ & _). unfold amd_descriptor_entry. rewrite Hl, Ht. reflexivity.
Qed.

(** The [do ... while] loop runs its body on sub-function [first] whatever
    its type field, then on the [more] sub-functions that follow. *)
Lemma amd_loop_enumerates (hw : hardware) :
  forall (more first fuel : nat) (m : machine),
    (S more <= fuel)%nat ->
    Z.of_nat (first + S more) < 2 ^ 31 ->
    (forall i, (first < i <= first + more)%nat ->
               descriptor_valid (cpuid_result hw 0x8000001D (Z.of_nat i)) = true) ->
    descriptor_valid (cpuid_result hw 0x8000001D (Z.of_nat (first + S more))) = false ->
    (forall i, (first <= i <= first + more)%nat ->
               descriptor_qualifies (cpuid_result hw 0x8000001D (Z.of_nat i)) = true ->
               descriptor_level (cpuid_result hw 0x8000001D (Z.of_nat i)) <> 0) ->
    threads_per_core (cpu_specs m) <> 0 ->
    exists m',
      amd_caches_loop hw fuel (Z.of_nat first)
        (cpuid_result hw 0x8000001D (Z.of_nat first)) m
      = Ok tt m'
      /\ cpuid_queries m'
         = (cpuid_queries m
            ++ map (fun i => (0x8000001D, Z.of_nat i)) (seq (S first) (S more)))%list
      /\ same_topology (cpu_specs m) (cpu_specs m')
      /\ forall l,
          cache_get l (cache_level_specs (cpu_specs m'))
          = match last_descriptor l (descriptors hw 0x8000001D first (S more)) with
            | Some cpuid_out => amd_descriptor_entry (cpu_specs m) cpuid_out
            | None => cache_get l (cache_level_specs (cpu_specs m))
            end.
Proof.
  induction more as [| more IH]; intros first fuel m Hfuel Hbound Hvalid Hend Hlevel Htpc;
    (destruct fuel as [| fuel]; [lia |]);
    cbn [amd_caches_loop];
    (destruct (amd_body_run (cpuid_result hw 0x8000001D (Z.of_nat first)) m)
      as (m1 & Hrun1 & Hq1 & Htop1 & Hcache1);
      [apply Hlevel; lia | exact Htpc |]);
    rewrite (bind_ok _ _ _ _ _ Hrun1); cbv zeta;
    (destruct (next_subfunc first) as [Hnext Hu32]; [lia |]);
    rewrite Hnext, bind_cpuidex, Hu32;
    change (Int32.to_u32 0x8000001D) with 0x8000001D;
    change (negb (Z.land (cpuid_result hw 0x8000001D (Z.of_nat (S first)) EAX) 15 =? 0))
      with (descriptor_valid (cpuid_result hw 0x8000001D (Z.of_nat (S first)))).
  - replace (first + 1)%nat with (S first) in Hend by lia. rewrite Hend.
    eexists. split; [reflexivity |].
    cbn [cpu_specs cpuid_queries log_query].
    split; [rewrite Hq1; reflexivity |]. split; [exact Htop1 |].
    intros l. rewrite Hcache1. unfold descriptors. cbn [seq map last_descriptor].
    destruct (descriptor_describes l (cpuid_result hw 0x8000001D (Z.of_nat first)));
      reflexivity.
  - rewrite (Hvalid (S first)) by lia. cbv beta iota.
    destruct (IH (S first) fuel (log_query (0x8000001D, Z.of_nat (S first)) m1))
      as (m' & Hrun & Hq & Htop & Hcache).
    + lia.
    + rewrite Nat.add_succ_l, <- Nat.add_succ_r. exact Hbound.
    + intros i Hi. apply Hvalid. lia.
    + rewrite Nat.add_succ_l, <- Nat.add_succ_r. exact Hend.
    + intros i Hi. apply Hlevel. lia.
    + cbn [cpu_specs log_query]. destruct Htop1 as (_ & -> & _). exact Htpc.
    + exists m'. split; [exact Hrun |].
      cbn [cpu_specs cpuid_queries log_query] in Hq, Htop, Hcache.
      split; [| split].
      * rewrite Hq, Hq1, <- app_assoc. reflexivity.
      * apply (same_topology_trans _ _ _ Htop1 Htop).
      * intros l. rewrite Hcache. unfold descriptors.
        change (seq first (S (S more))) with (first :: seq (S first) (S more)).
        cbn [map last_descriptor].
        fold (descriptors hw 0x8000001D (S first) (S more)).
        destruct (last_descriptor l (descriptors hw 0x8000001D (S first) (S more)))
          as [d |].
        -- apply amd_entry_same_topology. exact Htop1.
        -- rewrite Hcache1.
           destruct (descriptor_describes l (cpuid_result hw 0x8000001D (Z.of_nat first)));
             reflexivity.
Qed.

(** X10.  The AMD cache decoder on a processor with topology extensions whose
    function 0x8000001D describes [count] caches, [count] at least 1:
    sub-functions 1 to [count - 1] carry a nonzero type field,
    sub-function [count] is the first after 0 with type 0, and no data or
    unified descriptor reports level 0.  With a [threads_per_core] that is
    not 0 the decoder returns after querying function 0x80000001 and
    sub-functions 0 to [count]; [cache_line_size] is the line size of
    sub-function 0; an element of [cache_level_specs] no descriptor
    describes is left alone, and an element described more than once holds
    the values of the last descriptor, with no cap on the attached
    cores. *)
Theorem amd_caches_enumeration
  (hw : hardware) (fuel : nat) (ctx : cpuid_ctx) (m : machine) (count : nat) :
  (max_extended_func ctx >=? 0x8000001D) = true ->
  Z.testbit (cpuid_result hw 0x80000001 0x0 ECX) 22 = true ->
  descriptors_end_at hw 0x8000001D 1 count ->
  threads_per_core (cpu_specs m) <> 0 ->
  (count <= fuel)%nat ->
  exists m',
    cpu_specs_amd_get_caches_info hw fuel ctx m = Ok tt m'
    /\ cpuid_queries m'
       = (cpuid_queries m ++ (0x80000001, 0x0)
          :: map (fun i => (0x8000001D, Z.of_nat i)) (seq 0 (S count)))%list
    /\ cache_line_size (cpu_specs m')
       = bit_field 0 7 (cpuid_result hw 0x8000001D 0x0 EBX) + 1
    /\ threads_per_core (cpu_specs m') = threads_per_core (cpu_specs m)
    /\ core_count (cpu_specs m') = core_count (cpu_specs m)
    /\ instructions (cpu_specs m') = instructions (cpu_specs m)
    /\ forall l,
        cache_get l (cache_level_specs (cpu_specs m'))
        = match last_descriptor l (descriptors hw 0x8000001D 0 count) with
          | Some cpuid_out => amd_descriptor_entry (cpu_specs m') cpuid_out
          | None => cache_get l (cache_level_specs (cpu_specs m))
          end.
Proof.
  intros Hext Htopo (Hpos & Hbound & Hvalid & Hend & Hlevel) Htpc Hfuel.
  destruct count as [| more]; [lia |].
  unfold cpu_specs_amd_get_caches_info. rewrite Hext. cbv zeta.
  rewrite bind_cpuidex.
  assert (Hbit : truthy (Z.land (cpuid_result hw 0x80000001 0 ECX) (Z.shiftl 1 22)) = true).
  { unfold truthy. apply negb_true_iff, Z.eqb_neq. intros H0.
    apply (f_equal (fun x => Z.testbit x 22)) in H0.
    rewrite Z.land_spec, Htopo in H0. discriminate H0. }
  rewrite Hbit. rewrite bind_cpuidex.
  match goal with |- exists _, bind (write_specs ?f) _ ?p = _ /\ _ =>
    change (bind (write_specs f)
              (fun _ => amd_caches_loop hw fuel 0 (cpuid_result hw 0x8000001D 0)) p)
      with (amd_caches_loop hw fuel (Z.of_nat 0) (cpuid_result hw 0x8000001D (Z.of_nat 0))
              (update_cpu_specs f p));
    destruct (amd_loop_enumerates hw more 0 fuel (update_cpu_specs f p))
      as (m' & Hrun & Hq & (Hl & Ht & Hc & Hi) & Hcache)
  end;
    try assumption;
    try (intros i Hi; first [apply Hvalid; lia | apply Hlevel; lia]).
  exists m'. split; [exact Hrun |].
  cbn [cpu_specs cpuid_queries update_cpu_specs log_query] in Hq, Hl, Ht, Hc, Hi, Hcache.
  cbn [cache_line_size threads_per_core core_count instructions cache_level_specs
       set_cache_line_size] in Hl, Ht, Hc, Hi, Hcache.
  split; [rewrite Hq, <- !app_assoc; reflexivity |].
  split; [rewrite Hl; apply line_size_field |].
  split; [exact Ht |]. split; [exact Hc |]. split; [exact Hi |].
  intros l. rewrite Hcache.
  destruct (last_descriptor l (descriptors hw 0x8000001D 0 (S more))); [| reflexivity].
  unfold amd_descriptor_entry.
  cbn [cache_line_size threads_per_core core_count set_cache_line_size].
  rewrite Hl, Ht. reflexivity.
Qed.

Lemma amd_caches_enumeration_witness :
  exists m',
    cpu_specs_amd_get_caches_info sample_amd_hw 8 (mk_cpuid_ctx 0x10 0x8000001E)
      (boot ISA_x64 0) = Ok tt m'
    /\ cpuid_queries m'
       = (cpuid_queries (boot ISA_x64 0) ++ (0x80000001, 0x0)
          :: map (fun i => (0x8000001D, Z.of_nat i)) (seq 0 (S 4)))%list
    /\ cache_line_size (cpu_specs m')
       = bit_field 0 7 (cpuid_result sample_amd_hw 0x8000001D 0x0 EBX) + 1
    /\ threads_per_core (cpu_specs m') = threads_per_core (cpu_specs (boot ISA_x64 0))
    /\ core_count (cpu_specs m') = core_count (cpu_specs (boot ISA_x64 0))
    /\ instructions (cpu_specs m') = instructions (cpu_specs (boot ISA_x64 0))
    /\ forall l,
        cache_get l (cache_level_specs (cpu_specs m'))
        = match last_descriptor l (descriptors sample_amd_hw 0x8000001D 0 4) with
          | Some cpuid_out => amd_descriptor_entry (cpu_specs m') cpuid_out
          | None => cache_get l (cache_level_specs (cpu_specs (boot ISA_x64 0)))
          end.
Proof.
  apply (amd_caches_enumeration sample_amd_hw 8 (mk_cpuid_ctx 0x10 0x8000001E)
           (boot ISA_x64 0) 4).
  - reflexivity.
  - reflexivity.
  - split; [lia |]. split; [reflexivity |]. split; [| split; [reflexivity |]].
    + intros i Hi.
      assert (Hcases : i = 1%nat \/ i = 2%nat \/ i = 3%nat) by lia.
      destruct Hcases as [-> | [-> | ->]]; reflexivity.
    + intros i Hi _.
      assert (Hcases : i = 0%nat \/ i = 1%nat \/ i = 2%nat \/ i = 3%nat) by lia.
      destruct Hcases as [-> | [-> | [-> | ->]]]; discriminate.
  - discriminate.
  - lia.
Defined.

(* ===================================================================== *)
(** ** The size of a described cache *)

Lemma ways_field (x : Z) : 0 <= x < 2 ^ 31 -> Z.shiftr x 22 = bit_field 22 10 x.
Proof.
  intros Hx. unfold bit_field. rewrite Z.land_ones by lia.
  symmetry. apply Z.mod_small. rewrite Z.shiftr_div_pow2 by lia.
  split; [apply Z.div_pos; lia |].
  apply Z.div_lt_upper_bound; lia.
Qed.

Lemma mul_exact (x y : Z) : 0 <= x * y < 2 ^ 31 -> Int32.mul x y = x * y.
Proof.
  intros H. apply to_s32_id. unfold Int32.in_s32, Int32.half_modulus. lia.
Qed.

Lemma add_exact (x y : Z) : 0 <= x + y < 2 ^ 31 -> Int32.add x y = x + y.
Proof.
  intros H. apply to_s32_id. unfold Int32.in_s32, Int32.half_modulus. lia.
Qed.

Lemma line_count_exact (cpuid_out : cpuid_out_t) (line : Z) :
  0 <= cpuid_out EBX < 2 ^ 31 ->
  0 <= cpuid_out ECX ->
  0 < line ->
  let ways := bit_field 22 10 (cpuid_out EBX) + 1 in
  let partitions := bit_field 12 10 (cpuid_out EBX) + 1 in
  let sets := cpuid_out ECX + 1 in
  partitions * ways * sets * line < 2 ^ 31 ->
  Int32.mul (descriptor_line_count cpuid_out) line = partitions * ways * sets * line.
Proof.
  intros Hebx Hecx Hline ways partitions sets Hfit.
  pose proof (land_mask_range (Z.shiftr (cpuid_out EBX) 22) 10 ltac:(lia)) as Hw.
  pose proof (land_mask_range (Z.shiftr (cpuid_out EBX) 12) 10 ltac:(lia)) as Hp.
  fold (bit_field 22 10 (cpuid_out EBX)) in Hw.
  fold (bit_field 12 10 (cpuid_out EBX)) in Hp.
  assert (Hw1 : 1 <= ways) by (unfold ways; lia).
  assert (Hp1 : 1 <= partitions) by (unfold partitions; lia).
  assert (Hs1 : 1 <= sets) by (unfold sets; lia).
  assert (Hpw : 1 <= partitions * ways) by nia.
  assert (Hpws : 1 <= partitions * ways * sets) by nia.
  assert (Hpws_fit : partitions * ways * sets < 2 ^ 31) by nia.
  assert (Hpw_fit : partitions * ways < 2 ^ 31) by nia.
  assert (Hs_fit : sets < 2 ^ 31) by nia.
  unfold descriptor_line_count.
  rewrite (ways_field _ Hebx).
  change (Z.land (Z.shiftr (cpuid_out EBX) 12) 1023) with (bit_field 12 10 (cpuid_out EBX)).
  rewrite (add_exact (bit_field 12 10 (cpuid_out EBX)) 1) by (change (2 ^ 10) with 1024 in Hp; lia).
  rewrite (add_exact (bit_field 22 10 (cpuid_out EBX)) 1) by (change (2 ^ 10) with 1024 in Hw; lia).
  rewrite (add_exact (cpuid_out ECX) 1) by (fold sets; lia).
  fold ways. fold partitions. fold sets.
  rewrite (mul_exact partitions ways) by lia.
  rewrite (mul_exact (partitions * ways) sets) by lia.
  apply mul_exact. lia.
Qed.

(** X11.  The size both cache decoders store for a descriptor.  When bit 31 of
    EBX is clear (at most 512 ways), ECX is not negative and the size fits
    an [s32], the element of the descriptor's level receives exactly
    (ways + 1) * (partitions + 1) * (sets + 1) * [cache_line_size] bytes,
    with the ways in bits 22-31 and the partitions in bits 12-21 of EBX and
    the sets in ECX -- the line size being [cpu_specs.cache_line_size], not
    the line size field of the descriptor itself. *)
Theorem described_cache_size_exact
  (cpuid_out : cpuid_out_t) (l : cache_level) (m : machine) :
  descriptor_describes l cpuid_out = true ->
  threads_per_core (cpu_specs m) <> 0 ->
  0 <= cpuid_out EBX < 2 ^ 31 ->
  0 <= cpuid_out ECX ->
  0 < cache_line_size (cpu_specs m) ->
  let ways := bit_field 22 10 (cpuid_out EBX) + 1 in
  let partitions := bit_field 12 10 (cpuid_out EBX) + 1 in
  let sets := cpuid_out ECX + 1 in
  let size := partitions * ways * sets * cache_line_size (cpu_specs m) in
  size < 2 ^ 31 ->
  exists a i,
    amd_cache_descriptor cpuid_out m = Ok tt a
    /\ intel_cache_descriptor cpuid_out m = Ok tt i
    /\ data_cache_size (cache_get l (cache_level_specs (cpu_specs a))) = size
    /\ data_cache_size (cache_get l (cache_level_specs (cpu_specs i))) = size.
Proof.
  intros Hl Htpc Hebx Hecx Hline ways partitions sets size Hfit.
  assert (Hq : descriptor_qualifies cpuid_out = true).
  { unfold descriptor_describes in Hl. apply andb_true_iff in Hl. apply Hl. }
  assert (Hlevel : descriptor_qualifies cpuid_out = true -> descriptor_level cpuid_out <> 0).
  { intros _. unfold descriptor_describes in Hl. apply andb_true_iff in Hl.
    destruct Hl as [_ Hl]. apply Z.eqb_eq in Hl. destruct l; cbn in Hl; lia. }
  destruct (amd_body_run cpuid_out m Hlevel Htpc) as (a & Hruna & _ & _ & Ha).
  destruct (intel_body_run cpuid_out m Hlevel Htpc) as (i & Hruni & _ & _ & Hi).
  change (truthy (Z.land (cpuid_out EAX) 1)) with (descriptor_qualifies cpuid_out)
    in Hruna, Hruni.
  rewrite Hq in Hruna, Hruni.
  exists a, i. split; [exact Hruna |]. split; [exact Hruni |].
  rewrite (Ha l), (Hi l), Hl. cbn [data_cache_size amd_descriptor_entry intel_descriptor_entry].
  split; apply (line_count_exact cpuid_out _ Hebx Hecx Hline Hfit).
Qed.

Lemma described_cache_size_exact_witness :
  let cpuid_out := regs 0x3C063 0x03C0003F 8191 0 in
  let m := boot ISA_x64 0 in
  let ways := bit_field 22 10 (cpuid_out EBX) + 1 in
  let partitions := bit_field 12 10 (cpuid_out EBX) + 1 in
  let sets := cpuid_out ECX + 1 in
  let size := partitions * ways * sets * cache_line_size (cpu_specs m) in
  exists a i,
    amd_cache_descriptor cpuid_out m = Ok tt a
    /\ intel_cache_descriptor cpuid_out m = Ok tt i
    /\ data_cache_size (cache_get L3 (cache_level_specs (cpu_specs a))) = size
    /\ data_cache_size (cache_get L3 (cache_level_specs (cpu_specs i))) = size.
Proof.
  apply (described_cache_size_exact (regs 0x3C063 0x03C0003F 8191 0) L3 (boot ISA_x64 0)).
  - reflexivity.
  - discriminate.
  - cbn. lia.
  - cbn. lia.
  - reflexivity.
  - reflexivity.
Defined.

(** More than 512 ways: bit 31 of EBX makes [cpuid_out[EBX] >> 22]
    negative, and the stored size is not the size of the cache. *)
Example negative_ways :
  exists m',
    intel_cache_descriptor (regs 0x21 (Int32.to_s32 0x8000003F) 0 0) (boot ISA_x64 0)
    = Ok tt m'
    /\ data_cache_size (cache_get L1 (cache_level_specs (cpu_specs m'))) = -511 * 64.
Proof. eexists. split; [vm_compute; reflexivity | reflexivity]. Qed.

(* ===================================================================== *)
(** ** The AMD caches without function 0x8000001D *)

Lemma small_field (x lo len wide : Z) :
  0 <= lo -> 0 <= len <= wide -> 0 <= x < 2 ^ (lo + len) ->
  Z.land (Z.shiftr x lo) (Z.ones wide) = Z.shiftr x lo
  /\ 0 <= Z.shiftr x lo < 2 ^ len.
Proof.
  intros Hlo Hlen Hx.
  assert (Hs : 0 <= Z.shiftr x lo < 2 ^ len).
  { rewrite Z.shiftr_div_pow2 by lia. split; [apply Z.div_pos; lia |].
    apply Z.div_lt_upper_bound; [lia |]. rewrite <- Z.pow_add_r by lia. lia. }
  split; [| exact Hs].
  assert (Hpow : 2 ^ len <= 2 ^ wide) by (apply Z.pow_le_mono_r; lia).
  rewrite Z.land_ones by lia. apply Z.mod_small. lia.
Qed.

(** X12.  The AMD cache decoder on a processor that offers function 0x80000005
    but not 0x8000001D: it always returns.  [cache_line_size] and the L1
    size come from ECX of function 0x80000005 and L1 is attached to one
    core.  With function 0x80000006 the L2 size comes from bits 16-31 of
    its ECX, with one attached core, and L3 is attached to [core_count]
    cores; the L3 size is bits 18-31 of EDX in units of 512 KiB as long as
    bits 30 and 31 of EDX are clear, that is below 2 GiB.  Without function
    0x80000006, L2 and L3 are left alone. *)
Theorem amd_caches_from_size_functions
  (hw : hardware) (fuel : nat) (ctx : cpuid_ctx) (m : machine) :
  (max_extended_func ctx >=? 0x8000001D) = false ->
  (max_extended_func ctx >=? 0x80000005) = true ->
  let l1 := cpuid_result hw 0x80000005 0x0 in
  let l2_l3 := cpuid_result hw 0x80000006 0x0 in
  exists m',
    cpu_specs_amd_get_caches_info hw fuel ctx m = Ok tt m'
    /\ cache_line_size (cpu_specs m') = bit_field 0 8 (l1 ECX)
    /\ cache_get L1 (cache_level_specs (cpu_specs m'))
       = mk_cache_level (bit_field 24 8 (l1 ECX) * 1024) 1
    /\ threads_per_core (cpu_specs m') = threads_per_core (cpu_specs m)
    /\ core_count (cpu_specs m') = core_count (cpu_specs m)
    /\ instructions (cpu_specs m') = instructions (cpu_specs m)
    /\ if max_extended_func ctx >=? 0x80000006 then
         cache_get L2 (cache_level_specs (cpu_specs m'))
         = mk_cache_level (bit_field 16 16 (l2_l3 ECX) * 1024) 1
         /\ attached_core_count (cache_get L3 (cache_level_specs (cpu_specs m')))
            = core_count (cpu_specs m)
         /\ (0 <= l2_l3 EDX < 2 ^ 30 ->
             data_cache_size (cache_get L3 (cache_level_specs (cpu_specs m')))
             = bit_field 18 14 (l2_l3 EDX) * (512 * 1024))
       else
         cache_get L2 (cache_level_specs (cpu_specs m'))
         = cache_get L2 (cache_level_specs (cpu_specs m))
         /\ cache_get L3 (cache_level_specs (cpu_specs m'))
            = cache_get L3 (cache_level_specs (cpu_specs m)).
Proof.
  intros H1D H05 l1 l2_l3.
  unfold cpu_specs_amd_get_caches_info. rewrite H1D, H05.
  pose proof (land_mask_range (Z.shiftr (l1 ECX) 24) 8 ltac:(lia)) as Hl1.
  pose proof (land_mask_range (Z.shiftr (l2_l3 ECX) 16) 16 ltac:(lia)) as Hl2.
  fold (bit_field 24 8 (l1 ECX)) in Hl1. fold (bit_field 16 16 (l2_l3 ECX)) in Hl2.
  change (2 ^ 8) with 256 in Hl1. change (2 ^ 16) with 65536 in Hl2.
  assert (Hsize1 : Int32.mul (bit_field 24 8 (l1 ECX)) (KiB 1)
                   = bit_field 24 8 (l1 ECX) * 1024).
  { apply mul_exact. unfold KiB. lia. }
  assert (Hsize2 : Int32.mul (bit_field 16 16 (l2_l3 ECX)) (KiB 1)
                   = bit_field 16 16 (l2_l3 ECX) * 1024).
  { apply mul_exact. unfold KiB. lia. }
  run_prims. fold l1. fold l2_l3.
  change (Z.land (Z.shiftr (l1 ECX) 24) 255) with (bit_field 24 8 (l1 ECX)).
  change (Z.land (Z.shiftr (l2_l3 ECX) 16) 65535) with (bit_field 16 16 (l2_l3 ECX)).
  rewrite Hsize1.
  destruct (max_extended_func ctx >=? 0x80000006).
  - rewrite Hsize2.
    eexists. split; [reflexivity |]. specs_simpl.
    cbn [cache_get cache_set at_L1 at_L2 at_L3 data_cache_size attached_core_count].
    split; [unfold bit_field; rewrite Z.shiftr_0_r; reflexivity |].
    split; [reflexivity |]. split; [reflexivity |]. split; [reflexivity |].
    split; [reflexivity |]. split; [reflexivity |]. split; [reflexivity |].
    intros Hedx.
    destruct (small_field (l2_l3 EDX) 18 12 18 ltac:(lia) ltac:(lia) Hedx) as [H18 Hs].
    destruct (small_field (l2_l3 EDX) 18 12 14 ltac:(lia) ltac:(lia) Hedx) as [H14 _].
    unfold bit_field. change 262143 with (Z.ones 18). rewrite H18, H14.
    change (2 ^ 12) with 4096 in Hs.
    apply mul_exact. unfold KiB. lia.
  - eexists. split; [reflexivity |]. specs_simpl.
    cbn [cache_get cache_set at_L1 at_L2 at_L3 data_cache_size attached_core_count].
    split; [unfold bit_field; rewrite Z.shiftr_0_r; reflexivity |].
    repeat split.
Qed.

Lemma amd_caches_from_size_functions_witness :
  let hw := mk_hardware
              (fun func _ =>
                 if func =? 0x80000005 then regs 0 0 0x40020140 0
                 else if func =? 0x80000006 then regs 0 0 0x02006140 0x00804140
                 else regs 0 0 0 0) true in
  let ctx := mk_cpuid_ctx 0x1 0x80000008 in
  let m := boot ISA_x64 0 in
  let l1 := cpuid_result hw 0x80000005 0x0 in
  let l2_l3 := cpuid_result hw 0x80000006 0x0 in
  exists m',
    cpu_specs_amd_get_caches_info hw 0 ctx m = Ok tt m'
    /\ cache_line_size (cpu_specs m') = bit_field 0 8 (l1 ECX)
    /\ cache_get L1 (cache_level_specs (cpu_specs m'))
       = mk_cache_level (bit_field 24 8 (l1 ECX) * 1024) 1
    /\ threads_per_core (cpu_specs m') = threads_per_core (cpu_specs m)
    /\ core_count (cpu_specs m') = core_count (cpu_specs m)
    /\ instructions (cpu_specs m') = instructions (cpu_specs m)
    /\ if max_extended_func ctx >=? 0x80000006 then
         cache_get L2 (cache_level_specs (cpu_specs m'))
         = mk_cache_level (bit_field 16 16 (l2_l3 ECX) * 1024) 1
         /\ attached_core_count (cache_get L3 (cache_level_specs (cpu_specs m')))
            = core_count (cpu_specs m)
         /\ (0 <= l2_l3 EDX < 2 ^ 30 ->
             data_cache_size (cache_get L3 (cache_level_specs (cpu_specs m')))
             = bit_field 18 14 (l2_l3 EDX) * (512 * 1024))
       else
         cache_get L2 (cache_level_specs (cpu_specs m'))
         = cache_get L2 (cache_level_specs (cpu_specs m))
         /\ cache_get L3 (cache_level_specs (cpu_specs m'))
            = cache_get L3 (cache_level_specs (cpu_specs m)).
Proof.
  apply (amd_caches_from_size_functions
           (mk_hardware
              (fun func _ =>
                 if func =? 0x80000005 then regs 0 0 0x40020140 0
                 else if func =? 0x80000006 then regs 0 0 0x02006140 0x00804140
                 else regs 0 0 0 0) true)
           0 (mk_cpuid_ctx 0x1 0x80000008) (boot ISA_x64 0)); reflexivity.
Defined.

(** An L3 of 2 GiB or more: the product wraps around in an [s32]. *)
Example l3_size_wraps :
  exists m',
    cpu_specs_amd_get_caches_info
      (mk_hardware
         (fun func _ => if func =? 0x80000006 then regs 0 0 0 0x40000000
                        else regs 0 0 0 0) true)
      0 (mk_cpuid_ctx 0x1 0x80000008) (boot ISA_x64 0) = Ok tt m'
    /\ data_cache_size (cache_get L3 (cache_level_specs (cpu_specs m'))) = - 2 ^ 31.
Proof. eexists. split; [vm_compute; reflexivity | reflexivity]. Qed.

(** X13.  With function 0x8000001D offered but the topology extensions bit of
    function 0x80000001 clear, the AMD cache decoder issues this one query
    and writes nothing: functions 0x80000005 and 0x80000006 are not used as
    a fallback. *)
Theorem amd_caches_need_topology_extensions
  (hw : hardware) (fuel : nat) (ctx : cpuid_ctx) (m : machine) :
  (max_extended_func ctx >=? 0x8000001D) = true ->
  Z.testbit (cpuid_result hw 0x80000001 0x0 ECX) 22 = false ->
  exists m',
    cpu_specs_amd_get_caches_info hw fuel ctx m = Ok tt m'
    /\ cpu_specs m' = cpu_specs m
    /\ cpuid_queries m' = (cpuid_queries m ++ [(0x80000001, 0x0)])%list.
Proof.
  intros H1D Hbit.
  unfold cpu_specs_amd_get_caches_info. rewrite H1D. cbv zeta.
  rewrite bind_cpuidex.
  assert (Hfalse : truthy (Z.land (cpuid_result hw 0x80000001 0 ECX) (Z.shiftl 1 22))
                   = false).
  { unfold truthy. apply negb_false_iff, Z.eqb_eq.
    apply Z.bits_inj'. intros n Hn.
    rewrite Z.land_spec, Z.bits_0, testbit_single by lia.
    destruct (Z.eqb_spec n 22) as [-> | _];
      [rewrite Hbit; reflexivity | apply andb_false_r]. }
  rewrite Hfalse.
  eexists. split; [reflexivity |]. split; reflexivity.
Qed.

Lemma amd_caches_need_topology_extensions_witness :
  exists m',
    cpu_specs_amd_get_caches_info
      (mk_hardware (fun _ _ => regs 0 0 0 0) true) 0
      (mk_cpuid_ctx 0x10 0x8000001E) (boot ISA_x64 0) = Ok tt m'
    /\ cpu_specs m' = cpu_specs (boot ISA_x64 0)
    /\ cpuid_queries m' = (cpuid_queries (boot ISA_x64 0) ++ [(0x80000001, 0x0)])%list.
Proof.
  apply (amd_caches_need_topology_extensions
           (mk_hardware (fun _ _ => regs 0 0 0 0) true) 0
           (mk_cpuid_ctx 0x10 0x8000001E) (boot ISA_x64 0)); reflexivity.
Defined.

(* ===================================================================== *)
(** ** When a detection pass divides by zero *)

Lemma amd_body_no_division_fault (cpuid_out : cpuid_out_t) (m : machine) :
  threads_per_core (cpu_specs m) <> 0 ->
  (if truthy (Z.land (cpuid_out EAX) 1) then amd_cache_descriptor cpuid_out else ret tt) m
  = Fault OutOfBounds
  \/ exists m',
      (if truthy (Z.land (cpuid_out EAX) 1) then amd_cache_descriptor cpuid_out else ret tt) m
      = Ok tt m'
      /\ threads_per_core (cpu_specs m') = threads_per_core (cpu_specs m).
Proof.
  intros Htpc. destruct (truthy (Z.land (cpuid_out EAX) 1)).
  - rewrite amd_cache_descriptor_run.
    destruct (cache_level_of_index (descriptor_index cpuid_out)); [| left; reflexivity].
    apply Z.eqb_neq in Htpc. rewrite Htpc. right. eexists. split; reflexivity.
  - right. exists m. split; reflexivity.
Qed.

Lemma intel_body_no_division_fault (cpuid_out : cpuid_out_t) (m : machine) :
  threads_per_core (cpu_specs m) <> 0 ->
  (if truthy (Z.land (cpuid_out EAX) 1) then intel_cache_descriptor cpuid_out else ret tt) m
  = Fault OutOfBounds
  \/ exists m',
      (if truthy (Z.land (cpuid_out EAX) 1) then intel_cache_descriptor cpuid_out
       else ret tt) m
      = Ok tt m'
      /\ threads_per_core (cpu_specs m') = threads_per_core (cpu_specs m).
Proof.
  intros Htpc. destruct (truthy (Z.land (cpuid_out EAX) 1)).
  - rewrite intel_cache_descriptor_run.
    destruct (cache_level_of_index (descriptor_index cpuid_out)); [| left; reflexivity].
    apply Z.eqb_neq in Htpc. rewrite Htpc. right. eexists. split; reflexivity.
  - right. exists m. split; reflexivity.
Qed.

Lemma amd_loop_no_division_fault (hw : hardware) (fuel : nat) :
  forall subfunc cpuid_out m,
    threads_per_core (cpu_specs m) <> 0 ->
    amd_caches_loop hw fuel subfunc cpuid_out m <> Fault DivisionByZero.
Proof.
  induction fuel as [| fuel IH]; intros subfunc cpuid_out m Htpc; cbn [amd_caches_loop];
    [discriminate |].
  destruct (amd_body_no_division_fault cpuid_out m Htpc) as [Hrun | (m1 & Hrun & Htpc1)].
  - rewrite (bind_fault _ _ _ _ Hrun). discriminate.
  - rewrite (bind_ok _ _ _ _ _ Hrun). cbv zeta. rewrite bind_cpuidex.
    destruct (negb _); [| discriminate].
    apply IH. cbn [cpu_specs log_query]. rewrite Htpc1. exact Htpc.
Qed.

Lemma intel_loop_no_division_fault (hw : hardware) (fuel : nat) :
  forall subfunc cpuid_out m,
    threads_per_core (cpu_specs m) <> 0 ->
    intel_caches_loop hw fuel subfunc cpuid_out m <> Fault DivisionByZero.
Proof.
  induction fuel as [| fuel IH]; intros subfunc cpuid_out m Htpc; cbn [intel_caches_loop];
    (destruct (negb _); [| discriminate]); [discriminate |].
  destruct (intel_body_no_division_fault cpuid_out m Htpc) as [Hrun | (m1 & Hrun & Htpc1)].
  - rewrite (bind_fault _ _ _ _ Hrun). discriminate.
  - rewrite (bind_ok _ _ _ _ _ Hrun). cbv zeta. rewrite bind_cpuidex.
    apply IH. cbn [cpu_specs log_query]. rewrite Htpc1. exact Htpc.
Qed.

(** With a nonzero [threads_per_core] neither cache decoder divides by
    zero. *)
Lemma caches_info_no_division_fault (hw : hardware) (fuel : nat) (ctx : cpuid_ctx)
  (m : machine) :
  threads_per_core (cpu_specs m) <> 0 ->
  cpu_specs_amd_get_caches_info hw fuel ctx m <> Fault DivisionByZero
  /\ cpu_specs_intel_get_caches_info hw fuel ctx m <> Fault DivisionByZero.
Proof.
  intros Htpc. split.
  - unfold cpu_specs_amd_get_caches_info.
    destruct (max_extended_func ctx >=? 2147483677).
    + rewrite bind_cpuidex. cbv zeta.
      destruct (truthy _); [| discriminate].
      rewrite bind_cpuidex.
      match goal with |- bind (write_specs ?f) _ ?p <> _ =>
        change (amd_caches_loop hw fuel 0 (cpuid_result hw 2147483677 0)
                  (update_cpu_specs f p) <> Fault DivisionByZero)
      end.
      apply amd_loop_no_division_fault. exact Htpc.
    + destruct (max_extended_func ctx >=? 2147483653); [| discriminate].
      run_prims. destruct (max_extended_func ctx >=? 2147483654); discriminate.
  - unfold cpu_specs_intel_get_caches_info.
    destruct (max_standard_func ctx >=? 4); [| discriminate].
    cbv zeta. rewrite bind_cpuidex.
    match goal with |- bind (write_specs ?f) _ ?p <> _ =>
      change (intel_caches_loop hw fuel 0 (cpuid_result hw 4 0)
                (update_cpu_specs f p) <> Fault DivisionByZero)
    end.
    apply intel_loop_no_division_fault. exact Htpc.
Qed.

(** Without function 0xB the AMD topology decoder performs no division:
    it always returns. *)
Lemma amd_legacy_cores_info_returns (hw : hardware) (ctx : cpuid_ctx) (m : machine) :
  (max_standard_func ctx >=? 0xB) = false ->
  exists m', cpu_specs_amd_get_cores_info hw ctx m = Ok tt m'.
Proof.
  intros Hstd. unfold cpu_specs_amd_get_cores_info. rewrite Hstd.
  run_prims.
  destruct (max_extended_func ctx >=? 2147483656);
    [| destruct (truthy (Z.land (Z.shiftr (cpuid_result hw 1 0 EDX) 28) 1));
       [destruct (max_extended_func ctx >=? 2147483649);
        [destruct (truthy (Z.land (cpuid_result hw 2147483649 0 ECX) (Z.shiftl 1 1))) |] |]];
    eexists; reflexivity.
Qed.

(** The three stages of a vendor's decoder stop on a division by zero
    exactly when the topology decoder does. *)
Lemma vendor_stages_division_fault (cores caches instr : M unit) (m : machine) :
  (forall a a', cores a = Ok tt a' -> threads_per_core (cpu_specs a') <> 0) ->
  (forall a, threads_per_core (cpu_specs a) <> 0 -> caches a <> Fault DivisionByZero) ->
  (forall a, exists a', instr a = Ok tt a') ->
  ((cores ;; caches ;; instr) m = Fault DivisionByZero
   <-> cores m = Fault DivisionByZero).
Proof.
  intros Hcores Hcaches Hinstr. split.
  - intros Hrun. unfold bind in Hrun.
    destruct (cores m) as [[] a1 | f] eqn:Hrun1; [| exact Hrun].
    pose proof (Hcaches a1 (Hcores m a1 Hrun1)) as Hno.
    destruct (caches a1) as [[] a2 | g] eqn:Hrun2; [| contradiction].
    destruct (Hinstr a2) as (a3 & Hrun3). rewrite Hrun3 in Hrun. discriminate Hrun.
  - intros Hrun. apply bind_fault. exact Hrun.
Qed.

(** X14.  A detection pass stops on a division by zero in exactly one
    situation: the processor has CPUID, reports function 0xB, carries one
    of the two known signature words, and answers sub-function 0 of its
    topology function -- 0xB on AMD, 0x1F or 0xB on Intel -- with zero in
    the low 16 bits of EBX.  The divisions of the cache decoders never
    fail within a pass. *)
Theorem detection_division_by_zero (hw : hardware) (fuel : nat) (m : machine) :
  let max_standard := max_standard_func (detected_ctx hw) in
  let cpu_manufacturer_ecx := cpuid_result hw 0x0 0x0 ECX in
  let higher_func := if max_standard >=? 0x1F then 0x1F else 0xB in
  cpu_specs_init hw fuel m = Fault DivisionByZero
  <-> hw_id_flag_changeable hw = true
      /\ 0xB <= max_standard
      /\ (cpu_manufacturer_ecx = CPU_MANUFACTURER_AMD
          /\ Z.land (cpuid_result hw 0xB 0x0 EBX) 0xFFFF = 0
          \/ cpu_manufacturer_ecx = CPU_MANUFACTURER_INTEL
             /\ Z.land (cpuid_result hw higher_func 0x0 EBX) 0xFFFF = 0).
Proof.
  intros max_standard ecx higher_func.
  destruct (hw_id_flag_changeable hw) eqn:Hhw.
  2: { rewrite (cpu_specs_init_unavailable hw fuel m Hhw).
       split; [discriminate | intros [H _]; discriminate H]. }
  rewrite (cpu_specs_init_available hw fuel m Hhw).
  set (ctx := detected_ctx hw) in *.
  match goal with |- bind _ _ ?p = _ <-> _ =>
    destruct (common_instructions_run hw ctx p) as (a1 & Hrun1 & _)
  end.
  rewrite (bind_ok _ _ _ _ _ Hrun1), bind_cpuidex. fold ecx.
  set (p := log_query (Int32.to_u32 0, Int32.to_u32 0) a1).
  assert (Hne : CPU_MANUFACTURER_AMD <> CPU_MANUFACTURER_INTEL) by discriminate.
  destruct (Z.eqb_spec ecx CPU_MANUFACTURER_AMD) as [Hamd | Hamd];
    [| destruct (Z.eqb_spec ecx CPU_MANUFACTURER_INTEL) as [Hintel | Hintel]].
  - rewrite vendor_stages_division_fault.
    + destruct (Z.geb_spec max_standard 0xB) as [Hstd | Hstd].
      * assert (Hge : (max_standard_func ctx >=? 0xB) = true)
          by (apply Z.geb_le; exact Hstd).
        rewrite (amd_cores_info_0xB hw ctx p Hge). cbv zeta.
        destruct (Z.eqb_spec (Z.land (cpuid_result hw 11 0 EBX) 65535) 0) as [H0 | Hn0].
        -- split; [intros _ | reflexivity].
           split; [reflexivity |]. split; [exact Hstd |]. left. split; assumption.
        -- split; [discriminate |].
           intros (_ & _ & [[_ H0] | [Hi _]]); [contradiction | congruence].
      * assert (Hlt : (max_standard_func ctx >=? 0xB) = false)
          by (rewrite Z.geb_leb; apply Z.leb_gt; exact Hstd).
        destruct (amd_legacy_cores_info_returns hw ctx p Hlt) as (a2 & ->).
        split; [discriminate | intros (_ & Hstd' & _); lia].
    + intros a a' Hrun.
      apply (cores_info_threads_per_core_nonzero hw ctx a a'). left. exact Hrun.
    + intros a Htpc. apply (caches_info_no_division_fault hw fuel ctx a Htpc).
    + intros a. destruct (amd_instructions_run hw ctx a) as (a' & Hrun & _).
      exists a'. exact Hrun.
  - rewrite vendor_stages_division_fault.
    + destruct (Z.geb_spec max_standard 0xB) as [Hstd | Hstd].
      * assert (Hge : (max_standard_func ctx >=? 0xB) = true)
          by (apply Z.geb_le; exact Hstd).
        rewrite (intel_cores_info_0xB hw ctx p Hge). cbv zeta.
        fold max_standard. fold higher_func.
        destruct (Z.eqb_spec (Z.land (cpuid_result hw higher_func 0 EBX) 65535) 0)
          as [H0 | Hn0].
        -- split; [intros _ | reflexivity].
           split; [reflexivity |]. split; [exact Hstd |]. right. split; assumption.
        -- split; [discriminate |].
           intros (_ & _ & [[Ha _] | [_ H0]]); [congruence | contradiction].
      * assert (Hlt : (max_standard_func ctx >=? 0xB) = false)
          by (rewrite Z.geb_leb; apply Z.leb_gt; exact Hstd).
        destruct (intel_legacy_cores_info_returns hw ctx p Hlt) as (a2 & ->).
        split; [discriminate | intros (_ & Hstd' & _); lia].
    + intros a a' Hrun.
      apply (cores_info_threads_per_core_nonzero hw ctx a a'). right. exact Hrun.
    + intros a Htpc. apply (caches_info_no_division_fault hw fuel ctx a Htpc).
    + intros a. destruct (intel_instructions_run hw ctx a) as (a' & Hrun & _).
      exists a'. exact Hrun.
  - split; [discriminate |].
    intros (_ & _ & [[Ha _] | [Hi _]]); contradiction.
Qed.

(* ===================================================================== *)
(** ** Which functions a detection pass queries *)

Lemma queries_only_ret (P : Z * Z -> Prop) {A : Type} (x : A) : queries_only P (ret x).
Proof.
  intros m y m' H. apply Ok_inj in H. subst m'.
  exists []. split; [rewrite app_nil_r; reflexivity | constructor].
Qed.

Lemma queries_only_raise (P : Z * Z -> Prop) {A : Type} (f : fault) :
  queries_only P (@raise A f).
Proof. intros m y m' H. discriminate H. Qed.

Lemma queries_only_bind (P : Z * Z -> Prop) {A B : Type} (c : M A) (k : A -> M B) :
  queries_only P c -> (forall x, queries_only P (k x)) -> queries_only P (bind c k).
Proof.
  intros Hc Hk m y m' H.
  apply bind_inv in H. destruct H as (x & m1 & H1 & H2).
  destruct (Hc _ _ _ H1) as (new1 & Hq1 & Hp1).
  destruct (Hk x _ _ _ H2) as (new2 & Hq2 & Hp2).
  exists (new1 ++ new2)%list. split.
  - rewrite Hq2, Hq1, app_assoc. reflexivity.
  - apply Forall_app. split; assumption.
Qed.

Lemma queries_only_cpuidex (P : Z * Z -> Prop) (hw : hardware) (func sub_func : Z) :
  P (Int32.to_u32 func, Int32.to_u32 sub_func) ->
  queries_only P (__cpuidex hw func sub_func).
Proof.
  intros Hp m y m' H. apply Ok_inj in H. subst m'.
  exists [(Int32.to_u32 func, Int32.to_u32 sub_func)].
  split; [reflexivity | constructor; [exact Hp | constructor]].
Qed.

Lemma queries_only_silent (P : Z * Z -> Prop) {A : Type} (c : M A) :
  (forall m x m', c m = Ok x m' -> cpuid_queries m' = cpuid_queries m) ->
  queries_only P c.
Proof.
  intros Hc m y m' H. exists []. split; [| constructor].
  rewrite app_nil_r. apply (Hc _ _ _ H).
Qed.

Lemma queries_only_read (P : Z * Z -> Prop) {A : Type} (f : struct_cpu_specs -> A) :
  queries_only P (read_specs f).
Proof.
  apply queries_only_silent. intros m x m' H. apply Ok_inj in H. subst m'. reflexivity.
Qed.

Lemma queries_only_write (P : Z * Z -> Prop) (f : struct_cpu_specs -> struct_cpu_specs) :
  queries_only P (write_specs f).
Proof.
  apply queries_only_silent. intros m x m' H. apply Ok_inj in H. subst m'. reflexivity.
Qed.

Lemma queries_only_sdiv (P : Z * Z -> Prop) (x y : Z) : queries_only P (sdiv x y).
Proof.
  unfold sdiv. destruct (y =? 0); [apply queries_only_raise | apply queries_only_ret].
Qed.

Lemma queries_only_level (P : Z * Z -> Prop) (i : Z) :
  queries_only P (cache_level_spec_at i).
Proof.
  unfold cache_level_spec_at. destruct (cache_level_of_index i);
    [apply queries_only_ret | apply queries_only_raise].
Qed.

Lemma queries_only_probe (P : Z * Z -> Prop) (hw : hardware) :
  queries_only P (cpuid_is_available hw).
Proof.
  apply queries_only_silent. intros m x m' H. rewrite cpuid_is_available_run in H.
  apply Ok_inj in H. subst m'. reflexivity.
Qed.

(** Settles that a query is permitted from the guards passed on the way
    to it. *)
Ltac query_permitted :=
  repeat match goal with
         | |- context [if ?c then _ else _] => destruct c eqn:?
         end;
  repeat match goal with
         | H : (_ >=? _) = true |- _ => apply Z.geb_le in H
         end;
  unfold permitted_query;
  first
    [ left; unfold query_in_range; cbn [fst];
      repeat match goal with
             | |- context [Int32.to_u32 ?c] =>
                 let v := eval vm_compute in (Int32.to_u32 c) in
                 change (Int32.to_u32 c) with v
             end;
      lia
    | right; split; [assumption |]; unfold amd_instruction_query;
      first [left; reflexivity | right; reflexivity] ].

Ltac queries_step known :=
  lazymatch goal with
  | |- queries_only _ (ret _) => apply queries_only_ret
  | |- queries_only _ (raise _) => apply queries_only_raise
  | |- queries_only _ (__cpuidex _ _ _) => apply queries_only_cpuidex; query_permitted
  | |- queries_only _ (read_specs _) => apply queries_only_read
  | |- queries_only _ (write_specs _) => apply queries_only_write
  | |- queries_only _ (sdiv _ _) => apply queries_only_sdiv
  | |- queries_only _ (cache_level_spec_at _) => apply queries_only_level
  | |- queries_only _ (cpuid_is_available _) => apply queries_only_probe
  | |- queries_only _ (bind _ _) => apply queries_only_bind; [| intros ?]
  | |- queries_only _ (if ?c then _ else _) => destruct c eqn:?
  | |- queries_only _ (let _ := _ in _) => cbv zeta
  | |- queries_only _ _ => known
  end.

Ltac queries_auto known := repeat queries_step known.

Lemma queries_of_common (hw : hardware) (ctx : cpuid_ctx) (amd : Prop) :
  queries_only (permitted_query ctx amd) (cpu_specs_get_common_instructions hw ctx).
Proof. unfold cpu_specs_get_common_instructions. queries_auto fail. Qed.

Lemma queries_of_amd_cores (hw : hardware) (ctx : cpuid_ctx) (amd : Prop) :
  queries_only (permitted_query ctx amd) (cpu_specs_amd_get_cores_info hw ctx).
Proof. unfold cpu_specs_amd_get_cores_info. queries_auto fail. Qed.

Lemma queries_of_intel_cores (hw : hardware) (ctx : cpuid_ctx) (amd : Prop) :
  queries_only (permitted_query ctx amd) (cpu_specs_intel_get_cores_info hw ctx).
Proof. unfold cpu_specs_intel_get_cores_info. queries_auto fail. Qed.

Lemma queries_of_amd_loop (hw : hardware) (ctx : cpuid_ctx) (amd : Prop) (fuel : nat) :
  (0x8000001D <= max_extended_func ctx) ->
  forall subfunc o,
    queries_only (permitted_query ctx amd) (amd_caches_loop hw fuel subfunc o).
Proof.
  intros Hext.
  induction fuel as [| fuel IH]; intros subfunc o; cbn [amd_caches_loop];
    queries_auto ltac:(first [apply IH | unfold amd_cache_descriptor]).
Qed.

Lemma queries_of_intel_loop (hw : hardware) (ctx : cpuid_ctx) (amd : Prop) (fuel : nat) :
  (0x4 <= max_standard_func ctx) ->
  forall subfunc o,
    queries_only (permitted_query ctx amd) (intel_caches_loop hw fuel subfunc o).
Proof.
  intros Hstd.
  induction fuel as [| fuel IH]; intros subfunc o; cbn [intel_caches_loop];
    queries_auto ltac:(first [apply IH | unfold intel_cache_descriptor]).
Qed.

Lemma queries_of_amd_caches (hw : hardware) (ctx : cpuid_ctx) (amd : Prop) (fuel : nat) :
  queries_only (permitted_query ctx amd) (cpu_specs_amd_get_caches_info hw fuel ctx).
Proof.
  unfold cpu_specs_amd_get_caches_info.
  queries_auto ltac:(idtac; lazymatch goal with
    | |- queries_only _ (amd_caches_loop _ _ _ _) =>
        apply queries_of_amd_loop; apply Z.geb_le; assumption
    | |- _ => fail
    end).
Qed.

Lemma queries_of_intel_caches (hw : hardware) (ctx : cpuid_ctx) (amd : Prop) (fuel : nat) :
  queries_only (permitted_query ctx amd) (cpu_specs_intel_get_caches_info hw fuel ctx).
Proof.
  unfold cpu_specs_intel_get_caches_info.
  queries_auto ltac:(idtac; lazymatch goal with
    | |- queries_only _ (intel_caches_loop _ _ _ _) =>
        apply queries_of_intel_loop; apply Z.geb_le; assumption
    | |- _ => fail
    end).
Qed.

Lemma queries_of_intel_instructions (hw : hardware) (ctx : cpuid_ctx) (amd : Prop) :
  queries_only (permitted_query ctx amd) (cpu_specs_intel_get_instructions hw ctx).
Proof. unfold cpu_specs_intel_get_instructions. queries_auto fail. Qed.

Lemma queries_of_amd_instructions (hw : hardware) (ctx : cpuid_ctx) (amd : Prop) :
  amd -> queries_only (permitted_query ctx amd) (cpu_specs_amd_get_instructions hw ctx).
Proof.
  intros Hamd. unfold cpu_specs_amd_get_instructions. queries_auto fail.
Qed.


(** X15.  Every query of a detection pass that returns goes to function 0x0,
    0x1 or 0x80000000, or to a function that is at most the maximum the
    processor reports for its range -- except for the two queries of the
    AMD instruction decoder, (0xD, 0x5) and (0x80000001, 0x0), which are
    issued on an AMD processor whenever the standard, respectively the
    extended, maximum is at least 0xB. *)
Theorem detection_queries_in_range (hw : hardware) (fuel : nat) (m m' : machine) :
  cpu_specs_init hw fuel m = Ok tt m' ->
  exists new,
    cpuid_queries m' = (cpuid_queries m ++ new)%list
    /\ Forall (permitted_query (detected_ctx hw)
                 (cpuid_result hw 0x0 0x0 ECX = CPU_MANUFACTURER_AMD)) new.
Proof.
  intros Hrun.
  destruct (hw_id_flag_changeable hw) eqn:Hhw.
  2: { rewrite (cpu_specs_init_unavailable hw fuel m Hhw) in Hrun.
       apply Ok_inj in Hrun. subst m'.
       exists []. split; [rewrite app_nil_r; reflexivity | constructor]. }
  rewrite (cpu_specs_init_available hw fuel m Hhw) in Hrun.
  set (ctx := detected_ctx hw) in *.
  set (amd := cpuid_result hw 0 0 ECX = CPU_MANUFACTURER_AMD).
  set (permitted := permitted_query ctx amd).
  apply bind_inv in Hrun. destruct Hrun as ([] & a1 & Hrun1 & Hrun).
  rewrite bind_cpuidex in Hrun.
  destruct (queries_of_common hw ctx amd _ _ _ Hrun1) as (new1 & Hq1 & Hp1).
  cbn [cpuid_queries log_query set_eflags] in Hq1.
  assert (Hzero : permitted (0, 0)) by (left; unfold query_in_range; cbn [fst]; lia).
  assert (Hbase : permitted (2147483648, 0))
    by (left; unfold query_in_range; cbn [fst]; lia).
  assert (Hrest : exists new2,
             cpuid_queries m'
             = (cpuid_queries (log_query (Int32.to_u32 0, Int32.to_u32 0) a1) ++ new2)%list
             /\ Forall permitted new2).
  { revert Hrun.
    destruct (Z.eqb_spec (cpuid_result hw 0 0 ECX) CPU_MANUFACTURER_AMD) as [Hamd | _];
      [| destruct (cpuid_result hw 0 0 ECX =? CPU_MANUFACTURER_INTEL)].
    - apply (queries_only_bind permitted); [apply queries_of_amd_cores | intros _].
      apply queries_only_bind; [apply queries_of_amd_caches | intros _].
      apply queries_of_amd_instructions. exact Hamd.
    - apply (queries_only_bind permitted); [apply queries_of_intel_cores | intros _].
      apply queries_only_bind; [apply queries_of_intel_caches | intros _].
      apply queries_of_intel_instructions.
    - apply (queries_only_ret permitted). }
  destruct Hrest as (new2 & Hq2 & Hp2).
  cbn [cpuid_queries log_query] in Hq2.
  exists ([(0, 0); (2147483648, 0)] ++ new1 ++ [(0, 0)] ++ new2)%list. split.
  - rewrite Hq2, Hq1. rewrite <- !app_assoc. reflexivity.
  - repeat (apply Forall_app; split); try assumption;
      repeat (constructor; try assumption).
Qed.

Lemma detection_queries_in_range_witness :
  exists m',
    cpu_specs_init sample_amd_hw 8 (boot ISA_x64 0) = Ok tt m'
    /\ exists new,
        cpuid_queries m' = (cpuid_queries (boot ISA_x64 0) ++ new)%list
        /\ Forall (permitted_query (detected_ctx sample_amd_hw)
                     (cpuid_result sample_amd_hw 0x0 0x0 ECX = CPU_MANUFACTURER_AMD)) new.
Proof.
  eexists. split; [vm_compute; reflexivity |].
  apply (detection_queries_in_range sample_amd_hw 8 (boot ISA_x64 0)).
  vm_compute. reflexivity.
Defined.

(** The sample AMD processor reports 0x10 as its highest standard
    function: the query of function 0xD is in range there, and so are all
    the others. *)
Example queries_of_sample_amd :
  exists m',
    cpu_specs_init sample_amd_hw 8 (boot ISA_x64 0) = Ok tt m'
    /\ cpuid_queries m'
       = [(0x0, 0); (0x80000000, 0); (0x1, 0); (0x7, 0); (0x80000001, 0); (0x0, 0);
          (0xB, 0); (0xB, 1); (0x80000001, 0); (0x8000001D, 0); (0x8000001D, 1);
          (0x8000001D, 2); (0x8000001D, 3); (0x8000001D, 4); (0xD, 5); (0x80000001, 0)].
Proof. eexists. split; vm_compute; reflexivity. Qed.

(** An AMD processor that reports 0xB and 0x80000000 as its highest
    functions is asked for functions 0xD and 0x80000001 all the same. *)
Example amd_queries_beyond_the_maxima :
  exists m',
    cpu_specs_init
      (mk_hardware
         (fun func _ =>
            if func =? 0x0 then regs 0xB 0x68747541 0x444D4163 0x69746E65
            else if func =? 0xB then regs 0 1 0 0
            else if func =? 0x80000000 then regs 0x80000000 0 0 0
            else regs 0 0 0 0) true)
      8 (boot ISA_x64 0) = Ok tt m'
    /\ cpuid_queries m'
       = [(0x0, 0); (0x80000000, 0); (0x1, 0); (0x7, 0); (0x0, 0);
          (0xB, 0); (0xB, 1); (0xD, 5); (0x80000001, 0)].
Proof. eexists. split; vm_compute; reflexivity. Qed.

(* ===================================================================== *)
(** ** Cores out of logical processors *)

Lemma shift_by_bit (total : Z) (b : bool) :
  0 <= total < 2 ^ 16 ->
  Z.shiftr total (Z.b2z b) = total / (Z.b2z b + 1).
Proof.
  intros Ht. rewrite Z.shiftr_div_pow2 by (destruct b; cbn; lia).
  destruct b; reflexivity.
Qed.

Lemma truthy_bit (b : bool) : truthy (Z.b2z b) = b.
Proof. destruct b; reflexivity. Qed.

Lemma add_bit (b : bool) : Int32.add (Z.b2z b) 1 = Z.b2z b + 1.
Proof. destruct b; reflexivity. Qed.

Lemma truthy_mask_bit (x k : Z) :
  0 <= k -> truthy (Z.land x (Z.shiftl 1 k)) = Z.testbit x k.
Proof.
  intros Hk. unfold truthy.
  destruct (Z.testbit x k) eqn:Hbit.
  - apply negb_true_iff, Z.eqb_neq. intros H0.
    apply (f_equal (fun y => Z.testbit y k)) in H0.
    rewrite Z.land_spec, Hbit, testbit_single, Z.eqb_refl, Z.bits_0 in H0 by lia.
    discriminate H0.
  - apply negb_false_iff, Z.eqb_eq. apply Z.bits_inj'. intros n Hn.
    rewrite Z.land_spec, Z.bits_0, testbit_single by lia.
    destruct (Z.eqb_spec n k) as [-> | _]; [rewrite Hbit; reflexivity | apply andb_false_r].
Qed.

(** X16.  The topology decoders, path by path, obey one law.  A decoder that
    returns leaves between 1 and 65535 in [threads_per_core], and, on
    every path that assigns [core_count], the number of logical processors
    it read divided by [threads_per_core], rounded down -- whether the
    code divides, shifts by the hyper-threading bit or shifts by one.  On
    the remaining paths [core_count] keeps its value. *)
Theorem core_count_is_a_quotient (hw : hardware) (ctx : cpuid_ctx) (m : machine) :
  (forall m',
      cpu_specs_amd_get_cores_info hw ctx m = Ok tt m' ->
      1 <= threads_per_core (cpu_specs m') <= 65535
      /\ core_count (cpu_specs m')
         = if amd_keeps_core_count hw ctx then core_count (cpu_specs m)
           else amd_total_thread_count hw ctx / threads_per_core (cpu_specs m'))
  /\ (forall m',
         cpu_specs_intel_get_cores_info hw ctx m = Ok tt m' ->
         1 <= threads_per_core (cpu_specs m') <= 65535
         /\ core_count (cpu_specs m')
            = if intel_keeps_core_count hw ctx then core_count (cpu_specs m)
              else intel_total_thread_count hw ctx / threads_per_core (cpu_specs m')).
Proof.
  unfold amd_keeps_core_count, amd_total_thread_count,
    intel_keeps_core_count, intel_total_thread_count.
  pose proof (land_mask_range (Z.shiftr (cpuid_result hw 1 0 EBX) 16) 8 ltac:(lia)) as Hlp.
  pose proof (land_mask_range (cpuid_result hw 0x80000008 0 ECX) 8 ltac:(lia)) as Hnc.
  change (Z.ones 8) with 255 in Hlp, Hnc. change (2 ^ 8) with 256 in Hlp, Hnc.
  destruct (max_standard_func ctx >=? 0xB) eqn:Hstd; cbn [negb andb].
  - rewrite (amd_cores_info_0xB hw ctx m Hstd), (intel_cores_info_0xB hw ctx m Hstd).
    cbv zeta.
    split; intros m';
      match goal with |- (if ?c =? 0 then _ else _) = _ -> _ =>
        pose proof (land_mask_range
                      ltac:(match c with Z.land ?x _ => exact x end) 16 ltac:(lia)) as Hf;
        change (Z.ones 16) with 65535 in Hf; change (2 ^ 16) with 65536 in Hf;
        destruct (Z.eqb_spec c 0) as [H0 | Hn0]; [discriminate |]
      end;
      intros Hrun; apply Ok_inj in Hrun; subst m'; specs_simpl;
      (split; [lia |]); apply field_quotient;
      first
        [ lia
        | match goal with |- 0 <= Z.land ?x 65535 < _ =>
            pose proof (land_mask_range x 16 ltac:(lia)) as Ht;
            change (Z.ones 16) with 65535 in Ht; exact Ht
          end ].
  - unfold cpu_specs_amd_get_cores_info, cpu_specs_intel_get_cores_info. rewrite Hstd.
    run_prims. unfold sdiv. specs_simpl.
    rewrite !(isolated_bit_testbit (cpuid_result hw 1 0 EDX) 28) by lia.
    rewrite !truthy_bit, !add_bit, ?(truthy_mask_bit _ 1) by lia.
    split; intros m'.
    + destruct (max_extended_func ctx >=? 0x80000008); cbn [negb andb].
      * intros Hrun; apply Ok_inj in Hrun; subst m'; specs_simpl.
        split; [destruct (Z.testbit (cpuid_result hw 1 0 EDX) 28); cbn; lia |].
        rewrite add_exact by lia. apply shift_by_bit. lia.
      * destruct (Z.testbit (cpuid_result hw 1 0 EDX) 28); cbn [negb orb andb Z.b2z].
        -- destruct (max_extended_func ctx >=? 0x80000001); cbn [andb].
           ++ destruct (Z.testbit (cpuid_result hw 0x80000001 0 ECX) 1); cbn [negb];
                intros Hrun; apply Ok_inj in Hrun; subst m'; specs_simpl;
                (split; [lia |]); [| reflexivity].
              apply (shift_by_bit _ true). lia.
           ++ intros Hrun; apply Ok_inj in Hrun; subst m'; specs_simpl.
              split; [lia |]. apply (shift_by_bit _ true). lia.
        -- intros Hrun; apply Ok_inj in Hrun; subst m'; specs_simpl.
           split; [lia | reflexivity].
    + destruct (Z.testbit (cpuid_result hw 1 0 EDX) 28); cbn [negb Z.b2z].
      * change (1 + 1 =? 0) with false. cbv beta iota delta [ret].
        intros Hrun; apply Ok_inj in Hrun; subst m'; specs_simpl.
        split; [lia |]. apply field_quotient; lia.
      * intros Hrun; apply Ok_inj in Hrun; subst m'; specs_simpl.
        split; [lia | reflexivity].
Qed.

(** A core count of 0: the hyper-threading bit set with one logical
    processor reported. *)
Example core_count_of_zero :
  exists m',
    cpu_specs_intel_get_cores_info
      (mk_hardware (fun _ _ => regs 0 0x00010000 0 0x10000000) true)
      (mk_cpuid_ctx 0x1 0) (boot ISA_x64 0) = Ok tt m'
    /\ threads_per_core (cpu_specs m') = 2
    /\ core_count (cpu_specs m') = 0.
Proof. eexists. split; [vm_compute; reflexivity | split; reflexivity]. Qed.

(* ===================================================================== *)
(** ** The earlier revision starts afresh *)

Lemma specs_determined_legacy_tail (hw : hardware) (fuel : nat) (ctx : cpuid_ctx) :
  specs_determined
    (Legacy.cpu_specs_get_common_instructions hw ctx ;;
     cpuid_out <- __cpuidex hw 0x0 0x0 ;;
     let cpu_manufacturer_ecx := cpuid_out ECX in
     if cpu_manufacturer_ecx =? CPU_MANUFACTURER_AMD then
       cpu_specs_amd_get_cores_info hw ctx ;;
       cpu_specs_amd_get_caches_info hw fuel ctx ;;
       Legacy.cpu_specs_amd_get_instructions hw ctx
     else if cpu_manufacturer_ecx =? CPU_MANUFACTURER_INTEL then
       cpu_specs_intel_get_cores_info hw ctx ;;
       cpu_specs_intel_get_caches_info hw fuel ctx ;;
       Legacy.cpu_specs_intel_get_instructions hw ctx
     else ret tt).
Proof.
  determined ltac:(idtac; lazymatch goal with
    | |- specs_determined (cpu_specs_amd_get_cores_info _ _) =>
        apply specs_determined_amd_cores
    | |- specs_determined (cpu_specs_amd_get_caches_info _ _ _) =>
        apply specs_determined_amd_caches
    | |- specs_determined (cpu_specs_intel_get_cores_info _ _) =>
        apply specs_determined_intel_cores
    | |- specs_determined (cpu_specs_intel_get_caches_info _ _ _) =>
        apply specs_determined_intel_caches
    | |- specs_determined (Legacy.cpu_specs_get_common_instructions _ _) =>
        unfold Legacy.cpu_specs_get_common_instructions
    | |- specs_determined (Legacy.cpu_specs_amd_get_instructions _ _) =>
        unfold Legacy.cpu_specs_amd_get_instructions
    | |- specs_determined (Legacy.cpu_specs_intel_get_instructions _ _) =>
        unfold Legacy.cpu_specs_intel_get_instructions
    | |- specs_determined (Legacy.or_flag _ _) => unfold Legacy.or_flag
    end).
Qed.

(** X17.  A detection pass of the earlier revision forgets what [cpu_specs]
    held: run from any two machines it stops on the same fault or returns
    with the same [cpu_specs].  Nothing of an earlier pass, and nothing
    written by the caller, survives it. *)
Theorem legacy_pass_starts_afresh (hw : hardware) (fuel : nat) (a b : machine) :
  results_agree (Legacy.cpu_specs_init hw fuel a) (Legacy.cpu_specs_init hw fuel b).
Proof.
  unfold Legacy.cpu_specs_init.
  rewrite (bind_ok _ _ _ _ _ (legacy_cpuid_ctx_get_run hw a)).
  rewrite (bind_ok _ _ _ _ _ (legacy_cpuid_ctx_get_run hw b)).
  rewrite !(bind_ok _ _ _ _ _ (legacy_set_defaults_run _)).
  apply (specs_determined_legacy_tail hw fuel (detected_ctx hw)).
  reflexivity.
Qed.

(** The later revision does not reset [cpu_specs]: with an unrecognised
    signature word the cache line size the caller left is still there. *)
Example later_pass_keeps_previous_values :
  exists m',
    cpu_specs_init sample_unknown_hw 8
      (update_cpu_specs (set_cache_line_size 128) (boot ISA_x64 0)) = Ok tt m'
    /\ cache_line_size (cpu_specs m') = 128.
Proof. eexists. split; [vm_compute; reflexivity | reflexivity]. Qed.

(* ===================================================================== *)
(** ** Composing flag updates *)

Lemma flag_masks_disjoint (f g : cpu_instruction) (n : Z) :
  f <> g -> Z.testbit (flag_mask f) n && Z.testbit (flag_mask g) n = false.
Proof.
  intros Hfg. rewrite !flag_mask_testbit.
  destruct (Z.eqb_spec n (flag_pos f)) as [-> | _]; [| reflexivity].
  cbn [andb]. apply Z.eqb_neq. intros Heq. apply Hfg.
  destruct f, g; try reflexivity; discriminate Heq.
Qed.

(** X18.  Two calls of [update_inst_availability] for different flags can be
    swapped, and a call for a mask makes an earlier call for the same mask
    void: the order of the rules of a decoder matters only between rules
    for the same flag, where the last one decides. *)
Theorem flag_updates_commute_or_overwrite
  (instructions flags1 flag_bit1 flags2 flag_bit2 : Z) :
  0 <= flag_bit1 -> 0 <= flag_bit2 ->
  (forall f g : cpu_instruction,
      f <> g ->
      update_inst_availability
        (update_inst_availability instructions flags1 flag_bit1 f) flags2 flag_bit2 g
      = update_inst_availability
          (update_inst_availability instructions flags2 flag_bit2 g) flags1 flag_bit1 f)
  /\ (forall feature_mask,
         update_inst_availability
           (update_inst_availability instructions flags1 flag_bit1 feature_mask)
           flags2 flag_bit2 feature_mask
         = update_inst_availability instructions flags2 flag_bit2 feature_mask).
Proof.
  intros H1 H2. split.
  - intros f g Hfg. apply Z.bits_inj. intros n.
    rewrite !update_inst_availability_bits by assumption.
    pose proof (flag_masks_disjoint f g n Hfg) as Hd.
    destruct (Z.testbit (flag_mask f) n), (Z.testbit (flag_mask g) n);
      try reflexivity; discriminate Hd.
  - intros feature_mask. apply Z.bits_inj. intros n.
    rewrite !update_inst_availability_bits by assumption.
    destruct (Z.testbit feature_mask n); reflexivity.
Qed.

Lemma flag_updates_commute_or_overwrite_witness :
  (forall f g : cpu_instruction,
      f <> g ->
      update_inst_availability
        (update_inst_availability 0x3 0x128 3 f) 0 5 g
      = update_inst_availability
          (update_inst_availability 0x3 0 5 g) 0x128 3 f)
  /\ (forall feature_mask,
         update_inst_availability
           (update_inst_availability 0x3 0x128 3 feature_mask) 0 5 feature_mask
         = update_inst_availability 0x3 0 5 feature_mask).
Proof.
  apply (flag_updates_commute_or_overwrite 0x3 0x128 3 0 5); lia.
Defined.

(* ===================================================================== *)
(** ** When a detection pass returns *)

Lemma intel_caches_info_returns (hw : hardware) (fuel : nat) (ctx : cpuid_ctx)
  (m : machine) (count : nat) :
  threads_per_core (cpu_specs m) <> 0 ->
  (0x4 <= max_standard_func ctx ->
   descriptors_end_at hw 0x4 0 count /\ (count <= fuel)%nat) ->
  exists m', cpu_specs_intel_get_caches_info hw fuel ctx m = Ok tt m'.
Proof.
  intros Htpc Hwf. unfold cpu_specs_intel_get_caches_info.
  destruct (max_standard_func ctx >=? 4) eqn:Hstd; [| eexists; reflexivity].
  apply Z.geb_le in Hstd.
  destruct (Hwf Hstd) as ((_ & Hbound & Hvalid & Hend & Hlevel) & Hfuel).
  cbv zeta. rewrite bind_cpuidex.
  match goal with |- exists _, bind (write_specs ?f) _ ?p = _ =>
    change (bind (write_specs f) (fun _ => intel_caches_loop hw fuel 0 (cpuid_result hw 4 0)) p)
      with (intel_caches_loop hw fuel (Z.of_nat 0) (cpuid_result hw 4 (Z.of_nat 0))
              (update_cpu_specs f p));
    destruct (intel_loop_enumerates hw count 0 fuel (update_cpu_specs f p))
      as (m' & Hrun & _)
  end;
    try assumption;
    try (intros i Hi; first [apply Hvalid; lia | apply Hlevel; lia]).
  exists m'. exact Hrun.
Qed.

Lemma amd_caches_info_returns (hw : hardware) (fuel : nat) (ctx : cpuid_ctx)
  (m : machine) (count : nat) :
  threads_per_core (cpu_specs m) <> 0 ->
  (0x8000001D <= max_extended_func ctx ->
   Z.testbit (cpuid_result hw 0x80000001 0x0 ECX) 22 = true ->
   descriptors_end_at hw 0x8000001D 1 count /\ (count <= fuel)%nat) ->
  exists m', cpu_specs_amd_get_caches_info hw fuel ctx m = Ok tt m'.
Proof.
  intros Htpc Hwf. unfold cpu_specs_amd_get_caches_info.
  destruct (max_extended_func ctx >=? 0x8000001D) eqn:Hext.
  - apply Z.geb_le in Hext. cbv zeta. rewrite bind_cpuidex.
    rewrite (truthy_mask_bit _ 22) by lia.
    destruct (Z.testbit (cpuid_result hw 0x80000001 0 ECX) 22) eqn:Hbit;
      [| eexists; reflexivity].
    destruct (Hwf Hext eq_refl) as ((Hpos & Hbound & Hvalid & Hend & Hlevel) & Hfuel).
    destruct count as [| more]; [lia |].
    rewrite bind_cpuidex.
    match goal with |- exists _, bind (write_specs ?f) _ ?p = _ =>
      change (bind (write_specs f)
                (fun _ => amd_caches_loop hw fuel 0 (cpuid_result hw 0x8000001D 0)) p)
        with (amd_caches_loop hw fuel (Z.of_nat 0) (cpuid_result hw 0x8000001D (Z.of_nat 0))
                (update_cpu_specs f p));
      destruct (amd_loop_enumerates hw more 0 fuel (update_cpu_specs f p))
        as (m' & Hrun & _)
    end;
      try assumption;
      try (intros i Hi; first [apply Hvalid; lia | apply Hlevel; lia]).
    exists m'. exact Hrun.
  - destruct (max_extended_func ctx >=? 0x80000005); [| eexists; reflexivity].
    run_prims. destruct (max_extended_func ctx >=? 0x80000006); eexists; reflexivity.
Qed.

(** X19.  A detection pass returns on every processor without CPUID and on
    every processor whose signature word is neither of the two known ones.
    On an AMD or Intel processor it returns as soon as the topology
    function, where function 0xB is reported, answers with a nonzero
    number of threads per core, and the cache function, where the decoder
    enumerates one, describes its caches properly and in no more
    sub-functions than [fuel] allows. *)
Theorem detection_returns (hw : hardware) (fuel : nat) (m : machine) (count : nat) :
  let max_standard := max_standard_func (detected_ctx hw) in
  let max_extended := max_extended_func (detected_ctx hw) in
  let cpu_manufacturer_ecx := cpuid_result hw 0x0 0x0 ECX in
  let higher_func := if max_standard >=? 0x1F then 0x1F else 0xB in
  (cpu_manufacturer_ecx = CPU_MANUFACTURER_AMD ->
   (0xB <= max_standard -> Z.land (cpuid_result hw 0xB 0x0 EBX) 0xFFFF <> 0)
   /\ (0x8000001D <= max_extended ->
       Z.testbit (cpuid_result hw 0x80000001 0x0 ECX) 22 = true ->
       descriptors_end_at hw 0x8000001D 1 count /\ (count <= fuel)%nat)) ->
  (cpu_manufacturer_ecx = CPU_MANUFACTURER_INTEL ->
   (0xB <= max_standard -> Z.land (cpuid_result hw higher_func 0x0 EBX) 0xFFFF <> 0)
   /\ (0x4 <= max_standard ->
       descriptors_end_at hw 0x4 0 count /\ (count <= fuel)%nat)) ->
  exists m', cpu_specs_init hw fuel m = Ok tt m'.
Proof.
  intros max_standard max_extended ecx higher_func Hamd_ok Hintel_ok.
  destruct (hw_id_flag_changeable hw) eqn:Hhw.
  2: { eexists. apply (cpu_specs_init_unavailable hw fuel m Hhw). }
  rewrite (cpu_specs_init_available hw fuel m Hhw).
  set (ctx := detected_ctx hw) in *.
  match goal with |- exists _, bind _ _ ?p = _ =>
    destruct (common_instructions_run hw ctx p) as (a1 & Hrun1 & _)
  end.
  rewrite (bind_ok _ _ _ _ _ Hrun1), bind_cpuidex. fold ecx.
  set (p := log_query (Int32.to_u32 0, Int32.to_u32 0) a1).
  destruct (Z.eqb_spec ecx CPU_MANUFACTURER_AMD) as [Hamd | _];
    [| destruct (Z.eqb_spec ecx CPU_MANUFACTURER_INTEL) as [Hintel | _]].
  - destruct (Hamd_ok Hamd) as [Htopo Hcaches].
    assert (Hcores : exists a2, cpu_specs_amd_get_cores_info hw ctx p = Ok tt a2).
    { destruct (max_standard_func ctx >=? 0xB) eqn:Hstd.
      - rewrite (amd_cores_info_0xB hw ctx p Hstd). cbv zeta.
        apply Z.geb_le in Hstd.
        destruct (Z.eqb_spec (Z.land (cpuid_result hw 11 0 EBX) 65535) 0) as [H0 | _];
          [exfalso; apply (Htopo Hstd H0) | eexists; reflexivity].
      - apply (amd_legacy_cores_info_returns hw ctx p Hstd). }
    destruct Hcores as (a2 & Hrun2).
    destruct (amd_caches_info_returns hw fuel ctx a2 count) as (a3 & Hrun3);
      [ apply (cores_info_threads_per_core_nonzero hw ctx p a2); left; exact Hrun2
      | exact Hcaches | ].
    destruct (amd_instructions_run hw ctx a3) as (a4 & Hrun4 & _).
    exists a4.
    rewrite (bind_ok _ _ _ _ _ Hrun2), (bind_ok _ _ _ _ _ Hrun3). exact Hrun4.
  - destruct (Hintel_ok Hintel) as [Htopo Hcaches].
    assert (Hcores : exists a2, cpu_specs_intel_get_cores_info hw ctx p = Ok tt a2).
    { destruct (max_standard_func ctx >=? 0xB) eqn:Hstd.
      - rewrite (intel_cores_info_0xB hw ctx p Hstd). cbv zeta.
        fold max_standard. fold higher_func.
        apply Z.geb_le in Hstd.
        destruct (Z.eqb_spec (Z.land (cpuid_result hw higher_func 0 EBX) 65535) 0)
          as [H0 | _];
          [exfalso; apply (Htopo Hstd H0) | eexists; reflexivity].
      - apply (intel_legacy_cores_info_returns hw ctx p Hstd). }
    destruct Hcores as (a2 & Hrun2).
    destruct (intel_caches_info_returns hw fuel ctx a2 count) as (a3 & Hrun3);
      [ apply (cores_info_threads_per_core_nonzero hw ctx p a2); right; exact Hrun2
      | exact Hcaches | ].
    destruct (intel_instructions_run hw ctx a3) as (a4 & Hrun4 & _).
    exists a4.
    rewrite (bind_ok _ _ _ _ _ Hrun2), (bind_ok _ _ _ _ _ Hrun3). exact Hrun4.
  - eexists. reflexivity.
Qed.

Lemma detection_returns_witness :
  exists m', cpu_specs_init sample_intel_hw 4 (boot ISA_x64 0) = Ok tt m'.
Proof.
  apply (detection_returns sample_intel_hw 4 (boot ISA_x64 0) 4).
  - intros Hamd. discriminate Hamd.
  - intros _. split; [intros _; discriminate |].
    intros _. split; [| lia].
    split; [lia |]. split; [reflexivity |]. split; [| split; [reflexivity |]].
    + intros i Hi.
      assert (Hcases : i = 0%nat \/ i = 1%nat \/ i = 2%nat \/ i = 3%nat) by lia.
      destruct Hcases as [-> | [-> | [-> | ->]]]; reflexivity.
    + intros i Hi _.
      assert (Hcases : i = 0%nat \/ i = 1%nat \/ i = 2%nat \/ i = 3%nat) by lia.
      destruct Hcases as [-> | [-> | [-> | ->]]]; discriminate.
Defined.

(** One sub-function more than the fuel: the model of the Intel loop
    gives up. *)
Example detection_out_of_fuel :
  cpu_specs_init sample_intel_hw 3 (boot ISA_x64 0) = Fault OutOfFuel.
Proof. vm_compute. reflexivity. Qed.

(* ===================================================================== *)
(** ** A descriptor of level 0 *)







(* ===================================================================== *)
(** ** What the availability probe leaves in FLAGS *)

(** X21.  [cpuid_is_available] never writes [orig_eflags] back.  It returns
    whether the ID flag could be changed, touches neither singleton and
    issues no query; of the FLAGS register it changes at most bit 21: on a
    processor with CPUID the bit is left toggled -- so that each call of an
    entry point flips it, and a second probe restores it --, on a
    processor without CPUID the register is as it was. *)
Theorem probe_leaves_id_flag_toggled (hw : hardware) (m : machine) :
  exists m',
    cpuid_is_available hw m = Ok (hw_id_flag_changeable hw) m'
    /\ cpu_specs m' = cpu_specs m
    /\ cpu_identity m' = cpu_identity m
    /\ cpuid_queries m' = cpuid_queries m
    /\ (forall n, n <> 21 -> Z.testbit (eflags m') n = Z.testbit (eflags m) n)
    /\ Z.testbit (eflags m') 21
       = xorb (Z.testbit (eflags m) 21) (hw_id_flag_changeable hw)
    /\ (hw_id_flag_changeable hw = false -> eflags m' = eflags m)
    /\ exists m'',
        cpuid_is_available hw m' = Ok (hw_id_flag_changeable hw) m''
        /\ eflags m'' = eflags m.
Proof.
  assert (Hbits : forall e n,
             Z.testbit (eflags_after_probe hw e) n
             = if n =? 21 then xorb (Z.testbit e 21) (hw_id_flag_changeable hw)
               else Z.testbit e n).
  { intros e n. unfold eflags_after_probe, ID_FLAG.
    destruct (Z_lt_le_dec n 0) as [Hneg | Hn].
    { rewrite (Z.testbit_neg_r (if hw_id_flag_changeable hw then _ else _) n),
        (Z.testbit_neg_r e n) by assumption.
      destruct (Z.eqb_spec n 21); [lia | reflexivity]. }
    destruct (hw_id_flag_changeable hw).
    - rewrite Z.lxor_spec, testbit_single by lia.
      destruct (Z.eqb_spec n 21) as [-> | _]; [reflexivity | apply xorb_false_r].
    - rewrite Z.lor_spec, !Z.land_spec, Z.lxor_spec, Z.lnot_spec, testbit_single by lia.
      destruct (Z.eqb_spec n 21) as [-> | _].
      + cbn [negb]. rewrite andb_false_r, andb_true_r, xorb_false_r. reflexivity.
      + cbn [negb]. rewrite andb_true_r, andb_false_r, xorb_false_r, orb_false_r.
        reflexivity. }
  exists (set_eflags (eflags_after_probe hw (eflags m)) m).
  split; [apply cpuid_is_available_run |].
  cbn [cpu_specs cpu_identity cpuid_queries eflags set_eflags].
  split; [reflexivity |]. split; [reflexivity |]. split; [reflexivity |].
  split; [| split; [| split]].
  - intros n Hn. rewrite Hbits.
    destruct (Z.eqb_spec n 21); [contradiction | reflexivity].
  - rewrite Hbits. reflexivity.
  - intros Hhw. apply Z.bits_inj. intros n. rewrite Hbits, Hhw.
    destruct (Z.eqb_spec n 21) as [-> | _]; [apply xorb_false_r | reflexivity].
  - eexists. split; [apply cpuid_is_available_run |].
    cbn [eflags set_eflags]. apply Z.bits_inj. intros n. rewrite !Hbits.
    destruct (Z.eqb_spec n 21) as [-> | _]; [| reflexivity].
    destruct (Z.testbit (eflags m) 21), (hw_id_flag_changeable hw); reflexivity.
Qed.
